(** * FedhealthAI: federated training core, shallow embedding

    Embedding of [backend/api/ml_utils.py] and
    [backend/api/city_risk_calculator.py], with the two callers
    [management/commands/federated_training_cycle.py] and
    [views.AggregateModelsView].

    Conventions of the embedding
    - In the training, aggregation and risk-hierarchy code a Python [float]
      is an exact rational ([Q]); equalities between computed metrics are
      stated with [==].  Python's [round(x, n)] is [py_round x n] (round half
      to even on the decimal scaled by [10^n]).
    - The three detectors (model drift, composite risk, fever outbreak)
      compare a computed float with a threshold, and rounding decides the
      comparison at the threshold.  They are embedded a second time on IEEE
      754 binary64 ([SpecFloat]): [detect_model_drift_f64],
      [calculate_composite_risk_score_f64], [detect_fever_outbreak_f64].  The
      properties of their flags, severities and alerts are stated on these;
      the exact versions are the ones the training run threads the store
      through.  The three pandas calls of the outbreak detector are a record
      of functions ([PandasBackend]).
    - A float field of a patient record ([temperature_c], [hemoglobin]) is a
      number, NaN or an infinity ([fval]).
    - A MongoDB collection is the list of its documents in insertion order;
      a query is a filter of that list, [order_by] is a stable sort.
    - [datetime.utcnow()] is the argument [now] of the operation.
    - Store operations succeed; the exceptions modelled are those of the
      numerical libraries, carried by [pyresult].
    - scikit-learn, XGBoost and pickle are a record of functions ([MLBackend]);
      in the exact outbreak detector the square root inside pandas' [std()]
      is the parameter [fsqrt].
    - Free-text fields of the documents ([message], [details]) are left out. *)

From Stdlib Require Import ZArith QArith Qround Qabs Qminmax String Ascii List Bool Lia Arith.
From Stdlib Require Import DecimalString Permutation Sorted Lqa SpecFloat.
From Stdlib Require DecimalZ DecimalPos.
Import ListNotations.
Open Scope string_scope.
Open Scope Q_scope.

(** ** Python numerics *)

(** Nearest integer, ties to the even one (what [round] does). *)
Definition round_half_even (q : Q) : Z :=
  let f := Qfloor q in
  match Qcompare (q - inject_Z f) (1 # 2) with
  | Lt => f
  | Gt => (f + 1)%Z
  | Eq => if Z.even f then f else (f + 1)%Z
  end.

Definition pow10 (n : nat) : Q := inject_Z (Z.pow 10 (Z.of_nat n)).

(** [round(x, ndigits)] *)
Definition py_round (x : Q) (ndigits : nat) : Q :=
  inject_Z (round_half_even (x * pow10 ndigits)) / pow10 ndigits.

(** [str(n)] for an integer. *)
Definition str_of_Z (n : Z) : string := NilZero.string_of_int (Z.to_int n).

Definition Qgtb (a b : Q) : bool := negb (Qle_bool a b).
Definition Qltb (a b : Q) : bool := negb (Qle_bool b a).

(** ** Binary64 *)

(** A Python [float] as the detectors compare it with their thresholds: an
    IEEE 754 binary64 number, with the operations of [SpecFloat] (round to
    nearest, ties to even). *)
Definition f64 : Type := spec_float.

Definition f64_prec : Z := 53.
Definition f64_emax : Z := 1024.

(** [float(n)] for an integer. *)
Definition f64_of_Z (n : Z) : f64 := binary_normalize f64_prec f64_emax n 0 false.

(** The binary64 number nearest a rational: a decimal literal, the quotient
    [a / b] of two integers, a float read back from the store.  The quotient
    is taken to at least 64 bits with a sticky last bit, then rounded once. *)
Definition f64_of_Q (q : Q) : f64 :=
  let n := Qnum q in
  let d := Zpos (Qden q) in
  if (n =? 0)%Z then S754_zero false
  else
    let k := Z.max 0 (64 + Z.log2 d - Z.log2 (Z.abs n)) in
    let a := (Z.abs n * 2 ^ k)%Z in
    let m := (2 * (a / d) + (if (a mod d =? 0)%Z then 0 else 1))%Z in
    binary_normalize f64_prec f64_emax (if (n <? 0)%Z then (- m)%Z else m)
      (- (k + 1)) false.

(** The rational a finite binary64 number is. *)
Definition Q_of_f64 (x : f64) : option Q :=
  match x with
  | S754_zero _ => Some 0
  | S754_finite s m e =>
      let z := if s then Zneg m else Zpos m in
      Some (if (0 <=? e)%Z then inject_Z (z * 2 ^ e)
            else z # Z.to_pos (2 ^ (- e)))
  | S754_infinity _ | S754_nan => None
  end.

Definition fadd : f64 -> f64 -> f64 := SFadd f64_prec f64_emax.
Definition fsub : f64 -> f64 -> f64 := SFsub f64_prec f64_emax.
Definition fmul : f64 -> f64 -> f64 := SFmul f64_prec f64_emax.
Definition fdiv : f64 -> f64 -> f64 := SFdiv f64_prec f64_emax.
Definition f64_sqrt : f64 -> f64 := SFsqrt f64_prec f64_emax.
Definition fabs : f64 -> f64 := SFabs.

(** [a < b] and [a == b]; both are [False] when an operand is NaN. *)
Definition fltb : f64 -> f64 -> bool := SFltb.
Definition feqb : f64 -> f64 -> bool := SFeqb.

(** [x != x] *)
Definition f64_is_nan (x : f64) : bool :=
  match x with S754_nan => true | _ => false end.

Definition f64_sign (x : f64) : bool :=
  match x with
  | S754_zero s | S754_infinity s | S754_finite s _ _ => s
  | S754_nan => false
  end.

(** [round(x, ndigits)] on a float: the decimal nearest the exact value of
    [x] (ties to even), converted back; NaN and the infinities are returned
    as they are, a zero result keeps the sign of [x]. *)
Definition py_round_f64 (x : f64) (ndigits : nat) : f64 :=
  match Q_of_f64 x with
  | Some q =>
      let r := py_round q ndigits in
      if Qeq_bool r 0 then S754_zero (f64_sign x) else f64_of_Q r
  | None => x
  end.

(** A stored [FloatField] that nothing has validated, and a numpy [float64]
    cell of the feature matrix: a number, NaN or an infinity. *)
Inductive fval := Fin (q : Q) | NaN | PosInf | NegInf.

Definition is_nan (v : fval) : bool := match v with NaN => true | _ => false end.
Definition is_inf (v : fval) : bool :=
  match v with PosInf | NegInf => true | _ => false end.

(** ** Documents ([api/models.py]) *)

Record LocalModel := {
  lm_id : nat;
  lm_phc_id : string;
  lm_version : Z;
  lm_version_string : string;
  lm_accuracy : Q;
  lm_precision : Q;
  lm_recall : Q;
  lm_f1_score : Q;
  lm_roc_auc : option Q;
  lm_sample_count : Z;
  lm_num_test_samples : Z;
  lm_num_train_samples : Z;
  lm_train_accuracy : Q;          (* weights['train_accuracy'] *)
  lm_train_precision : Q;
  lm_train_recall : Q;
  lm_train_f1_score : Q;
  lm_trained_at : Z;
  lm_triggered_by : string;
  lm_aggregated : bool;
  lm_aggregated_in_version : option Z;
  lm_aggregated_in_version_string : option string
}.

Record GlobalModel := {
  gm_version : Z;
  gm_version_string : string;
  gm_accuracy : Q;
  gm_contributors : list string;
  gm_contributor_versions : list (string * string);
  gm_w_precision : Q;             (* weights['precision'] *)
  gm_w_recall : Q;
  gm_w_f1_score : Q;
  gm_w_total_samples : Z;
  gm_aggregated_at : Z;
  gm_aggregation_triggered_by : string
}.

Record ModelBroadcast := {
  mb_phc_id : string;
  mb_global_model_version : Z;
  mb_received_at : Z
}.

Record TrainingMetadata := {
  tm_phc_id : string;
  tm_last_training_at : option Z;
  tm_patients_since_last_training : Z;
  tm_last_aggregated_version : Z;
  tm_training_in_progress : bool;
  tm_updated_at : Z
}.

Record Patient := {
  pt_patient_id : string;
  pt_age : Z;
  pt_gender : string;
  pt_phc_id : string;
  pt_city : string;
  pt_fever : Z;
  pt_cough : Z;
  pt_fatigue : Z;
  pt_headache : Z;
  pt_vomiting : Z;
  pt_breathlessness : Z;
  pt_temperature_c : fval;
  pt_heart_rate : Z;
  pt_bp_systolic : Z;
  pt_wbc_count : Z;
  pt_platelet_count : Z;
  pt_hemoglobin : fval;
  pt_disease_label : string;
  pt_severity_level : string;
  pt_created_at : Z               (* seconds *)
}.

Record Alert := {
  al_phc_id : string;
  al_alert_type : string;
  al_risk_score : Q;
  al_severity : string;
  al_created_at : Z;
  al_local_model_version : Z;
  al_local_model_version_string : option string;
  al_global_model_version : Z;
  al_global_model_version_string : option string;
  al_drift_detected : bool;
  al_accuracy_drop_percentage : option Q;
  al_previous_accuracy : option Q;
  al_current_accuracy : option Q;
  al_fever_percentage : option Q;
  al_positive_predictions_percentage : option Q;
  al_abnormal_wbc_ratio : option Q
}.

Record RiskScore := {
  rs_phc_id : option string;
  rs_city : option string;
  rs_district_id : string;
  rs_phc_risk_score : Q;
  rs_city_risk_score : Q;
  rs_district_risk_score : Q;
  rs_high_severity_percentage : Q;
  rs_outbreak_flag_percentage : Q;
  rs_disease_prevalence_percentage : Q;
  rs_patient_count : Z;
  rs_evaluation_period : string;
  rs_updated_at : Z
}.

(** The document store. *)
Record Store := {
  patients : list Patient;
  local_models : list LocalModel;
  global_models : list GlobalModel;
  training_metadata : list TrainingMetadata;
  model_broadcasts : list ModelBroadcast;
  alerts : list Alert;
  risk_scores : list RiskScore
}.

Definition empty_store : Store :=
  {| patients := []; local_models := []; global_models := [];
     training_metadata := []; model_broadcasts := []; alerts := [];
     risk_scores := [] |}.

Definition set_local_models (s : Store) (l : list LocalModel) : Store :=
  {| patients := patients s; local_models := l; global_models := global_models s;
     training_metadata := training_metadata s;
     model_broadcasts := model_broadcasts s; alerts := alerts s;
     risk_scores := risk_scores s |}.

Definition set_global_models (s : Store) (l : list GlobalModel) : Store :=
  {| patients := patients s; local_models := local_models s; global_models := l;
     training_metadata := training_metadata s;
     model_broadcasts := model_broadcasts s; alerts := alerts s;
     risk_scores := risk_scores s |}.

Definition set_training_metadata (s : Store) (l : list TrainingMetadata) : Store :=
  {| patients := patients s; local_models := local_models s;
     global_models := global_models s; training_metadata := l;
     model_broadcasts := model_broadcasts s; alerts := alerts s;
     risk_scores := risk_scores s |}.

Definition set_model_broadcasts (s : Store) (l : list ModelBroadcast) : Store :=
  {| patients := patients s; local_models := local_models s;
     global_models := global_models s; training_metadata := training_metadata s;
     model_broadcasts := l; alerts := alerts s; risk_scores := risk_scores s |}.

Definition set_alerts (s : Store) (l : list Alert) : Store :=
  {| patients := patients s; local_models := local_models s;
     global_models := global_models s; training_metadata := training_metadata s;
     model_broadcasts := model_broadcasts s; alerts := l;
     risk_scores := risk_scores s |}.

Definition set_risk_scores (s : Store) (l : list RiskScore) : Store :=
  {| patients := patients s; local_models := local_models s;
     global_models := global_models s; training_metadata := training_metadata s;
     model_broadcasts := model_broadcasts s; alerts := alerts s;
     risk_scores := l |}.

(** ** Queries *)

(** [order_by('-key')]: stable insertion sort, largest key first. *)
Fixpoint insert_desc {A : Type} (key : A -> Z) (x : A) (l : list A) : list A :=
  match l with
  | [] => [x]
  | y :: l' => if (key y <? key x)%Z then x :: l else y :: insert_desc key x l'
  end.

Fixpoint order_by_desc {A : Type} (key : A -> Z) (l : list A) : list A :=
  match l with
  | [] => []
  | x :: l' => insert_desc key x (order_by_desc key l')
  end.

Definition first {A : Type} (l : list A) : option A := hd_error l.

Definition local_models_of (s : Store) (phc_id : string) : list LocalModel :=
  filter (fun m => String.eqb (lm_phc_id m) phc_id) (local_models s).

(** [GlobalModel.objects.order_by('-version').first()] *)
Definition get_latest_global_model (s : Store) : option GlobalModel :=
  first (order_by_desc gm_version (global_models s)).

(** [LocalModel.objects.filter(phc_id=phc_id).order_by('-version').first()] *)
Definition get_latest_local_model (s : Store) (phc_id : string) : option LocalModel :=
  first (order_by_desc lm_version (local_models_of s phc_id)).

Definition generate_local_version_string (phc_id : string) (version_number : Z) : string :=
  "local_" ++ phc_id ++ "_v" ++ str_of_Z version_number.

Definition generate_global_version_string (version_number : Z) : string :=
  "global_v" ++ str_of_Z version_number.

Definition global_version_or_0 (g : option GlobalModel) : Z :=
  match g with Some m => gm_version m | None => 0%Z end.

Definition local_version_or_0 (g : option LocalModel) : Z :=
  match g with Some m => lm_version m | None => 0%Z end.

Definition count_if {A : Type} (f : A -> bool) (l : list A) : nat :=
  length (filter f l).

Definition Qnat (n : nat) : Q := inject_Z (Z.of_nat n).

(** ** Drift detection ([detect_model_drift]) *)

(** In exact arithmetic, as the training run threads the store through it;
    [detect_model_drift_f64] below decides the flag on the floats. *)

Inductive DriftResult :=
| DriftInsufficientHistory (phc_id : string)
    (* drift_detected False, reason 'insufficient_history' *)
| DriftReport (drift_detected : bool) (phc_id : string)
    (accuracy_drop_percentage previous_accuracy current_accuracy threshold : Q)
    (alert_created : bool).

Definition drift_alert (now : Z) (phc_id : string) (latest previous : LocalModel)
    (latest_global : option GlobalModel) (accuracy_drop_percentage : Q) : Alert :=
  {| al_phc_id := phc_id;
     al_alert_type := "MODEL_DRIFT";
     al_risk_score := accuracy_drop_percentage;
     al_severity := if Qgtb accuracy_drop_percentage 20 then "HIGH" else "MEDIUM";
     al_created_at := now;
     al_local_model_version := lm_version latest;
     al_local_model_version_string := Some (lm_version_string latest);
     al_global_model_version := global_version_or_0 latest_global;
     al_global_model_version_string := option_map gm_version_string latest_global;
     al_drift_detected := true;
     al_accuracy_drop_percentage := Some accuracy_drop_percentage;
     al_previous_accuracy := Some (lm_accuracy previous);
     al_current_accuracy := Some (lm_accuracy latest);
     al_fever_percentage := None;
     al_positive_predictions_percentage := None;
     al_abnormal_wbc_ratio := None |}.

Definition detect_model_drift (now : Z) (s : Store) (phc_id : string)
    : Store * DriftResult :=
  let by_version := order_by_desc lm_version (local_models_of s phc_id) in
  match first by_version, first (skipn 1 by_version) with
  | Some latest, Some previous =>
      let accuracy_drop := lm_accuracy previous - lm_accuracy latest in
      let accuracy_drop_percentage :=
        if Qgtb (lm_accuracy previous) 0
        then accuracy_drop / lm_accuracy previous * 100
        else 0 in
      let drift_detected := Qgtb accuracy_drop_percentage 10 in
      let s' :=
        if drift_detected
        then set_alerts s (alerts s ++
               [drift_alert now phc_id latest previous (get_latest_global_model s)
                  accuracy_drop_percentage])
        else s in
      (s', DriftReport drift_detected phc_id (py_round accuracy_drop_percentage 2)
             (lm_accuracy previous) (lm_accuracy latest) 10 drift_detected)
  | _, _ => (s, DriftInsufficientHistory phc_id)
  end.

(** ** Composite outbreak risk ([calculate_composite_risk_score]) *)

(** In exact arithmetic, as the training run threads the store through it;
    [calculate_composite_risk_score_f64] below decides the band on the
    floats. *)

(** [str.lower()] on ASCII text. *)
Definition lower_ascii (c : ascii) : ascii :=
  let n := nat_of_ascii c in
  if ((65 <=? n) && (n <=? 90))%nat then ascii_of_nat (n + 32) else c.

Fixpoint lower (s : string) : string :=
  match s with
  | EmptyString => EmptyString
  | String c s' => String (lower_ascii c) (lower s')
  end.

(** [sub in s] *)
Fixpoint str_in (sub s : string) : bool :=
  prefix sub s ||
  match s with
  | EmptyString => false
  | String _ s' => str_in sub s'
  end.

Definition disease_keywords : list string :=
  ["fever"; "malaria"; "typhoid"; "dengue"; "influenza"].

Definition matches_disease_keyword (p : Patient) : bool :=
  existsb (fun keyword => str_in (lower keyword) (lower (pt_disease_label p)))
          disease_keywords.

Definition abnormal_wbc (p : Patient) : bool :=
  (pt_wbc_count p <? 4500)%Z || (11000 <? pt_wbc_count p)%Z.

Record CompositeRisk := {
  cr_phc_id : string;
  cr_risk_score : Q;
  cr_severity : string;
  cr_fever_percentage : Q;
  cr_positive_predictions_percentage : Q;
  cr_abnormal_wbc_ratio : Q;
  cr_fever_component : Q;
  cr_predictions_component : Q;
  cr_wbc_component : Q;
  cr_total_patients : nat;
  cr_alert_created : bool
}.

Inductive CompositeResult :=
| CompositeNoPatients (phc_id : string)   (* risk_score 0.0, severity LOW *)
| CompositeScore (r : CompositeRisk).

Definition patients_of (s : Store) (phc_id : string) : list Patient :=
  filter (fun p => String.eqb (pt_phc_id p) phc_id) (patients s).

Definition severity_band (composite_score : Q) : string :=
  if Qltb composite_score 30 then "LOW"
  else if Qltb composite_score 60 then "MEDIUM"
  else "HIGH".

(** [max(0, min(100, x))] *)
Definition clamp_0_100 (x : Q) : Q :=
  let m := if Qltb 100 x then 100 else x in    (* min(100, x) *)
  if Qltb 0 m then m else 0.                   (* max(0, m) *)

Definition calculate_composite_risk_score (now : Z) (s : Store) (phc_id : string)
    : Store * CompositeResult :=
  let pts := patients_of s phc_id in
  match pts with
  | [] => (s, CompositeNoPatients phc_id)
  | _ :: _ =>
    let total_patients := length pts in
    let fever_cases := count_if (fun p => (pt_fever p =? 1)%Z) pts in
    let fever_percentage := Qnat fever_cases / Qnat total_patients * 100 in
    let fever_component := fever_percentage / 100 * (4 # 10) * 100 in
    let latest_model := get_latest_local_model s phc_id in
    let positive_predictions :=
      match latest_model with
      | Some _ => count_if matches_disease_keyword pts
      | None => 0%nat
      end in
    let positive_predictions_percentage :=
      Qnat positive_predictions / Qnat total_patients * 100 in
    let predictions_component :=
      positive_predictions_percentage / 100 * (3 # 10) * 100 in
    let abnormal := count_if abnormal_wbc pts in
    let abnormal_wbc_ratio := Qnat abnormal / Qnat total_patients * 100 in
    let wbc_component := abnormal_wbc_ratio / 100 * (3 # 10) * 100 in
    let composite_score :=
      clamp_0_100 (fever_component + predictions_component + wbc_component) in
    let severity := severity_band composite_score in
    let latest_global := get_latest_global_model s in
    let alert :=
      {| al_phc_id := phc_id;
         al_alert_type := "COMPOSITE_RISK";
         al_risk_score := composite_score;
         al_severity := severity;
         al_created_at := now;
         al_local_model_version := local_version_or_0 latest_model;
         al_local_model_version_string := option_map lm_version_string latest_model;
         al_global_model_version := global_version_or_0 latest_global;
         al_global_model_version_string := option_map gm_version_string latest_global;
         al_drift_detected := false;
         al_accuracy_drop_percentage := None;
         al_previous_accuracy := None;
         al_current_accuracy := None;
         al_fever_percentage := Some fever_percentage;
         al_positive_predictions_percentage := Some positive_predictions_percentage;
         al_abnormal_wbc_ratio := Some abnormal_wbc_ratio |} in
    (set_alerts s (alerts s ++ [alert]),
     CompositeScore
       {| cr_phc_id := phc_id;
          cr_risk_score := py_round composite_score 2;
          cr_severity := severity;
          cr_fever_percentage := py_round fever_percentage 2;
          cr_positive_predictions_percentage :=
            py_round positive_predictions_percentage 2;
          cr_abnormal_wbc_ratio := py_round abnormal_wbc_ratio 2;
          cr_fever_component := py_round fever_component 2;
          cr_predictions_component := py_round predictions_component 2;
          cr_wbc_component := py_round wbc_component 2;
          cr_total_patients := total_patients;
          cr_alert_created := true |})
  end.

(** ** Training trigger manager *)

Definition PATIENT_THRESHOLD : Z := 20.
Definition TIME_THRESHOLD : Z := 24 * 3600.     (* timedelta(hours=24), seconds *)

(** [TrainingMetadata.objects.filter(phc_id=phc_id).first()] *)
Definition find_metadata (s : Store) (phc_id : string) : option TrainingMetadata :=
  find (fun m => String.eqb (tm_phc_id m) phc_id) (training_metadata s).

(** [metadata.save()]: the stored document of that site is replaced. *)
Fixpoint replace_metadata (m : TrainingMetadata) (l : list TrainingMetadata)
    : list TrainingMetadata :=
  match l with
  | [] => []
  | x :: l' =>
      if String.eqb (tm_phc_id x) (tm_phc_id m) then m :: l'
      else x :: replace_metadata m l'
  end.

Definition save_metadata (s : Store) (m : TrainingMetadata) : Store :=
  set_training_metadata s (replace_metadata m (training_metadata s)).

(** [TrainingMetadata.objects.create(phc_id=..., patients_since_last_training=n)] *)
Definition new_metadata (now : Z) (phc_id : string) (n : Z) : TrainingMetadata :=
  {| tm_phc_id := phc_id;
     tm_last_training_at := None;
     tm_patients_since_last_training := n;
     tm_last_aggregated_version := 0;
     tm_training_in_progress := false;
     tm_updated_at := now |}.

Definition create_metadata (s : Store) (m : TrainingMetadata) : Store :=
  set_training_metadata s (training_metadata s ++ [m]).

Definition should_trigger_local_training (now : Z) (s : Store) (phc_id : string)
    : Store * (bool * string) :=
  match find_metadata s phc_id with
  | None =>
      (create_metadata s (new_metadata now phc_id 0), (false, "metadata_initialized"))
  | Some metadata =>
      if (PATIENT_THRESHOLD <=? tm_patients_since_last_training metadata)%Z
      then (s, (true, "patient_threshold"))
      else
        match tm_last_training_at metadata with
        | Some last_training_at =>
            if (TIME_THRESHOLD <=? now - last_training_at)%Z
            then (s, (true, "time_threshold"))
            else (s, (false, "no_trigger"))
        | None => (s, (false, "no_trigger"))
        end
  end.

Definition record_training_completion (now : Z) (s : Store) (phc_id : string)
    (success : bool) : Store :=
  match find_metadata s phc_id with
  | Some metadata =>
      save_metadata s
        {| tm_phc_id := tm_phc_id metadata;
           tm_last_training_at :=
             if success then Some now else tm_last_training_at metadata;
           tm_patients_since_last_training :=
             if success then 0%Z else tm_patients_since_last_training metadata;
           tm_last_aggregated_version := tm_last_aggregated_version metadata;
           tm_training_in_progress := false;
           tm_updated_at := now |}
  | None => s
  end.

Definition increment_patient_count (now : Z) (s : Store) (phc_id : string) : Store :=
  match find_metadata s phc_id with
  | Some metadata =>
      save_metadata s
        {| tm_phc_id := tm_phc_id metadata;
           tm_last_training_at := tm_last_training_at metadata;
           tm_patients_since_last_training :=
             (tm_patients_since_last_training metadata + 1)%Z;
           tm_last_aggregated_version := tm_last_aggregated_version metadata;
           tm_training_in_progress := tm_training_in_progress metadata;
           tm_updated_at := now |}
  | None => create_metadata s (new_metadata now phc_id 1)
  end.

Definition set_training_lock (s : Store) (metadata : TrainingMetadata) : Store :=
  save_metadata s
    {| tm_phc_id := tm_phc_id metadata;
       tm_last_training_at := tm_last_training_at metadata;
       tm_patients_since_last_training := tm_patients_since_last_training metadata;
       tm_last_aggregated_version := tm_last_aggregated_version metadata;
       tm_training_in_progress := true;
       tm_updated_at := tm_updated_at metadata |}.

(** ** Federated aggregation *)

(** The sites the aggregator and the broadcast loop over: [range(1, 5)]. *)
Definition aggregation_phc_ids : list string :=
  map (fun phc_num => "PHC_" ++ str_of_Z phc_num) [1; 2; 3; 4]%Z.

Fixpoint dedup (l : list string) : list string :=
  match l with
  | [] => []
  | x :: l' => if existsb (String.eqb x) l' then dedup l' else x :: dedup l'
  end.

(** [(should_aggregate, reason, pending_phcs)] *)
Definition should_trigger_global_aggregation (s : Store)
    : bool * string * list string :=
  let unaggregated := filter (fun m => negb (lm_aggregated m)) (local_models s) in
  match unaggregated with
  | [] => (false, "no_models", [])
  | _ :: _ =>
      let phc_ids := dedup (map lm_phc_id unaggregated) in
      if (3 <=? length phc_ids)%nat
      then (true, "threshold_met", phc_ids)
      else (false, "insufficient_phcs", phc_ids)
  end.

Definition broadcast_global_model (now : Z) (s : Store) (global_model_version : Z)
    : Store :=
  fold_left
    (fun st phc_id =>
       set_model_broadcasts st (model_broadcasts st ++
         [{| mb_phc_id := phc_id;
             mb_global_model_version := global_model_version;
             mb_received_at := now |}]))
    aggregation_phc_ids s.

(** The model collected for one site. *)
Definition latest_for_aggregation (automatic : bool) (s : Store) (phc_id : string)
    : option LocalModel :=
  let candidates :=
    if automatic
    then filter (fun m => String.eqb (lm_phc_id m) phc_id && negb (lm_aggregated m))
                (local_models s)
    else local_models_of s phc_id in
  first (order_by_desc lm_trained_at candidates).

(** [phc_models], in insertion order. *)
Definition collect_phc_models (automatic : bool) (s : Store)
    : list (string * LocalModel) :=
  flat_map
    (fun phc_id =>
       match latest_for_aggregation automatic s phc_id with
       | Some latest => [(phc_id, latest)]
       | None => []
       end)
    aggregation_phc_ids.

Definition Qsum (l : list Q) : Q := fold_left Qplus l 0.

Definition total_sample_count (phc_models : list (string * LocalModel)) : Z :=
  fold_left (fun acc e => (acc + lm_sample_count (snd e))%Z) phc_models 0%Z.

(** [sum(m[metric] * m['sample_count'] ...) / total_samples if total_samples > 0
    else 0.0] *)
Definition aggregated_metric (metric : LocalModel -> Q)
    (phc_models : list (string * LocalModel)) (total_samples : Z) : Q :=
  if (0 <? total_samples)%Z
  then Qsum (map (fun e => metric (snd e) * inject_Z (lm_sample_count (snd e)))
                 phc_models)
       / inject_Z total_samples
  else 0.

Record AggregationResult := {
  ar_version : Z;
  ar_version_string : string;
  ar_accuracy : Q;
  ar_contributors : list string;
  ar_contributor_versions : list (string * string);
  ar_num_contributors : nat;
  ar_total_samples : Z;
  ar_automatic : bool
}.

Definition mark_aggregated (next_version : Z) (version_string : string)
    (model_id : nat) (l : list LocalModel) : list LocalModel :=
  map (fun m =>
         if (lm_id m =? model_id)%nat
         then {| lm_id := lm_id m; lm_phc_id := lm_phc_id m;
                 lm_version := lm_version m;
                 lm_version_string := lm_version_string m;
                 lm_accuracy := lm_accuracy m; lm_precision := lm_precision m;
                 lm_recall := lm_recall m; lm_f1_score := lm_f1_score m;
                 lm_roc_auc := lm_roc_auc m;
                 lm_sample_count := lm_sample_count m;
                 lm_num_test_samples := lm_num_test_samples m;
                 lm_num_train_samples := lm_num_train_samples m;
                 lm_train_accuracy := lm_train_accuracy m;
                 lm_train_precision := lm_train_precision m;
                 lm_train_recall := lm_train_recall m;
                 lm_train_f1_score := lm_train_f1_score m;
                 lm_trained_at := lm_trained_at m;
                 lm_triggered_by := lm_triggered_by m;
                 lm_aggregated := true;
                 lm_aggregated_in_version := Some next_version;
                 lm_aggregated_in_version_string := Some version_string |}
         else m) l.

Definition aggregate_models (now : Z) (automatic : bool) (s : Store)
    : Store * option AggregationResult :=
  let phc_models := collect_phc_models automatic s in
  let total_samples := total_sample_count phc_models in
  let contributor_versions :=
    map (fun e => (fst e, lm_version_string (snd e))) phc_models in
  match phc_models with
  | [] => (s, None)
  | _ :: _ =>
    let num_contributors := length phc_models in
    let contributors := map fst phc_models in
    let aggregated_accuracy := aggregated_metric lm_accuracy phc_models total_samples in
    let aggregated_precision := aggregated_metric lm_precision phc_models total_samples in
    let aggregated_recall := aggregated_metric lm_recall phc_models total_samples in
    let aggregated_f1 := aggregated_metric lm_f1_score phc_models total_samples in
    let next_version :=
      match get_latest_global_model s with
      | Some latest_global => (gm_version latest_global + 1)%Z
      | None => 1%Z
      end in
    let version_string := generate_global_version_string next_version in
    let global_model :=
      {| gm_version := next_version;
         gm_version_string := version_string;
         gm_accuracy := py_round aggregated_accuracy 4;
         gm_contributors := contributors;
         gm_contributor_versions := contributor_versions;
         gm_w_precision := py_round aggregated_precision 4;
         gm_w_recall := py_round aggregated_recall 4;
         gm_w_f1_score := py_round aggregated_f1 4;
         gm_w_total_samples := total_samples;
         gm_aggregated_at := now;
         gm_aggregation_triggered_by := if automatic then "automatic" else "manual" |} in
    let s1 := set_global_models s (global_models s ++ [global_model]) in
    let s2 :=
      fold_left
        (fun st e =>
           set_local_models st
             (mark_aggregated next_version version_string (lm_id (snd e))
                (local_models st)))
        phc_models s1 in
    let s3 := broadcast_global_model now s2 next_version in
    (s3, Some {| ar_version := next_version;
                 ar_version_string := version_string;
                 ar_accuracy := py_round aggregated_accuracy 4;
                 ar_contributors := contributors;
                 ar_contributor_versions := contributor_versions;
                 ar_num_contributors := num_contributors;
                 ar_total_samples := total_samples;
                 ar_automatic := automatic |})
  end.

Definition try_automatic_aggregation (now : Z) (s : Store)
    : Store * option AggregationResult :=
  let '(should_aggregate, reason, pending_phcs) :=
    should_trigger_global_aggregation s in
  if should_aggregate then aggregate_models now true s else (s, None).

(** ** Local trainer and evaluator *)

(** Outcome of a library call: a value or a raised exception ([str(e)]). *)
Inductive pyresult (A : Type) :=
| Ok (a : A)
| Raise (msg : string).
Arguments Ok {A} a.
Arguments Raise {A} msg.

Definition bind {A B : Type} (r : pyresult A) (k : A -> pyresult B) : pyresult B :=
  match r with
  | Ok a => k a
  | Raise msg => Raise msg
  end.

Notation "x <- c ;; k" := (bind c (fun x => k))
  (at level 61, c at next level, right associativity).

Definition matrix := list (list fval).

Record Split := {
  sp_X_train : matrix;
  sp_X_test : matrix;
  sp_y_train : list nat;
  sp_y_test : list nat
}.

(** The scikit-learn / XGBoost calls of the pipeline, taken as given.  Each one
    may raise. *)
Record MLBackend := {
  ml_model : Type;
  scaler_fit_transform : matrix -> pyresult matrix;
  (* train_test_split(X, y, test_size, random_state=42, stratify?) *)
  train_test_split : matrix -> list nat -> Q -> bool -> pyresult Split;
  compute_sample_weight : list nat -> pyresult (list Q);
  (* XGBClassifier(num_class=...).fit(X_train, y_train, sample_weight) *)
  xgb_fit : nat -> matrix -> list nat -> option (list Q) -> pyresult ml_model;
  cross_val_score : ml_model -> matrix -> list nat -> nat -> pyresult (list Q);
  np_mean : list Q -> Q;
  np_std : list Q -> Q;
  pickle_dumps : ml_model -> pyresult string;
  predict : ml_model -> matrix -> pyresult (list nat);
  predict_proba : ml_model -> matrix -> pyresult (list (list Q));
  (* the three scores are called with average='weighted', zero_division=0 *)
  precision_score : list string -> list string -> pyresult Q;
  recall_score : list string -> list string -> pyresult Q;
  f1_score : list string -> list string -> pyresult Q;
  (* confusion_matrix(y_true, y_pred, labels=label_classes) *)
  confusion_matrix : list string -> list string -> list string -> pyresult (list (list Z));
  (* roc_auc_score(y_true, y_pred_proba[:, 1]) *)
  roc_auc_score : list string -> list (list Q) -> pyresult Q
}.

(** [np.unique(y)]: the distinct labels in increasing order. *)
Fixpoint insert_unique (x : string) (l : list string) : list string :=
  match l with
  | [] => [x]
  | y :: l' =>
      match String.compare x y with
      | Lt => x :: l
      | Eq => l
      | Gt => y :: insert_unique x l'
      end
  end.

Definition np_unique (y : list string) : list string :=
  fold_right insert_unique [] y.

Fixpoint index_of (x : string) (l : list string) : nat :=
  match l with
  | [] => 0
  | y :: l' => if String.eqb x y then 0%nat else S (index_of x l')
  end.

(** [LabelEncoder.fit_transform] *)
Definition label_encode (classes : list string) (y : list string) : list nat :=
  map (fun lbl => index_of lbl classes) y.

(** [LabelEncoder.inverse_transform]: raises on an index outside the classes. *)
Fixpoint inverse_transform (classes : list string) (y : list nat)
    : pyresult (list string) :=
  match y with
  | [] => Ok []
  | i :: y' =>
      match nth_error classes i with
      | Some lbl => rest <- inverse_transform classes y' ;; Ok (lbl :: rest)
      | None => Raise "y contains previously unseen labels"
      end
  end.

Record ModelData (ml : MLBackend) := {
  md_model : ml_model ml;
  md_model_binary : string;
  md_label_classes : list string;
  md_X_test : matrix;
  md_y_test : list nat;
  md_X_train : matrix;
  md_y_train : list nat;
  md_feature_columns : list string;
  md_cv_scores : list Q;
  md_cv_mean : Q;
  md_cv_std : Q;
  md_num_train : nat;
  md_num_test : nat;
  md_stratified : bool
}.
Arguments md_model {ml}.
Arguments md_model_binary {ml}.
Arguments md_label_classes {ml}.
Arguments md_X_test {ml}.
Arguments md_y_test {ml}.
Arguments md_X_train {ml}.
Arguments md_y_train {ml}.
Arguments md_feature_columns {ml}.
Arguments md_cv_scores {ml}.
Arguments md_cv_mean {ml}.
Arguments md_cv_std {ml}.
Arguments md_num_train {ml}.
Arguments md_num_test {ml}.
Arguments md_stratified {ml}.

(** What [train_local_model] returns: the model data or an error dict. *)
Inductive TrainOutcome (ml : MLBackend) :=
| TrainError (error : string) (num_samples : nat)
| TrainOk (model_data : ModelData ml).
Arguments TrainError {ml}.
Arguments TrainOk {ml}.

Definition str_of_nat (n : nat) : string := str_of_Z (Z.of_nat n).

Definition msg_not_enough_data : string :=
  "Not enough data to train model (need >= 10 samples)".
Definition msg_length_mismatch (nx ny : nat) : string :=
  "Feature matrix and labels length mismatch: X=" ++ str_of_nat nx
    ++ ", y=" ++ str_of_nat ny.
Definition msg_nan_inf : string := "Feature matrix contains NaN or Inf values".
Definition msg_data_leakage : string :=
  "CRITICAL: diagnosis cannot be in feature_columns! Data leakage detected.".
Definition msg_single_class : string :=
  "Only one diagnosis class present. Need at least 2 classes for classification.".
Definition msg_empty_test : string :=
  "Test set is empty! Dataset too small for 30% split.".

(** The [try] block of [train_local_model]: an inner [Ok (TrainError ..)] is an
    error dict returned from inside the block, a [Raise] is caught by the
    function's [except]. *)
Definition train_local_model_body (ml : MLBackend) (X : matrix) (y : list string)
    (feature_columns : list string) (classes : list string)
    : pyresult (TrainOutcome ml) :=
  let unique_classes := length classes in
  X_scaled <- scaler_fit_transform ml X ;;
  let y_encoded := label_encode classes y in
  let counts :=
    map (fun c => count_if (Nat.eqb c) y_encoded) (seq 0 unique_classes) in
  let can_stratify := forallb (fun count => (2 <=? count)%nat) counts in
  let test_size := 3 # 10 in
  split <- train_test_split ml X_scaled y_encoded test_size can_stratify ;;
  let X_train := sp_X_train split in
  let X_test := sp_X_test split in
  let y_train := sp_y_train split in
  let y_test := sp_y_test split in
  if (length X_test =? 0)%nat then Ok (TrainError msg_empty_test (length X))
  else
    sample_weight <-
      (if (unique_classes =? 2)%nat
       then (w <- compute_sample_weight ml y_train ;; Ok (Some w))
       else Ok None) ;;
    model <- xgb_fit ml unique_classes X_train y_train sample_weight ;;
    cv_scores <-
      (if (100 <? length X_train)%nat
       then cross_val_score ml model X_train y_train 5
       else Ok [0]) ;;
    let avg_cv_accuracy :=
      if (100 <? length X_train)%nat then np_mean ml cv_scores else 0 in
    let cv_std :=
      if (100 <? length X_train)%nat then np_std ml cv_scores else 0 in
    model_binary <- pickle_dumps ml model ;;
    Ok (TrainOk
          {| md_model := model;
             md_model_binary := model_binary;
             md_label_classes := classes;
             md_X_test := X_test;
             md_y_test := y_test;
             md_X_train := X_train;
             md_y_train := y_train;
             md_feature_columns := feature_columns;
             md_cv_scores := cv_scores;
             md_cv_mean := avg_cv_accuracy;
             md_cv_std := cv_std;
             md_num_train := length X_train;
             md_num_test := length X_test;
             md_stratified := can_stratify |}).

Definition train_local_model (ml : MLBackend) (X : matrix) (y : list string)
    (feature_columns : list string) : TrainOutcome ml :=
  if (length X <? 10)%nat then TrainError msg_not_enough_data (length X)
  else if negb (length X =? length y)%nat
  then TrainError (msg_length_mismatch (length X) (length y)) (length X)
  else if existsb (existsb is_nan) X || existsb (existsb is_inf) X
  then TrainError msg_nan_inf (length X)
  else if existsb (String.eqb "diagnosis") feature_columns
  then TrainError msg_data_leakage (length X)
  else
    let classes := np_unique y in
    if (length classes <? 2)%nat then TrainError msg_single_class (length X)
    else
      match train_local_model_body ml X y feature_columns classes with
      | Ok outcome => outcome
      | Raise msg => TrainError ("Model training failed: " ++ msg) (length X)
      end.

(** [sklearn.metrics.accuracy_score]: the fraction of positions where the
    prediction equals the true label. *)
Fixpoint count_equal (y_true y_pred : list string) : nat :=
  match y_true, y_pred with
  | a :: y_true', b :: y_pred' =>
      ((if String.eqb a b then 1 else 0) + count_equal y_true' y_pred')%nat
  | _, _ => 0%nat
  end.

Definition accuracy_score (y_true y_pred : list string) : pyresult Q :=
  if (length y_true =? length y_pred)%nat
  then Ok (Qnat (count_equal y_true y_pred) / Qnat (length y_true))
  else Raise "Found input variables with inconsistent numbers of samples".

Record Metrics := {
  test_accuracy : Q;
  test_precision : Q;
  test_recall : Q;
  test_f1_score : Q;
  test_roc_auc : option Q;
  test_confusion_matrix : list (list Z);
  train_accuracy : Q;
  train_precision : Q;
  train_recall : Q;
  train_f1_score : Q;
  accuracy_delta : Q;
  f1_delta : Q;
  overfitting_detected : bool;
  classes : list string;
  num_test_samples : nat;
  num_train_samples : nat;
  num_classes : nat
}.

Inductive EvalResult :=
| EvalPassThrough (error : string) (num_samples : nat)  (* 'error' in model_data *)
| EvalFailed (error : string)
| EvalOk (metrics : Metrics) (num_samples : nat).

Definition evaluate_model_body (ml : MLBackend) (model_data : ModelData ml)
    : pyresult EvalResult :=
  let model := md_model model_data in
  let X_test := md_X_test model_data in
  let y_test := md_y_test model_data in
  let X_train := md_X_train model_data in
  let y_train := md_y_train model_data in
  let label_classes := md_label_classes model_data in
  y_test_decoded <- inverse_transform label_classes y_test ;;
  y_train_decoded <- inverse_transform label_classes y_train ;;
  (* predictions on the TEST set *)
  y_pred_test <- predict ml model X_test ;;
  y_pred_proba_test <- predict_proba ml model X_test ;;
  y_pred_test_decoded <- inverse_transform label_classes y_pred_test ;;
  test_accuracy <- accuracy_score y_test_decoded y_pred_test_decoded ;;
  test_precision <- precision_score ml y_test_decoded y_pred_test_decoded ;;
  test_recall <- recall_score ml y_test_decoded y_pred_test_decoded ;;
  test_f1 <- f1_score ml y_test_decoded y_pred_test_decoded ;;
  cm_test <- confusion_matrix ml y_test_decoded y_pred_test_decoded label_classes ;;
  let test_roc_auc :=
    if (length label_classes =? 2)%nat
    then match roc_auc_score ml y_test_decoded y_pred_proba_test with
         | Ok auc => Some auc
         | Raise _ => None
         end
    else None in
  (* train metrics, for comparison *)
  y_pred_train <- predict ml model X_train ;;
  y_pred_train_decoded <- inverse_transform label_classes y_pred_train ;;
  train_accuracy <- accuracy_score y_train_decoded y_pred_train_decoded ;;
  train_precision <- precision_score ml y_train_decoded y_pred_train_decoded ;;
  train_recall <- recall_score ml y_train_decoded y_pred_train_decoded ;;
  train_f1 <- f1_score ml y_train_decoded y_pred_train_decoded ;;
  let accuracy_delta := Qabs (train_accuracy - test_accuracy) in
  let f1_delta := Qabs (train_f1 - test_f1) in
  let overfitting_flag := Qgtb accuracy_delta (15 # 100) in
  Ok (EvalOk
        {| test_accuracy := py_round test_accuracy 4;
           test_precision := py_round test_precision 4;
           test_recall := py_round test_recall 4;
           test_f1_score := py_round test_f1 4;
           test_roc_auc := option_map (fun auc => py_round auc 4) test_roc_auc;
           test_confusion_matrix := cm_test;
           train_accuracy := py_round train_accuracy 4;
           train_precision := py_round train_precision 4;
           train_recall := py_round train_recall 4;
           train_f1_score := py_round train_f1 4;
           accuracy_delta := py_round accuracy_delta 4;
           f1_delta := py_round f1_delta 4;
           overfitting_detected := overfitting_flag;
           classes := label_classes;
           num_test_samples := length y_test;
           num_train_samples := length y_train;
           num_classes := length label_classes |}
        (length y_test + length y_train)).

Definition evaluate_model (ml : MLBackend) (model_data : TrainOutcome ml)
    : EvalResult :=
  match model_data with
  | TrainError error num_samples => EvalPassThrough error num_samples
  | TrainOk md =>
      match evaluate_model_body ml md with
      | Ok r => r
      | Raise msg => EvalFailed ("Model evaluation failed: " ++ msg)
      end
  end.

(** ** Feature extraction ([preprocess_data]) *)

(** [float(v)] on the text of a string field, taken not to spell a number
    (and to need no escaping in the message). *)
Definition float_of_text (v : string) : pyresult fval :=
  Raise ("could not convert string to float: '" ++ v ++ "'").

(** [float(getattr(p, col, None))] for the fields of the [Patient] document:
    an integer field gives its value, a float field the stored float; a
    string field, the document id and the creation date raise; a name the
    document does not have gives [0.0]. *)
Definition patient_feature (p : Patient) (col : string) : pyresult fval :=
  if String.eqb col "age" then Ok (Fin (inject_Z (pt_age p)))
  else if String.eqb col "fever" then Ok (Fin (inject_Z (pt_fever p)))
  else if String.eqb col "cough" then Ok (Fin (inject_Z (pt_cough p)))
  else if String.eqb col "fatigue" then Ok (Fin (inject_Z (pt_fatigue p)))
  else if String.eqb col "headache" then Ok (Fin (inject_Z (pt_headache p)))
  else if String.eqb col "vomiting" then Ok (Fin (inject_Z (pt_vomiting p)))
  else if String.eqb col "breathlessness"
  then Ok (Fin (inject_Z (pt_breathlessness p)))
  else if String.eqb col "temperature_c" then Ok (pt_temperature_c p)
  else if String.eqb col "heart_rate" then Ok (Fin (inject_Z (pt_heart_rate p)))
  else if String.eqb col "bp_systolic" then Ok (Fin (inject_Z (pt_bp_systolic p)))
  else if String.eqb col "wbc_count" then Ok (Fin (inject_Z (pt_wbc_count p)))
  else if String.eqb col "platelet_count"
  then Ok (Fin (inject_Z (pt_platelet_count p)))
  else if String.eqb col "hemoglobin" then Ok (pt_hemoglobin p)
  else if String.eqb col "patient_id" then float_of_text (pt_patient_id p)
  else if String.eqb col "gender" then float_of_text (pt_gender p)
  else if String.eqb col "phc_id" then float_of_text (pt_phc_id p)
  else if String.eqb col "city" then float_of_text (pt_city p)
  else if String.eqb col "disease_label" then float_of_text (pt_disease_label p)
  else if String.eqb col "severity_level"
  then float_of_text (pt_severity_level p)
  else if String.eqb col "created_at"
  then Raise "float() argument must be a string or a real number, not 'datetime.datetime'"
  else if String.eqb col "id" || String.eqb col "pk"
  then Raise "float() argument must be a string or a real number, not 'ObjectId'"
  else Ok (Fin 0).

Fixpoint mapM {A B : Type} (f : A -> pyresult B) (l : list A) : pyresult (list B) :=
  match l with
  | [] => Ok []
  | x :: l' => b <- f x ;; bs <- mapM f l' ;; Ok (b :: bs)
  end.

Definition preprocess_data (pts : list Patient) (feature_columns : list string)
    : pyresult (matrix * list string * list string) :=
  X <- mapM (fun p => mapM (patient_feature p) feature_columns) pts ;;
  Ok (X, map pt_disease_label pts, feature_columns).

Definition training_feature_columns : list string :=
  ["fever"; "cough"; "fatigue"; "headache"; "vomiting"; "breathlessness";
   "temperature_c"; "heart_rate"; "bp_systolic"; "wbc_count"; "platelet_count";
   "hemoglobin"].

(** ** [train_federated_model] *)

(** The dict [train_federated_model] returns; a key the dict lacks is [None]. *)
Record TrainReport := {
  tr_error : option string;
  tr_phc_id : string;
  tr_accuracy : Q;
  tr_train_accuracy : option Q;
  tr_precision : Q;
  tr_recall : Q;
  tr_f1_score : Q;
  tr_roc_auc : option Q;
  tr_num_samples : Z;
  tr_update_id : option nat;
  tr_version : option Z;
  tr_version_string : option string;
  tr_triggered_by : string;
  tr_drift_detection : option DriftResult;
  tr_composite_risk_score : option CompositeResult;
  tr_timestamp : option Z
}.

Definition train_error_report (error : string) (num_samples : Z)
    (phc_id trigger_reason : string) : TrainReport :=
  {| tr_error := Some error; tr_phc_id := phc_id;
     tr_accuracy := 0; tr_train_accuracy := None;
     tr_precision := 0; tr_recall := 0; tr_f1_score := 0; tr_roc_auc := None;
     tr_num_samples := num_samples; tr_update_id := None;
     tr_version := None; tr_version_string := None;
     tr_triggered_by := trigger_reason;
     tr_drift_detection := None; tr_composite_risk_score := None;
     tr_timestamp := None |}.

Definition fresh_local_model_id (l : list LocalModel) : nat :=
  S (fold_right Nat.max 0%nat (map lm_id l)).

Definition new_local_model (now : Z) (s : Store) (phc_id trigger_reason : string)
    (metrics : Metrics) (num_samples : nat) : LocalModel :=
  let next_version :=
    match get_latest_local_model s phc_id with
    | Some latest_version => (lm_version latest_version + 1)%Z
    | None => 1%Z
    end in
  {| lm_id := fresh_local_model_id (local_models s);
     lm_phc_id := phc_id;
     lm_version := next_version;
     lm_version_string := generate_local_version_string phc_id next_version;
     lm_accuracy := test_accuracy metrics;
     lm_precision := test_precision metrics;
     lm_recall := test_recall metrics;
     lm_f1_score := test_f1_score metrics;
     lm_roc_auc := test_roc_auc metrics;
     lm_sample_count := Z.of_nat num_samples;
     lm_num_test_samples := Z.of_nat (num_test_samples metrics);
     lm_num_train_samples := Z.of_nat (num_train_samples metrics);
     lm_train_accuracy := train_accuracy metrics;
     lm_train_precision := train_precision metrics;
     lm_train_recall := train_recall metrics;
     lm_train_f1_score := train_f1_score metrics;
     lm_trained_at := now;
     lm_triggered_by := trigger_reason;
     lm_aggregated := false;
     lm_aggregated_in_version := None;
     lm_aggregated_in_version_string := None |}.

Definition train_federated_model (ml : MLBackend) (now : Z) (s : Store)
    (phc_id trigger_reason : string) : Store * TrainReport :=
  let pts := patients_of s phc_id in
  match pts with
  | [] => (s, train_error_report "No patient data available" 0 phc_id trigger_reason)
  | _ :: _ =>
    match preprocess_data pts training_feature_columns with
    | Raise msg =>
        (s, train_error_report ("Training failed: " ++ msg) 0 phc_id trigger_reason)
    | Ok (X, y, features) =>
      if (length X =? 0)%nat
      then (s, train_error_report "Failed to preprocess data" 0 phc_id trigger_reason)
      else
        let model_data := train_local_model ml X y features in
        match model_data with
        | TrainError error _ =>
            (s, train_error_report error (Z.of_nat (length X)) phc_id trigger_reason)
        | TrainOk _ =>
        match evaluate_model ml model_data with
        | EvalPassThrough error _ | EvalFailed error =>
            (s, train_error_report error (Z.of_nat (length X)) phc_id trigger_reason)
        | EvalOk metrics num_samples =>
            let local_model :=
              new_local_model now s phc_id trigger_reason metrics num_samples in
            let s1 := set_local_models s (local_models s ++ [local_model]) in
            let s2 := record_training_completion now s1 phc_id true in
            let '(s3, drift_result) := detect_model_drift now s2 phc_id in
            let '(s4, risk_result) := calculate_composite_risk_score now s3 phc_id in
            let '(s5, _) := try_automatic_aggregation now s4 in
            (s5,
             {| tr_error := None; tr_phc_id := phc_id;
                tr_accuracy := test_accuracy metrics;
                tr_train_accuracy := Some (train_accuracy metrics);
                tr_precision := test_precision metrics;
                tr_recall := test_recall metrics;
                tr_f1_score := test_f1_score metrics;
                tr_roc_auc := test_roc_auc metrics;
                tr_num_samples := Z.of_nat num_samples;
                tr_update_id := Some (lm_id local_model);
                tr_version := Some (lm_version local_model);
                tr_version_string := Some (lm_version_string local_model);
                tr_triggered_by := trigger_reason;
                tr_drift_detection := Some drift_result;
                tr_composite_risk_score := Some risk_result;
                tr_timestamp := Some now |})
        end
        end
    end
  end.

(** ** [handle_patient_creation] *)

Inductive HandleResult :=
| NotTrained (trigger_reason phc_id : string)
    (* model_trained False, no error key *)
| TrainingFailed (error phc_id trigger_reason : string)
| Trained (phc_id trigger_reason : string) (model_accuracy : Q)
    (model_version : option Z) (version_string : option string)
    (num_samples : Z) (precision recall f1 : Q) (timestamp : option Z).

(** Truth value of [result.get('error')]. *)
Definition error_set (r : TrainReport) : option string :=
  match tr_error r with
  | Some "" => None
  | e => e
  end.

(** The pipeline, over the training call it makes: [train] returns the report of
    [train_federated_model] or raises ([inl], with the store as the call left
    it). *)
Definition handle_patient_creation_with
    (train : Store -> string -> string -> Store * (string + TrainReport))
    (now : Z) (s : Store) (phc_id : string) : Store * HandleResult :=
  (* Step 1 *)
  let s1 := increment_patient_count now s phc_id in
  (* Step 2 *)
  let '(s2, (should_train, trigger_reason)) :=
    should_trigger_local_training now s1 phc_id in
  if negb should_train then (s2, NotTrained trigger_reason phc_id)
  else
    (* Step 3 *)
    let metadata := find_metadata s2 phc_id in
    if match metadata with
       | Some m => tm_training_in_progress m
       | None => false
       end
    then (s2, NotTrained "training_in_progress" phc_id)
    else
      let s3 :=
        match metadata with
        | Some m => set_training_lock s2 m
        | None => s2
        end in
      match train s3 phc_id trigger_reason with
      | (s4, inr result) =>
          match error_set result with
          | Some error =>
              (record_training_completion now s4 phc_id false,
               TrainingFailed error phc_id trigger_reason)
          | None =>
              (record_training_completion now s4 phc_id true,
               Trained phc_id trigger_reason
                 (py_round (tr_accuracy result) 4)
                 (tr_version result) (tr_version_string result)
                 (tr_num_samples result)
                 (py_round (tr_precision result) 4)
                 (py_round (tr_recall result) 4)
                 (py_round (tr_f1_score result) 4)
                 (tr_timestamp result))
          end
      | (s4, inl training_error) =>
          (record_training_completion now s4 phc_id false,
           TrainingFailed ("Training execution failed: " ++ training_error)
             phc_id trigger_reason)
      end.

Definition handle_patient_creation (ml : MLBackend) (now : Z) (s : Store)
    (phc_id : string) : Store * HandleResult :=
  handle_patient_creation_with
    (fun st phc reason =>
       let '(st', r) := train_federated_model ml now st phc reason in (st', inr r))
    now s phc_id.

(** The call takes the training lock: the trigger fires after the increment and
    the site's record is not already marked in progress. *)
Definition acquires_training_lock (now : Z) (s : Store) (phc_id : string) : bool :=
  let s1 := increment_patient_count now s phc_id in
  let '(s2, (should_train, _)) := should_trigger_local_training now s1 phc_id in
  should_train &&
  match find_metadata s2 phc_id with
  | Some m => negb (tm_training_in_progress m)
  | None => false
  end.

Definition training_in_progress (s : Store) (phc_id : string) : bool :=
  match find_metadata s phc_id with
  | Some m => tm_training_in_progress m
  | None => false
  end.

(** ** Risk hierarchy ([city_risk_calculator.py]) *)

Definition PHC_CITY_MAPPING : list (string * string) :=
  [("PHC_1", "Pollachi"); ("PHC_2", "Pollachi"); ("PHC_3", "Thondamuthur");
   ("PHC_4", "Thondamuthur"); ("PHC_5", "Kinathukadavu")].

Definition DISTRICT_ID : string := "Coimbatore".

(** [PHC_CITY_MAPPING.get(phc_id, 'Unknown')] *)
Definition city_of (phc_id : string) : string :=
  match find (fun e => String.eqb (fst e) phc_id) PHC_CITY_MAPPING with
  | Some e => snd e
  | None => "Unknown"
  end.

Definition SECONDS_PER_DAY : Z := 86400.

(** Patients of the site created on or after the cutoff. *)
Definition patients_in_window (now : Z) (s : Store) (phc_id : string)
    (time_window_days : Z) : list Patient :=
  let cutoff_date := (now - time_window_days * SECONDS_PER_DAY)%Z in
  filter (fun p => String.eqb (pt_phc_id p) phc_id
                   && (cutoff_date <=? pt_created_at p)%Z)
         (patients s).

Record PhcRisk := {
  pr_phc_id : string;
  pr_city : string;
  pr_phc_risk_score : Q;
  pr_high_severity_percentage : Q;
  pr_outbreak_flag_percentage : Q;
  pr_disease_prevalence_percentage : Q;
  pr_patient_count : nat;
  pr_insufficient_data : bool       (* note: 'Insufficient data' *)
}.

(** [min(x, 1.0)] *)
Definition min_1 (x : Q) : Q := if Qltb 1 x then 1 else x.

Fixpoint update_first {A : Type} (test : A -> bool) (upd : A -> A) (l : list A)
    : option (list A) :=
  match l with
  | [] => None
  | x :: l' =>
      if test x then Some (upd x :: l')
      else option_map (cons x) (update_first test upd l')
  end.

(** Update the first matching row, or insert a new one. *)
Definition upsert_risk_score (s : Store) (test : RiskScore -> bool)
    (upd : RiskScore -> RiskScore) (fresh : RiskScore) : Store :=
  match update_first test upd (risk_scores s) with
  | Some l => set_risk_scores s l
  | None => set_risk_scores s (risk_scores s ++ [fresh])
  end.

Definition option_string_eqb (a : option string) (b : option string) : bool :=
  match a, b with
  | Some x, Some y => String.eqb x y
  | None, None => true
  | _, _ => false
  end.

Definition calculate_phc_risk_score (now : Z) (s : Store) (phc_id : string)
    (time_window_days : Z) : Store * PhcRisk :=
  let pts := patients_in_window now s phc_id time_window_days in
  let total_patients := length pts in
  if (total_patients =? 0)%nat
  then (s, {| pr_phc_id := phc_id; pr_city := city_of phc_id;
              pr_phc_risk_score := 0; pr_high_severity_percentage := 0;
              pr_outbreak_flag_percentage := 0;
              pr_disease_prevalence_percentage := 0;
              pr_patient_count := 0; pr_insufficient_data := true |})
  else
    let high_severity_count :=
      count_if (fun p => String.eqb (pt_severity_level p) "High") pts in
    let high_severity_pct := Qnat high_severity_count / Qnat total_patients * 100 in
    let disease_count :=
      count_if (fun p => negb (String.eqb (pt_disease_label p) "Healthy")) pts in
    let outbreak_flag_pct := Qnat disease_count / Qnat total_patients * 100 in
    let disease_prevalence_pct := Qnat disease_count / Qnat total_patients * 100 in
    let phc_risk_score :=
      min_1 (high_severity_pct / 100 * (4 # 10)
             + outbreak_flag_pct / 100 * (3 # 10)
             + disease_prevalence_pct / 100 * (3 # 10)) in
    let city := city_of phc_id in
    let s' :=
      upsert_risk_score s
        (fun r => option_string_eqb (rs_phc_id r) (Some phc_id)
                  && String.eqb (rs_district_id r) DISTRICT_ID
                  && String.eqb (rs_evaluation_period r) "daily")
        (fun r =>
           {| rs_phc_id := rs_phc_id r; rs_city := rs_city r;
              rs_district_id := rs_district_id r;
              rs_phc_risk_score := phc_risk_score;
              rs_city_risk_score := rs_city_risk_score r;
              rs_district_risk_score := rs_district_risk_score r;
              rs_high_severity_percentage := high_severity_pct;
              rs_outbreak_flag_percentage := outbreak_flag_pct;
              rs_disease_prevalence_percentage := disease_prevalence_pct;
              rs_patient_count := Z.of_nat total_patients;
              rs_evaluation_period := rs_evaluation_period r;
              rs_updated_at := now |})
        {| rs_phc_id := Some phc_id; rs_city := Some city;
           rs_district_id := DISTRICT_ID;
           rs_phc_risk_score := phc_risk_score;
           rs_city_risk_score := 0;
           rs_district_risk_score := 0;
           rs_high_severity_percentage := high_severity_pct;
           rs_outbreak_flag_percentage := outbreak_flag_pct;
           rs_disease_prevalence_percentage := disease_prevalence_pct;
           rs_patient_count := Z.of_nat total_patients;
           rs_evaluation_period := "daily";
           rs_updated_at := now |} in
    (s', {| pr_phc_id := phc_id; pr_city := city;
            pr_phc_risk_score := py_round phc_risk_score 4;
            pr_high_severity_percentage := py_round high_severity_pct 2;
            pr_outbreak_flag_percentage := py_round outbreak_flag_pct 2;
            pr_disease_prevalence_percentage := py_round disease_prevalence_pct 2;
            pr_patient_count := total_patients;
            pr_insufficient_data := false |}).

Record CityRisk := {
  ci_city : string;
  ci_city_risk_score : Q;
  ci_num_phcs : nat;
  ci_total_patients : nat;
  ci_phc_breakdown : list PhcRisk
}.

Inductive CityResult :=
| CityNotFound (city : string)
| CityInsufficientData (city : string) (num_phcs : nat) (phc_data : list PhcRisk)
| CityScore (r : CityRisk).

(** The first loop of [calculate_city_risk_score]. *)
Fixpoint collect_phc_risks (now : Z) (s : Store) (phc_ids : list string)
    (time_window_days : Z) : Store * list PhcRisk :=
  match phc_ids with
  | [] => (s, [])
  | phc_id :: rest =>
      let '(s1, phc_data) := calculate_phc_risk_score now s phc_id time_window_days in
      let '(s2, phc_risks) := collect_phc_risks now s1 rest time_window_days in
      (s2, phc_data :: phc_risks)
  end.

Definition total_patient_count (phc_risks : list PhcRisk) : nat :=
  fold_left (fun acc d => (acc + pr_patient_count d)%nat) phc_risks 0%nat.

(** The second loop: [city_risk_score += phc_risk_score * weight]. *)
Definition weighted_risk_sum (phc_risks : list PhcRisk) (total_patients : nat) : Q :=
  fold_left
    (fun city_risk_score d =>
       let weight := Qnat (pr_patient_count d) / Qnat total_patients in
       city_risk_score + pr_phc_risk_score d * weight)
    phc_risks 0.

Definition calculate_city_risk_score (now : Z) (s : Store) (city : string)
    (time_window_days : Z) : Store * CityResult :=
  let phc_ids :=
    map fst (filter (fun e => String.eqb (snd e) city) PHC_CITY_MAPPING) in
  match phc_ids with
  | [] => (s, CityNotFound city)
  | _ :: _ =>
    let '(s1, phc_risks) := collect_phc_risks now s phc_ids time_window_days in
    let total_patients := total_patient_count phc_risks in
    if match phc_risks with [] => true | _ => false end
       || (total_patients =? 0)%nat
    then (s1, CityInsufficientData city (length phc_ids) phc_risks)
    else
      let city_risk_score := min_1 (weighted_risk_sum phc_risks total_patients) in
      let s2 :=
        upsert_risk_score s1
          (fun r => option_string_eqb (rs_city r) (Some city)
                    && String.eqb (rs_district_id r) DISTRICT_ID
                    && option_string_eqb (rs_phc_id r) None
                    && String.eqb (rs_evaluation_period r) "daily")
          (fun r =>
             {| rs_phc_id := rs_phc_id r; rs_city := rs_city r;
                rs_district_id := rs_district_id r;
                rs_phc_risk_score := rs_phc_risk_score r;
                rs_city_risk_score := city_risk_score;
                rs_district_risk_score := rs_district_risk_score r;
                rs_high_severity_percentage := rs_high_severity_percentage r;
                rs_outbreak_flag_percentage := rs_outbreak_flag_percentage r;
                rs_disease_prevalence_percentage :=
                  rs_disease_prevalence_percentage r;
                rs_patient_count := Z.of_nat total_patients;
                rs_evaluation_period := rs_evaluation_period r;
                rs_updated_at := now |})
          {| rs_phc_id := None; rs_city := Some city;
             rs_district_id := DISTRICT_ID;
             rs_phc_risk_score := 0;
             rs_city_risk_score := city_risk_score;
             rs_district_risk_score := 0;
             rs_high_severity_percentage := 0;
             rs_outbreak_flag_percentage := 0;
             rs_disease_prevalence_percentage := 0;
             rs_patient_count := Z.of_nat total_patients;
             rs_evaluation_period := "daily";
             rs_updated_at := now |} in
      (s2, CityScore
             {| ci_city := city;
                ci_city_risk_score := py_round city_risk_score 4;
                ci_num_phcs := length phc_ids;
                ci_total_patients := total_patients;
                ci_phc_breakdown := phc_risks |})
  end.

(** The sample-count-weighted average of the specification:
    [sum(value_i * weight_i) / sum(weight_i)]. *)
Definition weighted_average (l : list (Q * Q)) : Q :=
  Qsum (map (fun e => fst e * snd e) l) / Qsum (map snd l).

(** ** Outbreak detector ([detect_fever_outbreak]) *)

(** The bucketing of the patients by day, and the detector in exact
    arithmetic; [detect_fever_outbreak_f64] below decides the guard and the
    flag on the floats pandas returns. *)

(** [created_at.date()], as a day number. *)
Definition day_of (t : Z) : Z := (t / SECONDS_PER_DAY)%Z.

(** One row of [df.groupby('date')['fever'].sum()], kept sorted by date. *)
Fixpoint add_to_day (date fever : Z) (l : list (Z * Z)) : list (Z * Z) :=
  match l with
  | [] => [(date, fever)]
  | (d, fever_count) :: l' =>
      if (date <? d)%Z then (date, fever) :: l
      else if (date =? d)%Z then (d, (fever_count + fever)%Z) :: l'
      else (d, fever_count) :: add_to_day date fever l'
  end.

Definition daily_fever_counts (pts : list Patient) : list (Z * Z) :=
  fold_left (fun acc p => add_to_day (day_of (pt_created_at p)) (pt_fever p) acc)
            pts [].

Definition Qmean (l : list Q) : Q := Qsum l / Qnat (length l).

(** [series.rolling(window).mean().dropna()]: one mean per full window. *)
Fixpoint rolling_mean_dropna (window : nat) (l : list Q) : list Q :=
  match l with
  | [] => []
  | _ :: l' =>
      if ((1 <=? window) && (window <=? length l))%nat
      then Qmean (firstn window l) :: rolling_mean_dropna window l'
      else []
  end.

(** [series.mean()]; [None] is NaN (empty series). *)
Definition series_mean (l : list Q) : option Q :=
  match l with
  | [] => None
  | _ :: _ => Some (Qmean l)
  end.

(** Sample variance ([ddof=1]). *)
Definition sample_variance (l : list Q) : Q :=
  Qsum (map (fun x => (x - Qmean l) * (x - Qmean l)) l) / Qnat (length l - 1).

(** [series.std()]; [None] is NaN (fewer than two values).  [fsqrt] is the
    floating-point square root. *)
Definition series_std (fsqrt : Q -> Q) (l : list Q) : option Q :=
  if (length l <? 2)%nat then None else Some (fsqrt (sample_variance l)).

(** The guarded division. *)
Definition z_score_of (latest_fever : Q) (rolling_mean rolling_std : option Q) : Q :=
  match rolling_std, rolling_mean with
  | Some sd, Some mu =>
      if Qeq_bool sd 0 then 0 else (latest_fever - mu) / sd
  | _, _ => 0
  end.

Inductive OutbreakResult :=
| OutbreakNoData (phc_id : string)
    (* outbreak_flag False, z_score 0.0, 'Not enough historical data' *)
| OutbreakInsufficientDays (phc_id : string) (sample_size : nat) (lookback_days : Z)
    (* outbreak_flag False, z_score 0.0, 'Need at least N days of data' *)
| OutbreakFailed (phc_id : string) (error : string)
    (* outbreak_flag False, z_score 0.0, 'Outbreak detection failed: ...' *)
| OutbreakReport (phc_id : string) (outbreak_flag : bool) (z_score : Q)
    (latest_fever_count : Z) (rolling_mean : option Q) (sample_size : nat).

Definition outbreak_alert (now : Z) (s : Store) (phc_id : string) (z_score : Q)
    : Alert :=
  let latest_local_model := get_latest_local_model s phc_id in
  let latest_global_model := get_latest_global_model s in
  {| al_phc_id := phc_id;
     al_alert_type := "FEVER_OUTBREAK";
     al_risk_score := Qabs z_score;
     al_severity := if Qgtb (Qabs z_score) 3 then "HIGH" else "MEDIUM";
     al_created_at := now;
     al_local_model_version := local_version_or_0 latest_local_model;
     al_local_model_version_string :=
       option_map lm_version_string latest_local_model;
     al_global_model_version := global_version_or_0 latest_global_model;
     al_global_model_version_string :=
       option_map gm_version_string latest_global_model;
     al_drift_detected := false;
     al_accuracy_drop_percentage := None;
     al_previous_accuracy := None;
     al_current_accuracy := None;
     al_fever_percentage := None;
     al_positive_predictions_percentage := None;
     al_abnormal_wbc_ratio := None |}.

Definition detect_fever_outbreak (fsqrt : Q -> Q) (now : Z) (s : Store)
    (phc_id : string) (lookback_days : Z) : Store * OutbreakResult :=
  let cutoff_date := (now - 14 * SECONDS_PER_DAY)%Z in
  let pts :=
    filter (fun p => String.eqb (pt_phc_id p) phc_id
                     && (cutoff_date <=? pt_created_at p)%Z)
           (patients s) in
  match pts with
  | [] => (s, OutbreakNoData phc_id)
  | _ :: _ =>
    let daily_fever := daily_fever_counts pts in
    if (Z.of_nat (length daily_fever) <? lookback_days)%Z
    then (s, OutbreakInsufficientDays phc_id (length daily_fever) lookback_days)
    else if (lookback_days <? 0)%Z
    then (s, OutbreakFailed phc_id
               "Outbreak detection failed: window must be an integer 0 or greater")
    else
      let fever_count := map (fun e => inject_Z (snd e)) daily_fever in
      let rolling_avg := rolling_mean_dropna (Z.to_nat lookback_days) fever_count in
      let latest_fever := last fever_count 0 in
      let rolling_mean := series_mean rolling_avg in
      let rolling_std := series_std fsqrt rolling_avg in
      let z_score := z_score_of latest_fever rolling_mean rolling_std in
      let outbreak_flag := Qgtb (Qabs z_score) 2 in
      let s' :=
        if outbreak_flag
        then set_alerts s (alerts s ++ [outbreak_alert now s phc_id z_score])
        else s in
      (s', OutbreakReport phc_id outbreak_flag (py_round z_score 4)
             (snd (last daily_fever (0, 0)%Z))
             (option_map (fun m => py_round m 2) rolling_mean)
             (length daily_fever))
  end.

(** ** The three detectors on binary64

    The flag, the severity and the alert of a detector depend on comparing a
    computed float with a threshold.  Here each detector is written once more
    with the floats of the program; a stored accuracy is the binary64 number
    nearest the rational the document holds.  A detector writes nothing but
    alerts: the functions return the alerts the call saves, in order, and the
    dict it returns. *)

(** An [Alert] document as the detectors create it. *)
Record Alert64 := {
  a64_phc_id : string;
  a64_alert_type : string;
  a64_risk_score : f64;
  a64_severity : string;
  a64_created_at : Z;
  a64_local_model_version : Z;
  a64_local_model_version_string : option string;
  a64_global_model_version : Z;
  a64_global_model_version_string : option string;
  a64_drift_detected : bool;
  a64_accuracy_drop_percentage : option f64;
  a64_previous_accuracy : option f64;
  a64_current_accuracy : option f64;
  a64_fever_percentage : option f64;
  a64_positive_predictions_percentage : option f64;
  a64_abnormal_wbc_ratio : option f64
}.

(** *** [detect_model_drift] *)

Inductive DriftResult64 :=
| Drift64InsufficientHistory (phc_id : string)
    (* drift_detected False, reason 'insufficient_history' *)
| Drift64Report (drift_detected : bool) (phc_id : string)
    (accuracy_drop_percentage previous_accuracy current_accuracy threshold : f64)
    (alert_created : bool).

Definition drift_alert_f64 (now : Z) (phc_id : string) (latest previous : LocalModel)
    (latest_global : option GlobalModel) (accuracy_drop_percentage : f64)
    : Alert64 :=
  {| a64_phc_id := phc_id;
     a64_alert_type := "MODEL_DRIFT";
     a64_risk_score := accuracy_drop_percentage;
     a64_severity :=
       if fltb (f64_of_Z 20) accuracy_drop_percentage then "HIGH" else "MEDIUM";
     a64_created_at := now;
     a64_local_model_version := lm_version latest;
     a64_local_model_version_string := Some (lm_version_string latest);
     a64_global_model_version := global_version_or_0 latest_global;
     a64_global_model_version_string := option_map gm_version_string latest_global;
     a64_drift_detected := true;
     a64_accuracy_drop_percentage := Some accuracy_drop_percentage;
     a64_previous_accuracy := Some (f64_of_Q (lm_accuracy previous));
     a64_current_accuracy := Some (f64_of_Q (lm_accuracy latest));
     a64_fever_percentage := None;
     a64_positive_predictions_percentage := None;
     a64_abnormal_wbc_ratio := None |}.

Definition detect_model_drift_f64 (now : Z) (s : Store) (phc_id : string)
    : list Alert64 * DriftResult64 :=
  let by_version := order_by_desc lm_version (local_models_of s phc_id) in
  match first by_version, first (skipn 1 by_version) with
  | Some latest, Some previous =>
      let previous_accuracy := f64_of_Q (lm_accuracy previous) in
      let latest_accuracy := f64_of_Q (lm_accuracy latest) in
      let accuracy_drop := fsub previous_accuracy latest_accuracy in
      let accuracy_drop_percentage :=
        if fltb (f64_of_Z 0) previous_accuracy
        then fmul (fdiv accuracy_drop previous_accuracy) (f64_of_Z 100)
        else f64_of_Z 0 in
      let drift_detected := fltb (f64_of_Z 10) accuracy_drop_percentage in
      ((if drift_detected
        then [drift_alert_f64 now phc_id latest previous
                (get_latest_global_model s) accuracy_drop_percentage]
        else []),
       Drift64Report drift_detected phc_id
         (py_round_f64 accuracy_drop_percentage 2)
         previous_accuracy latest_accuracy (f64_of_Z 10) drift_detected)
  | _, _ => ([], Drift64InsufficientHistory phc_id)
  end.

(** *** [calculate_composite_risk_score] *)

Record CompositeRisk64 := {
  c64_phc_id : string;
  c64_risk_score : f64;
  c64_severity : string;
  c64_fever_percentage : f64;
  c64_positive_predictions_percentage : f64;
  c64_abnormal_wbc_ratio : f64;
  c64_fever_component : f64;
  c64_predictions_component : f64;
  c64_wbc_component : f64;
  c64_total_patients : nat;
  c64_alert_created : bool
}.

Inductive CompositeResult64 :=
| Composite64NoPatients (phc_id : string)   (* risk_score 0.0, severity LOW *)
| Composite64Score (r : CompositeRisk64).

(** [(cases / total) * 100] on two [int]s. *)
Definition percentage_f64 (cases total : nat) : f64 :=
  fmul (f64_of_Q (Z.of_nat cases # Pos.of_nat total)) (f64_of_Z 100).

(** [(pct / 100) * weight * 100] *)
Definition component_f64 (pct : f64) (weight : Q) : f64 :=
  fmul (fmul (fdiv pct (f64_of_Z 100)) (f64_of_Q weight)) (f64_of_Z 100).

Definition severity_band_f64 (composite_score : f64) : string :=
  if fltb composite_score (f64_of_Z 30) then "LOW"
  else if fltb composite_score (f64_of_Z 60) then "MEDIUM"
  else "HIGH".

(** [max(0, min(100, x))]: [min] and [max] return their first argument unless
    the second is smaller, respectively larger. *)
Definition clamp_0_100_f64 (x : f64) : f64 :=
  let m := if fltb x (f64_of_Z 100) then x else f64_of_Z 100 in
  if fltb (f64_of_Z 0) m then m else f64_of_Z 0.

Definition calculate_composite_risk_score_f64 (now : Z) (s : Store)
    (phc_id : string) : list Alert64 * CompositeResult64 :=
  let pts := patients_of s phc_id in
  match pts with
  | [] => ([], Composite64NoPatients phc_id)
  | _ :: _ =>
    let total_patients := length pts in
    let fever_cases := count_if (fun p => (pt_fever p =? 1)%Z) pts in
    let fever_percentage := percentage_f64 fever_cases total_patients in
    let fever_component := component_f64 fever_percentage (4 # 10) in
    let latest_model := get_latest_local_model s phc_id in
    let positive_predictions :=
      match latest_model with
      | Some _ => count_if matches_disease_keyword pts
      | None => 0%nat
      end in
    let positive_predictions_percentage :=
      percentage_f64 positive_predictions total_patients in
    let predictions_component :=
      component_f64 positive_predictions_percentage (3 # 10) in
    let abnormal := count_if abnormal_wbc pts in
    let abnormal_wbc_ratio := percentage_f64 abnormal total_patients in
    let wbc_component := component_f64 abnormal_wbc_ratio (3 # 10) in
    let composite_score :=
      clamp_0_100_f64
        (fadd (fadd fever_component predictions_component) wbc_component) in
    let severity := severity_band_f64 composite_score in
    let latest_global := get_latest_global_model s in
    let alert :=
      {| a64_phc_id := phc_id;
         a64_alert_type := "COMPOSITE_RISK";
         a64_risk_score := composite_score;
         a64_severity := severity;
         a64_created_at := now;
         a64_local_model_version := local_version_or_0 latest_model;
         a64_local_model_version_string :=
           option_map lm_version_string latest_model;
         a64_global_model_version := global_version_or_0 latest_global;
         a64_global_model_version_string :=
           option_map gm_version_string latest_global;
         a64_drift_detected := false;
         a64_accuracy_drop_percentage := None;
         a64_previous_accuracy := None;
         a64_current_accuracy := None;
         a64_fever_percentage := Some fever_percentage;
         a64_positive_predictions_percentage :=
           Some positive_predictions_percentage;
         a64_abnormal_wbc_ratio := Some abnormal_wbc_ratio |} in
    ([alert],
     Composite64Score
       {| c64_phc_id := phc_id;
          c64_risk_score := py_round_f64 composite_score 2;
          c64_severity := severity;
          c64_fever_percentage := py_round_f64 fever_percentage 2;
          c64_positive_predictions_percentage :=
            py_round_f64 positive_predictions_percentage 2;
          c64_abnormal_wbc_ratio := py_round_f64 abnormal_wbc_ratio 2;
          c64_fever_component := py_round_f64 fever_component 2;
          c64_predictions_component := py_round_f64 predictions_component 2;
          c64_wbc_component := py_round_f64 wbc_component 2;
          c64_total_patients := total_patients;
          c64_alert_created := true |})
  end.

(** *** [detect_fever_outbreak] *)

(** The three pandas calls of the detector, taken as given:
    [series.rolling(window).mean().dropna()] on the daily counts, and
    [series.mean()] and [series.std()] on the result (NaN where pandas gives
    NaN). *)
Record PandasBackend := {
  pd_rolling_mean_dropna : nat -> list Z -> list f64;
  pd_mean : list f64 -> f64;
  pd_std : list f64 -> f64
}.

Inductive OutbreakResult64 :=
| Outbreak64NoData (phc_id : string)
    (* outbreak_flag False, z_score 0.0, 'Not enough historical data' *)
| Outbreak64InsufficientDays (phc_id : string) (sample_size : nat)
    (lookback_days : Z)
    (* outbreak_flag False, z_score 0.0, 'Need at least N days of data' *)
| Outbreak64Failed (phc_id : string) (error : string)
    (* outbreak_flag False, z_score 0.0, 'Outbreak detection failed: ...' *)
| Outbreak64Report (phc_id : string) (outbreak_flag : bool) (z_score : f64)
    (latest_fever_count : Z) (rolling_mean : f64) (sample_size : nat).

(** The guarded division. *)
Definition z_score_f64 (latest_fever rolling_mean rolling_std : f64) : f64 :=
  if feqb rolling_std (f64_of_Z 0) || f64_is_nan rolling_std
  then f64_of_Z 0
  else fdiv (fsub latest_fever rolling_mean) rolling_std.

Definition outbreak_alert_f64 (now : Z) (s : Store) (phc_id : string)
    (z_score : f64) : Alert64 :=
  let latest_local_model := get_latest_local_model s phc_id in
  let latest_global_model := get_latest_global_model s in
  {| a64_phc_id := phc_id;
     a64_alert_type := "FEVER_OUTBREAK";
     a64_risk_score := fabs z_score;
     a64_severity :=
       if fltb (f64_of_Z 3) (fabs z_score) then "HIGH" else "MEDIUM";
     a64_created_at := now;
     a64_local_model_version := local_version_or_0 latest_local_model;
     a64_local_model_version_string :=
       option_map lm_version_string latest_local_model;
     a64_global_model_version := global_version_or_0 latest_global_model;
     a64_global_model_version_string :=
       option_map gm_version_string latest_global_model;
     a64_drift_detected := false;
     a64_accuracy_drop_percentage := None;
     a64_previous_accuracy := None;
     a64_current_accuracy := None;
     a64_fever_percentage := None;
     a64_positive_predictions_percentage := None;
     a64_abnormal_wbc_ratio := None |}.

Definition detect_fever_outbreak_f64 (pd : PandasBackend) (now : Z) (s : Store)
    (phc_id : string) (lookback_days : Z) : list Alert64 * OutbreakResult64 :=
  let cutoff_date := (now - 14 * SECONDS_PER_DAY)%Z in
  let pts :=
    filter (fun p => String.eqb (pt_phc_id p) phc_id
                     && (cutoff_date <=? pt_created_at p)%Z)
           (patients s) in
  match pts with
  | [] => ([], Outbreak64NoData phc_id)
  | _ :: _ =>
    let daily_fever := daily_fever_counts pts in
    if (Z.of_nat (length daily_fever) <? lookback_days)%Z
    then ([], Outbreak64InsufficientDays phc_id (length daily_fever) lookback_days)
    else if (lookback_days <? 0)%Z
    then ([], Outbreak64Failed phc_id
                "Outbreak detection failed: window must be an integer 0 or greater")
    else
      let fever_count := map snd daily_fever in
      let rolling_avg :=
        pd_rolling_mean_dropna pd (Z.to_nat lookback_days) fever_count in
      let latest_fever := last fever_count 0%Z in
      let rolling_mean := pd_mean pd rolling_avg in
      let rolling_std := pd_std pd rolling_avg in
      let z_score := z_score_f64 (f64_of_Z latest_fever) rolling_mean rolling_std in
      let outbreak_flag := fltb (f64_of_Z 2) (fabs z_score) in
      ((if outbreak_flag then [outbreak_alert_f64 now s phc_id z_score] else []),
       Outbreak64Report phc_id outbreak_flag (py_round_f64 z_score 4)
         latest_fever (py_round_f64 rolling_mean 2) (length daily_fever))
  end.

(** ** Lookup by version string ([get_model_by_version_string]) *)

Inductive AnyModel :=
| IsGlobal (g : GlobalModel)
| IsLocal (m : LocalModel).

(** The global models are searched first. *)
Definition get_model_by_version_string (s : Store) (version_string : string)
    : option AnyModel :=
  match find (fun g => String.eqb (gm_version_string g) version_string)
             (global_models s) with
  | Some global_model => Some (IsGlobal global_model)
  | None =>
      option_map IsLocal
        (find (fun m => String.eqb (lm_version_string m) version_string)
              (local_models s))
  end.

(** ** District level ([calculate_district_risk_score]) *)

(** [get_risk_severity_level] *)
Definition get_risk_severity_level (risk_score : Q) : string :=
  if Qltb risk_score (25 # 100) then "LOW"
  else if Qltb risk_score (50 # 100) then "MEDIUM"
  else if Qltb risk_score (75 # 100) then "HIGH"
  else "CRITICAL".

Record DistrictRisk := {
  di_district_id : string;
  di_district_risk_score : Q;
  di_num_cities : nat;
  di_total_patients : nat;
  di_city_breakdown : list CityRisk
}.

Inductive DistrictResult :=
| DistrictError (error : string) (district_id : string)
| DistrictInsufficientData (district_id : string) (num_cities : nat)
| DistrictScore (r : DistrictRisk).

(** The first loop of [calculate_district_risk_score].  Only a city result that
    carries a score has the key ['total_patients']; on any other result the
    lookup [city_data['total_patients']] raises [KeyError] and the loop stops
    there, with the store as the cities handled so far left it. *)
Fixpoint collect_city_risks (now : Z) (s : Store) (cities : list string)
    (time_window_days : Z) : Store * pyresult (list CityRisk) :=
  match cities with
  | [] => (s, Ok [])
  | city :: rest =>
      match calculate_city_risk_score now s city time_window_days with
      | (s1, CityScore city_data) =>
          match collect_city_risks now s1 rest time_window_days with
          | (s2, Ok city_risks) => (s2, Ok (city_data :: city_risks))
          | (s2, Raise msg) => (s2, Raise msg)
          end
      | (s1, _) => (s1, Raise "'total_patients'")
      end
  end.

Definition total_city_patients (city_risks : list CityRisk) : nat :=
  fold_left (fun acc d => (acc + ci_total_patients d)%nat) city_risks 0%nat.

(** The second loop: [district_risk_score += city_risk_score * weight]. *)
Definition weighted_city_risk_sum (city_risks : list CityRisk) (total_patients : nat)
    : Q :=
  fold_left
    (fun district_risk_score d =>
       let weight := Qnat (ci_total_patients d) / Qnat total_patients in
       district_risk_score + ci_city_risk_score d * weight)
    city_risks 0.

(** [cities] is [list(set(PHC_CITY_MAPPING.values()))], in the order the set
    happens to iterate. *)
Definition calculate_district_risk_score (cities : list string) (now : Z)
    (s : Store) (district_id : string) (time_window_days : Z)
    : Store * DistrictResult :=
  match collect_city_risks now s cities time_window_days with
  | (s1, Raise msg) => (s1, DistrictError msg district_id)
  | (s1, Ok city_risks) =>
    let total_patients := total_city_patients city_risks in
    if match city_risks with [] => true | _ => false end
       || (total_patients =? 0)%nat
    then (s1, DistrictInsufficientData district_id (length cities))
    else
      let district_risk_score :=
        min_1 (weighted_city_risk_sum city_risks total_patients) in
      let s2 :=
        upsert_risk_score s1
          (fun r => String.eqb (rs_district_id r) district_id
                    && option_string_eqb (rs_phc_id r) None
                    && option_string_eqb (rs_city r) None
                    && String.eqb (rs_evaluation_period r) "daily")
          (fun r =>
             {| rs_phc_id := rs_phc_id r; rs_city := rs_city r;
                rs_district_id := rs_district_id r;
                rs_phc_risk_score := rs_phc_risk_score r;
                rs_city_risk_score := rs_city_risk_score r;
                rs_district_risk_score := district_risk_score;
                rs_high_severity_percentage := rs_high_severity_percentage r;
                rs_outbreak_flag_percentage := rs_outbreak_flag_percentage r;
                rs_disease_prevalence_percentage :=
                  rs_disease_prevalence_percentage r;
                rs_patient_count := Z.of_nat total_patients;
                rs_evaluation_period := rs_evaluation_period r;
                rs_updated_at := now |})
          {| rs_phc_id := None; rs_city := None;
             rs_district_id := district_id;
             rs_phc_risk_score := 0;
             rs_city_risk_score := 0;
             rs_district_risk_score := district_risk_score;
             rs_high_severity_percentage := 0;
             rs_outbreak_flag_percentage := 0;
             rs_disease_prevalence_percentage := 0;
             rs_patient_count := Z.of_nat total_patients;
             rs_evaluation_period := "daily";
             rs_updated_at := now |} in
      (s2, DistrictScore
             {| di_district_id := district_id;
                di_district_risk_score := py_round district_risk_score 4;
                di_num_cities := length cities;
                di_total_patients := total_patients;
                di_city_breakdown := city_risks |})
  end.

(** ** The training cycle command
    ([management/commands/federated_training_cycle.py]) *)

Definition cycle_phc_ids : list string := ["PHC1"; "PHC2"; "PHC3"; "PHC4"].

Record TrainedItem := {
  ti_phc_id : string;
  ti_version_string : option string;
  ti_accuracy : Q
}.

Record CycleSummary := {
  cy_trained_phcs : list TrainedItem;
  cy_aggregation_result : option AggregationResult;
  cy_latest_global : option GlobalModel
}.

(** Phase 1, for one site. *)
Definition cycle_train_site (ml : MLBackend) (now : Z) (s : Store)
    (phc_id : string) : Store * list TrainedItem :=
  let '(s1, (should_train, trigger_reason)) :=
    should_trigger_local_training now s phc_id in
  if should_train
  then
    let '(s2, result) := train_federated_model ml now s1 phc_id trigger_reason in
    match error_set result with
    | Some _ => (s2, [])
    | None =>
        (s2, [{| ti_phc_id := phc_id;
                 ti_version_string := tr_version_string result;
                 ti_accuracy := tr_accuracy result |}])
    end
  else (s1, []).

Fixpoint cycle_phase1 (ml : MLBackend) (now : Z) (s : Store)
    (phc_ids : list string) : Store * list TrainedItem :=
  match phc_ids with
  | [] => (s, [])
  | phc_id :: rest =>
      let '(s1, trained) := cycle_train_site ml now s phc_id in
      let '(s2, trained_rest) := cycle_phase1 ml now s1 rest in
      (s2, (trained ++ trained_rest)%list)
  end.

(** [Command.handle] *)
Definition federated_training_cycle (ml : MLBackend) (now : Z) (s : Store)
    : Store * CycleSummary :=
  let '(s1, trained_phcs) := cycle_phase1 ml now s cycle_phc_ids in
  let '(should_aggregate, reason, pending_phcs) :=
    should_trigger_global_aggregation s1 in
  let '(s2, aggregation_result) :=
    if should_aggregate then try_automatic_aggregation now s1 else (s1, None) in
  (s2, {| cy_trained_phcs := trained_phcs;
          cy_aggregation_result := aggregation_result;
          cy_latest_global := get_latest_global_model s2 |}).

(** ** The aggregation endpoint ([views.AggregateModelsView.post]) *)

Inductive AggregateResponse :=
| Forbidden403            (* "Only district admins can aggregate models" *)
| NoModels400             (* "No trained models to aggregate" *)
| Aggregated200 (accuracy : Q) (num_contributors : nat)
    (contributors : list string) (version : Z) (version_string : string).

(** The auto-training step for one listed site: train when the site has at
    least 20 patients and no local model yet. *)
Definition auto_train_site (ml : MLBackend) (now : Z) (s : Store)
    (phc_id : string) : Store :=
  let patient_count := length (patients_of s phc_id) in
  let has_model :=
    match first (local_models_of s phc_id) with
    | Some _ => true
    | None => false
    end in
  if (20 <=? patient_count)%nat && negb has_model
  then fst (train_federated_model ml now s phc_id "manual")
  else s.

Definition aggregate_models_view (ml : MLBackend) (now : Z) (role : string)
    (s : Store) : Store * AggregateResponse :=
  if negb (String.eqb role "DISTRICT_ADMIN") then (s, Forbidden403)
  else
    let s1 := fold_left (auto_train_site ml now) aggregation_phc_ids s in
    match aggregate_models now false s1 with
    | (s2, None) => (s2, NoModels400)
    | (s2, Some result) =>
        (s2, Aggregated200 (py_round (ar_accuracy result) 4)
               (ar_num_contributors result) (ar_contributors result)
               (ar_version result) (ar_version_string result))
    end.

(** ** Vocabulary of the statements *)

(** [a] comes no later than [b] in a query ordered by decreasing [key]. *)
Definition desc {A : Type} (key : A -> Z) (a b : A) : Prop := (key b <= key a)%Z.

(** [k] out of [n], as a percentage. *)
Definition percentage (k n : nat) : Q := Qnat k / Qnat n * 100.

(** The composite score of the specification: 40% fever, 30% disease keywords,
    30% abnormal white-cell count, clamped to [0, 100]. *)
Definition composite_score_spec (fever_pct keyword_pct wbc_pct : Q) : Q :=
  Qmax 0 (Qmin 100
    ((4 # 10) * fever_pct + (3 # 10) * keyword_pct + (3 # 10) * wbc_pct)).

(** The drop the specification asks for, on the stored floats:
    [(previous.accuracy - latest.accuracy) / previous.accuracy * 100]. *)
Definition accuracy_drop_percentage_f64 (previous latest : LocalModel) : f64 :=
  fmul (fdiv (fsub (f64_of_Q (lm_accuracy previous))
                   (f64_of_Q (lm_accuracy latest)))
             (f64_of_Q (lm_accuracy previous)))
       (f64_of_Z 100).

(** The composite score of the specification on floats, before the clamp:
    40% fever, 30% disease keywords, 30% abnormal white-cell count, each share
    taken as the code takes it, [(pct / 100) * weight * 100]. *)
Definition weighted_sum_f64 (fever_pct keyword_pct wbc_pct : f64) : f64 :=
  fadd (fadd (component_f64 fever_pct (4 # 10))
             (component_f64 keyword_pct (3 # 10)))
       (component_f64 wbc_pct (3 # 10)).

(** ** Example data *)

Definition example_local_model (id : nat) (phc_id : string) (version : Z)
    (accuracy : Q) (sample_count trained_at : Z) (aggregated : bool) : LocalModel :=
  {| lm_id := id; lm_phc_id := phc_id; lm_version := version;
     lm_version_string := generate_local_version_string phc_id version;
     lm_accuracy := accuracy; lm_precision := accuracy; lm_recall := accuracy;
     lm_f1_score := accuracy; lm_roc_auc := None;
     lm_sample_count := sample_count;
     lm_num_test_samples := 0; lm_num_train_samples := 0;
     lm_train_accuracy := 0; lm_train_precision := 0; lm_train_recall := 0;
     lm_train_f1_score := 0;
     lm_trained_at := trained_at; lm_triggered_by := "manual";
     lm_aggregated := aggregated;
     lm_aggregated_in_version := None;
     lm_aggregated_in_version_string := None |}.

Definition example_patient (phc_id : string) (fever wbc_count : Z)
    (disease_label severity_level : string) (created_at : Z) : Patient :=
  {| pt_patient_id := "P00001"; pt_age := 40; pt_gender := "Female";
     pt_phc_id := phc_id; pt_city := "Chennai";
     pt_fever := fever; pt_cough := 0; pt_fatigue := 0;
     pt_headache := 0; pt_vomiting := 0; pt_breathlessness := 0;
     pt_temperature_c := Fin 37; pt_heart_rate := 70; pt_bp_systolic := 120;
     pt_wbc_count := wbc_count; pt_platelet_count := 250000;
     pt_hemoglobin := Fin 13;
     pt_disease_label := disease_label; pt_severity_level := severity_level;
     pt_created_at := created_at |}.

(** Two versions of one site, accuracy 0.90 then 0.75. *)
Definition drift_example_store : Store :=
  set_local_models empty_store
    [example_local_model 1 "PHC_1" 1 (90 # 100) 100 10 false;
     example_local_model 2 "PHC_1" 2 (75 # 100) 100 20 false].

(** Ten patients of one site: 4 with fever, 3 with a keyword label, 2 with an
    abnormal white-cell count. *)
Definition composite_example_patients : list Patient :=
  [example_patient "PHC_1" 1 7000 "Dengue" "Low" 0;
   example_patient "PHC_1" 1 7000 "Viral Fever" "Low" 0;
   example_patient "PHC_1" 1 7000 "Malaria" "Low" 0;
   example_patient "PHC_1" 1 7000 "Healthy" "Low" 0;
   example_patient "PHC_1" 0 12000 "Healthy" "Low" 0;
   example_patient "PHC_1" 0 4000 "Healthy" "Low" 0;
   example_patient "PHC_1" 0 7000 "Healthy" "Low" 0;
   example_patient "PHC_1" 0 7000 "Pneumonia" "Low" 0;
   example_patient "PHC_1" 0 7000 "Healthy" "Low" 0;
   example_patient "PHC_1" 0 7000 "Healthy" "Low" 0].

Definition with_patients (s : Store) (pts : list Patient) : Store :=
  {| patients := pts; local_models := local_models s;
     global_models := global_models s;
     training_metadata := training_metadata s;
     model_broadcasts := model_broadcasts s; alerts := alerts s;
     risk_scores := risk_scores s |}.

(** The ten patients, one local model. *)
Definition composite_example_with_model : Store :=
  with_patients
    (set_local_models empty_store
       [example_local_model 1 "PHC_1" 1 (90 # 100) 100 10 false])
    composite_example_patients.

(** A site one patient short of the threshold, lock free. *)
Definition lock_example_store : Store :=
  set_training_metadata empty_store
    [{| tm_phc_id := "PHC_1"; tm_last_training_at := None;
        tm_patients_since_last_training := 19;
        tm_last_aggregated_version := 0;
        tm_training_in_progress := false; tm_updated_at := 0 |}].

(** A training call that raises. *)
Definition raising_train (s : Store) (phc_id trigger_reason : string)
    : Store * (string + TrainReport) :=
  (s, inl "out of memory").

(** Three sites with sample counts 50, 150, 100 and accuracies 0.80, 0.90,
    0.85. *)
Definition aggregation_example_store : Store :=
  set_local_models empty_store
    [example_local_model 1 "PHC_1" 1 (80 # 100) 50 10 false;
     example_local_model 2 "PHC_2" 1 (90 # 100) 150 20 false;
     example_local_model 3 "PHC_3" 1 (85 # 100) 100 30 false].

(** Three sites named as the seeding scripts name them, none of which the
    aggregator loops over. *)
Definition unlisted_sites_store : Store :=
  set_local_models empty_store
    [example_local_model 1 "PHC1" 1 (80 # 100) 50 10 false;
     example_local_model 2 "PHC2" 1 (90 # 100) 150 20 false;
     example_local_model 3 "PHC3" 1 (85 # 100) 100 30 false].

(** The (value, weight) pairs a metric contributes to the average. *)
Definition site_values (metric : LocalModel -> Q)
    (phc_models : list (string * LocalModel)) : list (Q * Q) :=
  map (fun e => (metric (snd e), inject_Z (lm_sample_count (snd e)))) phc_models.

(** The site is not one the aggregator and the broadcast loop over. *)
Definition unlisted_site (m : LocalModel) : bool :=
  negb (existsb (String.eqb (lm_phc_id m)) aggregation_phc_ids).

(** Four listed sites and PHC_5, each with one unaggregated model. *)
Definition five_sites_store : Store :=
  set_local_models empty_store
    [example_local_model 1 "PHC_1" 1 (80 # 100) 50 10 false;
     example_local_model 2 "PHC_2" 1 (90 # 100) 150 20 false;
     example_local_model 3 "PHC_5" 1 (85 # 100) 100 30 false].

(** The accuracy of a model on one split: its predictions on [X] against the
    labels [y], both decoded to the original labels. *)
Definition split_accuracy (ml : MLBackend) (model : ml_model ml)
    (label_classes : list string) (X : matrix) (y : list nat) : pyresult Q :=
  y_true <- inverse_transform label_classes y ;;
  y_pred <- predict ml model X ;;
  y_pred_decoded <- inverse_transform label_classes y_pred ;;
  accuracy_score y_true y_pred_decoded.

(** A small backend to run the pipeline on: no scaling, the first
    [ceil(test_size * n)] rows are the test split, and the fitted model always
    predicts the first training label. *)
Definition toy_backend : MLBackend :=
  {| ml_model := nat;
     scaler_fit_transform := fun X => Ok X;
     train_test_split := fun X y test_size _ =>
       let n_test := Z.to_nat (Qceiling (test_size * Qnat (length X))) in
       Ok {| sp_X_train := skipn n_test X; sp_X_test := firstn n_test X;
             sp_y_train := skipn n_test y; sp_y_test := firstn n_test y |};
     compute_sample_weight := fun y => Ok (map (fun _ => 1) y);
     xgb_fit := fun _ _ y _ => Ok (hd 0%nat y);
     cross_val_score := fun _ _ _ _ => Ok [1];
     np_mean := Qmean;
     np_std := fun _ => 0;
     pickle_dumps := fun _ => Ok "model";
     predict := fun model X => Ok (map (fun _ => model) X);
     predict_proba := fun _ X => Ok (map (fun _ => [1 # 2; 1 # 2]) X);
     precision_score := fun _ _ => Ok (1 # 2);
     recall_score := fun _ _ => Ok (1 # 2);
     f1_score := fun _ _ => Ok (1 # 2);
     confusion_matrix := fun _ _ _ => Ok [];
     roc_auc_score := fun _ _ => Ok (1 # 2) |}.

(** Ten patients of one site, two diagnoses. *)
Definition training_example_store : Store :=
  with_patients empty_store
    [example_patient "PHC_1" 0 7000 "Healthy" "Low" 0;
     example_patient "PHC_1" 1 7000 "Dengue" "Low" 0;
     example_patient "PHC_1" 1 7000 "Dengue" "Low" 0;
     example_patient "PHC_1" 1 7000 "Dengue" "Low" 0;
     example_patient "PHC_1" 1 7000 "Dengue" "Low" 0;
     example_patient "PHC_1" 1 7000 "Dengue" "Low" 0;
     example_patient "PHC_1" 0 7000 "Healthy" "Low" 0;
     example_patient "PHC_1" 0 7000 "Healthy" "Low" 0;
     example_patient "PHC_1" 0 7000 "Healthy" "Low" 0;
     example_patient "PHC_1" 0 7000 "Healthy" "Low" 0].

(** Ten rows of two features, five labels of each of two classes. *)
Definition leakage_example_X : matrix :=
  map (fun k => [Fin (inject_Z k); Fin (inject_Z k)]) [1; 1; 1; 1; 1; 0; 0; 0; 0; 0]%Z.

Definition leakage_example_y : list string :=
  ["Dengue"; "Dengue"; "Dengue"; "Dengue"; "Dengue";
   "Healthy"; "Healthy"; "Healthy"; "Healthy"; "Healthy"].

(** [m'] is the document [m], up to the aggregation marks. *)
Definition same_model (m m' : LocalModel) : Prop :=
  lm_id m' = lm_id m
  /\ lm_phc_id m' = lm_phc_id m
  /\ lm_version m' = lm_version m
  /\ lm_version_string m' = lm_version_string m
  /\ lm_accuracy m' = lm_accuracy m
  /\ lm_precision m' = lm_precision m
  /\ lm_recall m' = lm_recall m
  /\ lm_f1_score m' = lm_f1_score m
  /\ lm_train_accuracy m' = lm_train_accuracy m.

(** The site risk of the specification, on fractions in [0, 1]. *)
Definition site_risk_spec (high_severity outbreak_flag disease_prevalence : Q) : Q :=
  Qmin ((4 # 10) * high_severity + (3 # 10) * outbreak_flag
        + (3 # 10) * disease_prevalence) 1.

(** The (risk, patient count) pairs of the site results. *)
Definition risk_weights (phc_risks : list PhcRisk) : list (Q * Q) :=
  map (fun d => (pr_phc_risk_score d, Qnat (pr_patient_count d))) phc_risks.

Definition sites_of_city (city : string) : list string :=
  map fst (filter (fun e => String.eqb (snd e) city) PHC_CITY_MAPPING).

(** Pollachi: PHC_1 with 30 patients, 10 of them diagnosed; PHC_2 with 70
    patients, all diagnosed; nobody of high severity. *)
Definition city_example_store : Store :=
  with_patients empty_store
    (repeat (example_patient "PHC_1" 1 7000 "Dengue" "Low" 0) 10
     ++ repeat (example_patient "PHC_1" 0 7000 "Healthy" "Low" 0) 20
     ++ repeat (example_patient "PHC_2" 1 7000 "Malaria" "Medium" 0) 70)%list.

(** The patients the outbreak detector reads: the site's last 14 days. *)
Definition outbreak_patients (now : Z) (s : Store) (phc_id : string) : list Patient :=
  filter (fun p => String.eqb (pt_phc_id p) phc_id
                   && (now - 14 * SECONDS_PER_DAY <=? pt_created_at p)%Z)
         (patients s).

(** A square root correct to six decimals, to run the detector on. *)
Definition approx_sqrt (q : Q) : Q :=
  inject_Z (Z.sqrt (Qfloor (q * inject_Z (10 ^ 12)))) / inject_Z (10 ^ 6).

(** One fever case on each of seven days, then ten on the eighth. *)
Definition outbreak_example_store : Store :=
  with_patients empty_store
    (map (fun d => example_patient "PHC_1" 1 7000 "Dengue" "Low" (d * SECONDS_PER_DAY))
         [-7; -6; -5; -4; -3; -2; -1]%Z
     ++ repeat (example_patient "PHC_1" 1 7000 "Dengue" "Low" 0) 10)%list.

(** The same site with its first seven days only. *)
Definition quiet_example_store : Store :=
  with_patients empty_store
    (map (fun d => example_patient "PHC_1" 1 7000 "Dengue" "Low" (d * SECONDS_PER_DAY))
         [-7; -6; -5; -4; -3; -2; -1]%Z).

(** The three pandas calls computed the plain way in binary64: each window
    mean is the sum of the window's counts divided by its size, sums run from
    left to right, the standard deviation takes the mean first and the
    squared deviations after ([ddof=1]). *)
Definition f64_sum (l : list f64) : f64 := fold_left fadd l (f64_of_Z 0).

Fixpoint plain_rolling_mean_dropna (window : nat) (l : list Z) : list f64 :=
  match l with
  | [] => []
  | _ :: l' =>
      if ((1 <=? window) && (window <=? length l))%nat
      then fdiv (f64_of_Z (fold_right Z.add 0%Z (firstn window l)))
                (f64_of_Z (Z.of_nat window))
           :: plain_rolling_mean_dropna window l'
      else []
  end.

Definition plain_mean (l : list f64) : f64 :=
  match l with
  | [] => S754_nan
  | _ :: _ => fdiv (f64_sum l) (f64_of_Z (Z.of_nat (length l)))
  end.

Definition plain_std (l : list f64) : f64 :=
  if (length l <? 2)%nat then S754_nan
  else
    let avg := plain_mean l in
    f64_sqrt (fdiv (f64_sum (map (fun x => fmul (fsub avg x) (fsub avg x)) l))
                   (f64_of_Z (Z.of_nat (length l) - 1))).

Definition plain_pandas : PandasBackend :=
  {| pd_rolling_mean_dropna := plain_rolling_mean_dropna;
     pd_mean := plain_mean;
     pd_std := plain_std |}.

(** Two versions of one site, accuracy 0.80 then 0.72: a drop of one tenth. *)
Definition drift_tenth_store : Store :=
  set_local_models empty_store
    [example_local_model 1 "PHC_1" 1 (80 # 100) 100 10 false;
     example_local_model 2 "PHC_1" 2 (72 # 100) 100 20 false].

(** Two versions of one site, accuracy 0.90 then 0.72: a drop of one fifth. *)
Definition drift_fifth_store : Store :=
  set_local_models empty_store
    [example_local_model 1 "PHC_1" 1 (90 # 100) 100 10 false;
     example_local_model 2 "PHC_1" 2 (72 # 100) 100 20 false].

(** Twelve patients of one site with a model: none with fever, one with a
    keyword label, eleven with an abnormal white-cell count. *)
Definition composite_thirty_store : Store :=
  with_patients
    (set_local_models empty_store
       [example_local_model 1 "PHC_1" 1 (90 # 100) 100 10 false])
    (example_patient "PHC_1" 0 7000 "Dengue" "Low" 0
     :: repeat (example_patient "PHC_1" 0 12000 "Healthy" "Low" 0) 11).

(** Nine days of one site with fever counts 0, 0, 1, 3, 3, 3, 3, 0, 0: the
    three full windows of seven days hold 13 cases each. *)
Definition level_example_store : Store :=
  with_patients empty_store
    (map (fun d => example_patient "PHC_1" 0 7000 "Healthy" "Low"
                     (d * SECONDS_PER_DAY))
         [-8; -7; -1; 0]%Z
     ++ [example_patient "PHC_1" 1 7000 "Dengue" "Low" (-6 * SECONDS_PER_DAY)]
     ++ concat
          (map (fun d => repeat (example_patient "PHC_1" 1 7000 "Dengue" "Low"
                                   (d * SECONDS_PER_DAY)) 3)
               [-5; -4; -3; -2]%Z))%list.

(** The fever count a bucketed series holds for one date. *)
Definition fever_on (date : Z) (daily_fever : list (Z * Z)) : Z :=
  fold_right (fun e acc => if (fst e =? date)%Z then (snd e + acc)%Z else acc)
             0%Z daily_fever.

(** The fever flags of the patients created on one date, summed. *)
Definition fever_sum_on (date : Z) (pts : list Patient) : Z :=
  fold_right (fun p acc =>
                if (day_of (pt_created_at p) =? date)%Z then (pt_fever p + acc)%Z
                else acc)
             0%Z pts.

(** The integer and float fields of the patient record. *)
Definition numeric_columns : list string :=
  ["age"; "fever"; "cough"; "fatigue"; "headache"; "vomiting";
   "breathlessness"; "temperature_c"; "heart_rate"; "bp_systolic"; "wbc_count";
   "platelet_count"; "hemoglobin"].

Definition numeric_column (col : string) : bool :=
  existsb (String.eqb col) numeric_columns.

(** The value of a numeric field as [float()] returns it. *)
Definition numeric_field (p : Patient) (col : string) : fval :=
  if String.eqb col "temperature_c" then pt_temperature_c p
  else if String.eqb col "hemoglobin" then pt_hemoglobin p
  else Fin (inject_Z
              (if String.eqb col "age" then pt_age p
               else if String.eqb col "fever" then pt_fever p
               else if String.eqb col "cough" then pt_cough p
               else if String.eqb col "fatigue" then pt_fatigue p
               else if String.eqb col "headache" then pt_headache p
               else if String.eqb col "vomiting" then pt_vomiting p
               else if String.eqb col "breathlessness" then pt_breathlessness p
               else if String.eqb col "heart_rate" then pt_heart_rate p
               else if String.eqb col "bp_systolic" then pt_bp_systolic p
               else if String.eqb col "wbc_count" then pt_wbc_count p
               else pt_platelet_count p)).

(** A stored float that is NaN or an infinity. *)
Definition not_finite (v : fval) : bool := is_nan v || is_inf v.

(** A patient one of whose two float vitals is NaN or an infinity. *)
Definition vitals_not_finite (p : Patient) : bool :=
  not_finite (pt_temperature_c p) || not_finite (pt_hemoglobin p).

(** Nine patients of one site, two diagnoses. *)
Definition nine_patients_store : Store :=
  with_patients empty_store
    (repeat (example_patient "PHC_1" 1 7000 "Dengue" "Low" 0) 5
     ++ repeat (example_patient "PHC_1" 0 7000 "Healthy" "Low" 0) 4)%list.

(** Twelve patients of one site, all with the same diagnosis. *)
Definition one_class_store : Store :=
  with_patients empty_store
    (repeat (example_patient "PHC_1" 1 7000 "Dengue" "Low" 0) 12).

(** The same site after a record with a NaN temperature was stored in place
    of the first one. *)
Definition nan_vital_store : Store :=
  with_patients empty_store
    ({| pt_patient_id := "P00002"; pt_age := 40; pt_gender := "Female";
        pt_phc_id := "PHC_1"; pt_city := "Chennai";
        pt_fever := 1; pt_cough := 0; pt_fatigue := 0;
        pt_headache := 0; pt_vomiting := 0; pt_breathlessness := 0;
        pt_temperature_c := NaN; pt_heart_rate := 70; pt_bp_systolic := 120;
        pt_wbc_count := 7000; pt_platelet_count := 250000;
        pt_hemoglobin := Fin 13;
        pt_disease_label := "Dengue"; pt_severity_level := "Low";
        pt_created_at := 0 |}
     :: repeat (example_patient "PHC_1" 1 7000 "Dengue" "Low" 0) 11).

(** The order of [np.unique] on labels. *)
Definition string_lt (a b : string) : Prop := String.compare a b = Lt.

(** A fitted model of the small backend with a one-row test split and a
    two-row training split. *)
Definition toy_model_data : ModelData toy_backend :=
  {| md_model := 0%nat : ml_model toy_backend;
     md_model_binary := "model";
     md_label_classes := ["Dengue"; "Healthy"];
     md_X_test := [[Fin 1]];
     md_y_test := [0%nat];
     md_X_train := [[Fin 1]; [Fin 0]];
     md_y_train := [0%nat; 1%nat];
     md_feature_columns := ["fever"];
     md_cv_scores := [0];
     md_cv_mean := 0;
     md_cv_std := 0;
     md_num_train := 2;
     md_num_test := 1;
     md_stratified := false |}.

(** [m'] is [m] with the aggregation mark of global version [v]. *)
Definition marked_in (v : Z) (vs : string) (m m' : LocalModel) : Prop :=
  same_model m m'
  /\ lm_sample_count m' = lm_sample_count m
  /\ lm_aggregated m' = true
  /\ lm_aggregated_in_version m' = Some v
  /\ lm_aggregated_in_version_string m' = Some vs.

(** Every stored global model carries the version string of its version. *)
Definition global_versions_consistent (s : Store) : Prop :=
  Forall (fun g => gm_version_string g = generate_global_version_string (gm_version g))
         (global_models s).

(** The store after one automatic aggregation of the three-site example: every
    model is marked. *)
Definition aggregated_example_store : Store :=
  fst (aggregate_models 0 true aggregation_example_store).

(** The decision [should_trigger_local_training] takes on a site's metadata. *)
Definition trigger_decision (now : Z) (metadata : TrainingMetadata) : bool * string :=
  if (PATIENT_THRESHOLD <=? tm_patients_since_last_training metadata)%Z
  then (true, "patient_threshold")
  else
    match tm_last_training_at metadata with
    | Some last_training_at =>
        if (TIME_THRESHOLD <=? now - last_training_at)%Z
        then (true, "time_threshold")
        else (false, "no_trigger")
    | None => (false, "no_trigger")
    end.

(** The site's metadata once [increment_patient_count] has counted a patient. *)
Definition counted (now : Z) (s : Store) (phc_id : string) : TrainingMetadata :=
  match find_metadata s phc_id with
  | Some metadata =>
      {| tm_phc_id := tm_phc_id metadata;
         tm_last_training_at := tm_last_training_at metadata;
         tm_patients_since_last_training :=
           (tm_patients_since_last_training metadata + 1)%Z;
         tm_last_aggregated_version := tm_last_aggregated_version metadata;
         tm_training_in_progress := tm_training_in_progress metadata;
         tm_updated_at := now |}
  | None => new_metadata now phc_id 1
  end.

(** Fields of the dict [handle_patient_creation] returns. *)
Definition model_trained (r : HandleResult) : bool :=
  match r with Trained _ _ _ _ _ _ _ _ _ _ => true | _ => false end.

Definition training_failed (r : HandleResult) : bool :=
  match r with TrainingFailed _ _ _ => true | _ => false end.

Definition result_reason (r : HandleResult) : string :=
  match r with
  | NotTrained trigger_reason _ => trigger_reason
  | TrainingFailed _ _ trigger_reason => trigger_reason
  | Trained _ trigger_reason _ _ _ _ _ _ _ _ => trigger_reason
  end.

(** The ten-patient site with nineteen patients counted since its last
    training. *)
Definition ready_example_store : Store :=
  set_training_metadata training_example_store (training_metadata lock_example_store).

(** The nine-patient site with nineteen patients counted. *)
Definition failing_example_store : Store :=
  set_training_metadata nine_patients_store (training_metadata lock_example_store).

(** The cities of the mapping, in one iteration order of
    [set(PHC_CITY_MAPPING.values())]. *)
Definition district_cities : list string :=
  ["Pollachi"; "Thondamuthur"; "Kinathukadavu"].

(** The (risk, patient count) pairs of the city results. *)
Definition city_risk_weights (city_risks : list CityRisk) : list (Q * Q) :=
  map (fun d => (ci_city_risk_score d, Qnat (ci_total_patients d))) city_risks.

(** No site of the city has a patient in the window. *)
Definition city_without_patients (now : Z) (s : Store) (city : string)
    (time_window_days : Z) : Prop :=
  forall phc_id, In phc_id (sites_of_city city) ->
                 patients_in_window now s phc_id time_window_days = [].

(** Patients in each of the three cities: 30 in PHC_1 (10 diagnosed), 70 in
    PHC_3 (all diagnosed), 100 healthy ones in PHC_5. *)
Definition district_example_store : Store :=
  with_patients empty_store
    (repeat (example_patient "PHC_1" 1 7000 "Dengue" "Low" 0) 10
     ++ repeat (example_patient "PHC_1" 0 7000 "Healthy" "Low" 0) 20
     ++ repeat (example_patient "PHC_3" 1 7000 "Malaria" "Medium" 0) 70
     ++ repeat (example_patient "PHC_5" 0 7000 "Healthy" "Low" 0) 100)%list.

(** Position of a severity level on its scale. *)
Definition severity_rank (level : string) : nat :=
  if String.eqb level "LOW" then 0
  else if String.eqb level "MEDIUM" then 1
  else if String.eqb level "HIGH" then 2
  else 3.

(** No model of a listed site is waiting for aggregation. *)
Definition listed_all_aggregated (s : Store) : Prop :=
  forall m, In m (local_models s) -> In (lm_phc_id m) aggregation_phc_ids ->
            lm_aggregated m = true.

(** Ten patients with two diagnoses at each of the sites PHC1, PHC2 and PHC3,
    twenty patients counted at each. *)
Definition cycle_example_store : Store :=
  set_training_metadata
    (with_patients empty_store
       (flat_map
          (fun phc_id =>
             example_patient phc_id 0 7000 "Healthy" "Low" 0
             :: repeat (example_patient phc_id 1 7000 "Dengue" "Low" 0) 5
             ++ repeat (example_patient phc_id 0 7000 "Healthy" "Low" 0) 4)%list
          ["PHC1"; "PHC2"; "PHC3"]))
    (map (fun phc_id => new_metadata 0 phc_id 20) ["PHC1"; "PHC2"; "PHC3"]).

(** * Properties *)


(** ** Rational comparisons and rounding *)

Lemma Qgtb_true (a b : Q) : Qgtb a b = true <-> b < a.
Proof.
  unfold Qgtb. rewrite negb_true_iff.
  destruct (Qle_bool a b) eqn:E.
  - apply Qle_bool_iff in E. split; [discriminate|]. intro H.
    exfalso. apply (Qlt_not_le _ _ H E).
  - split; [|reflexivity]. intros _. apply Qnot_le_lt. intro H.
    apply Qle_bool_iff in H. congruence.
Qed.

Lemma Qltb_true (a b : Q) : Qltb a b = true <-> a < b.
Proof. unfold Qltb. apply (Qgtb_true b a). Qed.

Lemma Qgtb_false (a b : Q) : Qgtb a b = false <-> a <= b.
Proof.
  unfold Qgtb. rewrite negb_false_iff. apply Qle_bool_iff.
Qed.

Lemma Qltb_false (a b : Q) : Qltb a b = false <-> b <= a.
Proof. unfold Qltb. apply (Qgtb_false b a). Qed.

Lemma round_half_even_comp (q q' : Q) :
  q == q' -> round_half_even q = round_half_even q'.
Proof.
  intro H. unfold round_half_even.
  assert (Hf : Qfloor q = Qfloor q') by (apply Qfloor_comp; exact H).
  rewrite Hf.
  assert (Hc : Qcompare (q - inject_Z (Qfloor q')) (1 # 2)
               = Qcompare (q' - inject_Z (Qfloor q')) (1 # 2)).
  { apply Qcompare_comp; [rewrite H; reflexivity | reflexivity]. }
  rewrite Hc. reflexivity.
Qed.

Lemma py_round_comp (q q' : Q) (n : nat) : q == q' -> py_round q n = py_round q' n.
Proof.
  intro H. unfold py_round.
  rewrite (round_half_even_comp (q * pow10 n) (q' * pow10 n)); [reflexivity|].
  rewrite H. reflexivity.
Qed.

Lemma pow10_pos (n : nat) : 0 < pow10 n.
Proof.
  unfold pow10. change 0 with (inject_Z 0). rewrite <- Zlt_Qlt.
  apply Z.pow_pos_nonneg; lia.
Qed.

(** The nearest integer is within one half of the argument. *)
Lemma round_half_even_close (q : Q) :
  Qabs (inject_Z (round_half_even q) - q) <= 1 # 2.
Proof.
  unfold round_half_even.
  pose proof (Qfloor_le q) as Hlo. pose proof (Qlt_floor q) as Hhi.
  rewrite inject_Z_plus in Hhi. change (inject_Z 1) with 1 in Hhi.
  set (f := Qfloor q) in *.
  apply Qabs_Qle_condition.
  destruct (Qcompare (q - inject_Z f) (1 # 2)) eqn:E.
  - apply Qeq_alt in E. destruct (Z.even f).
    + split; lra.
    + rewrite inject_Z_plus. change (inject_Z 1) with 1. split; lra.
  - apply Qlt_alt in E. split; lra.
  - apply Qgt_alt in E. rewrite inject_Z_plus. change (inject_Z 1) with 1.
    split; lra.
Qed.

(** [round(x, n)] moves [x] by at most half a unit of the last digit kept. *)
Lemma py_round_close (x : Q) (n : nat) :
  Qabs (py_round x n - x) <= (1 # 2) / pow10 n.
Proof.
  unfold py_round. pose proof (pow10_pos n) as Hp.
  pose proof (round_half_even_close (x * pow10 n)) as H.
  set (r := inject_Z (round_half_even (x * pow10 n))) in *.
  assert (Hne : ~ pow10 n == 0) by (intro E; rewrite E in Hp; discriminate).
  assert (Heq : r / pow10 n - x == (r - x * pow10 n) / pow10 n) by (field; exact Hne).
  rewrite Heq. unfold Qdiv. rewrite Qabs_Qmult.
  rewrite (Qabs_pos (/ pow10 n)).
  - apply Qmult_le_compat_r; [exact H|]. apply Qlt_le_weak, Qinv_lt_0_compat, Hp.
  - apply Qlt_le_weak, Qinv_lt_0_compat, Hp.
Qed.

(** ** Queries *)

Section OrderBy.
Context {A : Type} (key : A -> Z).

Lemma insert_desc_perm (x : A) (l : list A) :
  Permutation (insert_desc key x l) (x :: l).
Proof.
  induction l as [|y l IH]; simpl; [reflexivity|].
  destruct (key y <? key x)%Z; [reflexivity|].
  rewrite IH. apply perm_swap.
Qed.

Lemma order_by_desc_perm (l : list A) : Permutation (order_by_desc key l) l.
Proof.
  induction l as [|x l IH]; simpl; [reflexivity|].
  rewrite insert_desc_perm. apply perm_skip, IH.
Qed.

Lemma order_by_desc_length (l : list A) :
  length (order_by_desc key l) = length l.
Proof. apply Permutation_length, order_by_desc_perm. Qed.

Lemma insert_desc_sorted (x : A) (l : list A) :
  StronglySorted (desc key) l -> StronglySorted (desc key) (insert_desc key x l).
Proof.
  induction 1 as [|y l Hs IH Hall]; simpl.
  - constructor; constructor.
  - destruct (key y <? key x)%Z eqn:E.
    + apply Z.ltb_lt in E. constructor.
      * constructor; assumption.
      * constructor; [unfold desc; lia|].
        eapply Forall_impl; [|exact Hall]. unfold desc. intros; lia.
    + apply Z.ltb_ge in E. constructor; [exact IH|].
      eapply Permutation_Forall; [symmetry; apply insert_desc_perm|].
      constructor; [exact E | exact Hall].
Qed.

Lemma order_by_desc_sorted (l : list A) : StronglySorted (desc key) (order_by_desc key l).
Proof.
  induction l as [|x l IH]; simpl; [constructor|].
  apply insert_desc_sorted, IH.
Qed.

(** The first row of the sorted query has the largest key, the second has the
    largest key of the rest. *)
Lemma order_by_desc_top2 (l : list A) (a b : A) (rest : list A) :
  order_by_desc key l = a :: b :: rest ->
  Permutation (a :: b :: rest) l /\
  (key b <= key a)%Z /\
  Forall (fun m => (key m <= key b)%Z) rest.
Proof.
  intro E. pose proof (order_by_desc_sorted l) as Hs.
  pose proof (order_by_desc_perm l) as Hp. rewrite E in Hs, Hp.
  split; [exact Hp|].
  inversion Hs as [|? ? Hs' Ha]; subst.
  inversion Ha as [|? ? Hab _]; subst.
  inversion Hs' as [|? ? _ Hb]; subst.
  split; [exact Hab | exact Hb].
Qed.

Lemma order_by_desc_two (l : list A) :
  (2 <= length l)%nat ->
  exists a b rest, order_by_desc key l = a :: b :: rest.
Proof.
  intro H. rewrite <- order_by_desc_length in H.
  destruct (order_by_desc key l) as [|a [|b rest]]; simpl in H; try lia.
  eauto.
Qed.

Lemma order_by_desc_short (l : list A) :
  (length l < 2)%nat ->
  first (skipn 1 (order_by_desc key l)) = None.
Proof.
  intro H. rewrite <- order_by_desc_length in H.
  destruct (order_by_desc key l) as [|a [|b rest]]; simpl in *; try reflexivity.
  lia.
Qed.
End OrderBy.

(** ** Binary64 *)

(** The conversion of a quotient of two integers agrees with binary64
    division on the decimals and ratios the examples use. *)
Lemma f64_of_Q_division_examples :
  Forall (fun q => f64_of_Q q
                   = fdiv (f64_of_Z (Qnum q)) (f64_of_Z (Zpos (Qden q))))
    [4 # 10; 3 # 10; 72 # 100; 75 # 100; 80 # 100; 90 # 100; 1 # 12; 11 # 12;
     13 # 7; 50 # 3; 1667 # 100; - 1 # 3].
Proof.
  repeat constructor.
Qed.


Lemma SFcompare_antisym (x y : f64) (c : comparison) :
  SFcompare x y = Some c -> SFcompare y x = Some (CompOpp c).
Proof.
  destruct x as [sx|sx| |sx mx ex], y as [sy|sy| |sy my ey]; simpl;
    try discriminate;
    try (intros [= <-]; destruct sx; try destruct sy; reflexivity).
  intros [= <-]. f_equal.
  change (PosDef.Pos.compare_cont Eq mx my) with (Pos.compare mx my).
  change (PosDef.Pos.compare_cont Eq my mx) with (Pos.compare my mx).
  destruct sx, sy; try reflexivity;
    rewrite (Z.compare_antisym ex ey), (Pos.compare_antisym mx my);
    destruct (ex ?= ey)%Z; simpl; try reflexivity;
    destruct (mx ?= my)%positive; reflexivity.
Qed.

(** [x < y] and [y < x] never hold together. *)
Lemma fltb_asym (x y : f64) : fltb x y = true -> fltb y x = false.
Proof.
  unfold fltb, SFltb. destruct (SFcompare x y) as [c|] eqn:E; [|discriminate].
  rewrite (SFcompare_antisym x y c E).
  destruct c; try discriminate. reflexivity.
Qed.

(** ** Drift detector *)

Lemma detect_model_drift_f64_unfold (now : Z) (s : Store) (phc_id : string)
    (latest previous : LocalModel) (rest : list LocalModel) :
  order_by_desc lm_version (local_models_of s phc_id) = latest :: previous :: rest ->
  fltb (f64_of_Z 0) (f64_of_Q (lm_accuracy previous)) = true ->
  let drop := accuracy_drop_percentage_f64 previous latest in
  detect_model_drift_f64 now s phc_id =
    ((if fltb (f64_of_Z 10) drop
      then [drift_alert_f64 now phc_id latest previous (get_latest_global_model s)
              drop]
      else []),
     Drift64Report (fltb (f64_of_Z 10) drop) phc_id (py_round_f64 drop 2)
       (f64_of_Q (lm_accuracy previous)) (f64_of_Q (lm_accuracy latest))
       (f64_of_Z 10) (fltb (f64_of_Z 10) drop)).
Proof.
  intros E Hpos drop. unfold detect_model_drift_f64. rewrite E.
  cbn [first hd_error skipn]. cbv zeta. rewrite Hpos. reflexivity.
Qed.

(** C7.  With fewer than two models of the site the detector reports
    [insufficient_history] and writes no alert.  With at least two, [latest]
    and [previous] are the two highest versions.  For a positive previous
    accuracy the drop is [(previous - latest) / previous * 100], computed on
    the stored floats in binary64 (returned to two decimals); drift is flagged
    exactly when that float exceeds 10, and the one alert written on drift is
    HIGH when it exceeds 20 and MEDIUM otherwise; without drift no alert is
    written.  A previous accuracy that is not positive gives a drop of 0 and no
    drift.  Stored accuracies 0.90 then 0.75 give the float nearest 50/3,
    returned as 16.67, drift, MEDIUM. *)
Theorem drift_detection_formula (now : Z) (s : Store) (phc_id : string) :
  ((length (local_models_of s phc_id) < 2)%nat ->
   detect_model_drift_f64 now s phc_id = ([], Drift64InsufficientHistory phc_id))
  /\
  ((2 <= length (local_models_of s phc_id))%nat ->
   exists latest previous rest,
     order_by_desc lm_version (local_models_of s phc_id) = latest :: previous :: rest
     /\ Permutation (latest :: previous :: rest) (local_models_of s phc_id)
     /\ (lm_version previous <= lm_version latest)%Z
     /\ Forall (fun m => (lm_version m <= lm_version previous)%Z) rest
     /\ (fltb (f64_of_Z 0) (f64_of_Q (lm_accuracy previous)) = true ->
         let drop := accuracy_drop_percentage_f64 previous latest in
         exists written flag,
           detect_model_drift_f64 now s phc_id =
             (written,
              Drift64Report flag phc_id (py_round_f64 drop 2)
                (f64_of_Q (lm_accuracy previous)) (f64_of_Q (lm_accuracy latest))
                (f64_of_Z 10) flag)
           /\ flag = fltb (f64_of_Z 10) drop
           /\ (flag = true ->
               exists a, written = [a]
                 /\ a64_alert_type a = "MODEL_DRIFT"
                 /\ a64_risk_score a = drop
                 /\ (fltb (f64_of_Z 20) drop = true -> a64_severity a = "HIGH")
                 /\ (fltb (f64_of_Z 20) drop = false -> a64_severity a = "MEDIUM"))
           /\ (flag = false -> written = []))
     /\ (fltb (f64_of_Z 0) (f64_of_Q (lm_accuracy previous)) = false ->
         detect_model_drift_f64 now s phc_id =
           ([], Drift64Report false phc_id (f64_of_Z 0)
                  (f64_of_Q (lm_accuracy previous)) (f64_of_Q (lm_accuracy latest))
                  (f64_of_Z 10) false))
     /\ (f64_of_Q (lm_accuracy previous) = f64_of_Q (90 # 100) ->
         f64_of_Q (lm_accuracy latest) = f64_of_Q (75 # 100) ->
         exists a,
           detect_model_drift_f64 now s phc_id =
             ([a], Drift64Report true phc_id (f64_of_Q (1667 # 100))
                     (f64_of_Q (90 # 100)) (f64_of_Q (75 # 100))
                     (f64_of_Z 10) true)
           /\ a64_risk_score a = f64_of_Q (50 # 3)
           /\ a64_severity a = "MEDIUM")).
Proof.
  split.
  - intro Hlt. unfold detect_model_drift_f64.
    rewrite (order_by_desc_short lm_version _ Hlt).
    destruct (first _); reflexivity.
  - intro Hge.
    destruct (order_by_desc_two lm_version _ Hge) as (latest & previous & rest & E).
    destruct (order_by_desc_top2 lm_version _ _ _ _ E) as (Hp & Hv & Hrest).
    exists latest, previous, rest.
    repeat (split; [assumption|]).
    split.
    + intros Hpos drop.
      pose proof (detect_model_drift_f64_unfold now s phc_id _ _ _ E Hpos) as Hd.
      cbv zeta in Hd. fold drop in Hd.
      eexists. exists (fltb (f64_of_Z 10) drop). split; [exact Hd|].
      split; [reflexivity|].
      split.
      * intro Hf. rewrite Hf. eexists. split; [reflexivity|].
        split; [reflexivity|]. split; [reflexivity|].
        cbn [a64_severity drift_alert_f64]. split.
        -- intro H20. rewrite H20. reflexivity.
        -- intro H20. rewrite H20. reflexivity.
      * intro Hf. rewrite Hf. reflexivity.
    + split.
      { intro Hnp. unfold detect_model_drift_f64. rewrite E.
        cbn [first hd_error skipn]. cbv zeta. rewrite Hnp. reflexivity. }
      intros Hprev Hlat.
      assert (Hpos : fltb (f64_of_Z 0) (f64_of_Q (lm_accuracy previous)) = true)
        by (rewrite Hprev; vm_compute; reflexivity).
      pose proof (detect_model_drift_f64_unfold now s phc_id _ _ _ E Hpos) as Hd.
      cbv zeta in Hd.
      assert (Hdrop : accuracy_drop_percentage_f64 previous latest
                      = f64_of_Q (50 # 3)).
      { unfold accuracy_drop_percentage_f64. rewrite Hprev, Hlat.
        vm_compute. reflexivity. }
      rewrite Hdrop, Hprev, Hlat in Hd.
      replace (fltb (f64_of_Z 10) (f64_of_Q (50 # 3))) with true in Hd
        by (vm_compute; reflexivity).
      replace (py_round_f64 (f64_of_Q (50 # 3)) 2) with (f64_of_Q (1667 # 100))
        in Hd by (vm_compute; reflexivity).
      eexists. split; [exact Hd|]. split; [reflexivity|].
      cbn [a64_severity drift_alert_f64].
      replace (fltb (f64_of_Z 20) (f64_of_Q (50 # 3))) with false
        by (vm_compute; reflexivity).
      reflexivity.
Qed.

Lemma drift_detection_formula_witness :
  detect_model_drift_f64 0 empty_store "PHC_1"
    = ([], Drift64InsufficientHistory "PHC_1")
  /\ (exists a,
        detect_model_drift_f64 0 drift_example_store "PHC_1" =
          ([a], Drift64Report true "PHC_1" (f64_of_Q (1667 # 100))
                  (f64_of_Q (90 # 100)) (f64_of_Q (75 # 100)) (f64_of_Z 10) true)
        /\ a64_severity a = "MEDIUM")
  /\ (exists a,
        detect_model_drift_f64 0 drift_tenth_store "PHC_1" =
          ([a], Drift64Report true "PHC_1" (f64_of_Z 10)
                  (f64_of_Q (80 # 100)) (f64_of_Q (72 # 100)) (f64_of_Z 10) true)
        /\ a64_severity a = "MEDIUM")
  /\ (exists a,
        detect_model_drift_f64 0 drift_fifth_store "PHC_1" =
          ([a], Drift64Report true "PHC_1" (f64_of_Z 20)
                  (f64_of_Q (90 # 100)) (f64_of_Q (72 # 100)) (f64_of_Z 10) true)
        /\ a64_severity a = "HIGH").
Proof.
  split; [|split; [|split]].
  - apply (proj1 (drift_detection_formula 0 empty_store "PHC_1")).
    vm_compute. lia.
  - destruct (proj2 (drift_detection_formula 0 drift_example_store "PHC_1"))
      as (latest & previous & rest & E & _ & _ & _ & _ & _ & Hex).
    + vm_compute. lia.
    + vm_compute in E. injection E as <- <- <-.
      destruct Hex as (a & Hd & _ & Hsev); [reflexivity | reflexivity |].
      exists a. split; [exact Hd | exact Hsev].
  - destruct (proj2 (drift_detection_formula 0 drift_tenth_store "PHC_1"))
      as (latest & previous & rest & E & _ & _ & _ & Hrule & _).
    + vm_compute. lia.
    + vm_compute in E. injection E as <- <- <-.
      destruct Hrule as (written & flag & Hd & Hflag & Hon & _);
        [vm_compute; reflexivity|].
      vm_compute in Hflag. subst flag.
      destruct (Hon eq_refl) as (a & -> & _ & _ & _ & Hmed).
      exists a. split; [exact Hd | apply Hmed; vm_compute; reflexivity].
  - destruct (proj2 (drift_detection_formula 0 drift_fifth_store "PHC_1"))
      as (latest & previous & rest & E & _ & _ & _ & Hrule & _).
    + vm_compute. lia.
    + vm_compute in E. injection E as <- <- <-.
      destruct Hrule as (written & flag & Hd & Hflag & Hon & _);
        [vm_compute; reflexivity|].
      vm_compute in Hflag. subst flag.
      destruct (Hon eq_refl) as (a & -> & _ & _ & Hhigh & _).
      exists a. split; [exact Hd | apply Hhigh; vm_compute; reflexivity].
Defined.

(** ** Composite risk scorer *)

Lemma clamp_0_100_spec (x : Q) : clamp_0_100 x == Qmax 0 (Qmin 100 x).
Proof.
  unfold clamp_0_100.
  destruct (Qltb 100 x) eqn:E1.
  - apply Qltb_true in E1.
    change (Qltb 0 100) with true. cbv iota.
    rewrite (Q.min_l 100 x) by (apply Qlt_le_weak; exact E1).
    rewrite Q.max_r; [reflexivity | discriminate].
  - apply Qltb_false in E1. rewrite (Q.min_r 100 x) by exact E1.
    destruct (Qltb 0 x) eqn:E2.
    + apply Qltb_true in E2. rewrite Q.max_r; [reflexivity|].
      apply Qlt_le_weak; exact E2.
    + apply Qltb_false in E2. rewrite Q.max_l; [reflexivity | exact E2].
Qed.

(** The score the scorer writes and returns in exact arithmetic, for a site
    with patients. *)
Lemma composite_risk_score_value (now : Z) (s : Store) (phc_id : string) :
  patients_of s phc_id <> [] ->
  let pts := patients_of s phc_id in
  let n := length pts in
  let fever_pct := percentage (count_if (fun p => (pt_fever p =? 1)%Z) pts) n in
  let keyword_pct :=
    match get_latest_local_model s phc_id with
    | Some _ => percentage (count_if matches_disease_keyword pts) n
    | None => 0
    end in
  let wbc_pct := percentage (count_if abnormal_wbc pts) n in
  exists s' r a,
    calculate_composite_risk_score now s phc_id = (s', CompositeScore r)
    /\ alerts s' = (alerts s ++ [a])%list
    /\ al_alert_type a = "COMPOSITE_RISK"
    /\ al_risk_score a == composite_score_spec fever_pct keyword_pct wbc_pct
    /\ cr_risk_score r = py_round (al_risk_score a) 2
    /\ cr_severity r = al_severity a
    /\ al_severity a = severity_band (al_risk_score a).
Proof.
  intros Hne. unfold calculate_composite_risk_score.
  destruct (patients_of s phc_id) as [|p0 pts0]; [contradiction|].
  cbv zeta.
  set (pts := p0 :: pts0). set (n := length pts).
  set (fc := count_if (fun p => (pt_fever p =? 1)%Z) pts).
  set (wc := count_if abnormal_wbc pts).
  set (kc := match get_latest_local_model s phc_id with
             | Some _ => count_if matches_disease_keyword pts
             | None => 0%nat
             end).
  set (raw := Qnat fc / Qnat n * 100 / 100 * (4 # 10) * 100
              + Qnat kc / Qnat n * 100 / 100 * (3 # 10) * 100
              + Qnat wc / Qnat n * 100 / 100 * (3 # 10) * 100).
  set (keyword_pct := match get_latest_local_model s phc_id with
                      | Some _ => percentage (count_if matches_disease_keyword pts) n
                      | None => 0
                      end).
  assert (Hkw : keyword_pct == percentage kc n).
  { unfold keyword_pct, kc. destruct (get_latest_local_model s phc_id).
    - reflexivity.
    - unfold percentage, Qnat. simpl. reflexivity. }
  assert (Hraw : raw == (4 # 10) * percentage fc n + (3 # 10) * keyword_pct
                        + (3 # 10) * percentage wc n).
  { rewrite Hkw. unfold raw, percentage.
    generalize (Qnat fc / Qnat n), (Qnat kc / Qnat n), (Qnat wc / Qnat n).
    intros x y z. field. }
  eexists. eexists. eexists.
  split; [reflexivity|].
  split; [reflexivity|]. split; [reflexivity|].
  cbn [alerts set_alerts al_alert_type al_risk_score
    al_severity cr_risk_score cr_severity].
  fold raw.
  split.
  { rewrite clamp_0_100_spec. unfold composite_score_spec. rewrite Hraw.
    reflexivity. }
  split; [reflexivity|]. split; reflexivity.
Qed.

(** The clamp of the scorer: a sum between 0 and 100 is kept, a sum that is
    not below 100 (or not a number) becomes 100, a sum that is not above 0
    becomes 0; the result is never below 0 nor above 100. *)
Lemma clamp_0_100_f64_cases (x : f64) :
  (fltb x (f64_of_Z 100) = true -> fltb (f64_of_Z 0) x = true ->
   clamp_0_100_f64 x = x)
  /\ (fltb x (f64_of_Z 100) = false -> clamp_0_100_f64 x = f64_of_Z 100)
  /\ (fltb x (f64_of_Z 100) = true -> fltb (f64_of_Z 0) x = false ->
      clamp_0_100_f64 x = f64_of_Z 0).
Proof.
  unfold clamp_0_100_f64. repeat split.
  - intros H1 H2. rewrite H1, H2. reflexivity.
  - intros H1. rewrite H1. reflexivity.
  - intros H1 H2. rewrite H1, H2. reflexivity.
Qed.

Lemma clamp_0_100_f64_bounds (x : f64) :
  fltb (clamp_0_100_f64 x) (f64_of_Z 0) = false
  /\ fltb (f64_of_Z 100) (clamp_0_100_f64 x) = false.
Proof.
  unfold clamp_0_100_f64.
  destruct (fltb x (f64_of_Z 100)) eqn:E1.
  - destruct (fltb (f64_of_Z 0) x) eqn:E2.
    + split; apply fltb_asym; assumption.
    + split; reflexivity.
  - split; reflexivity.
Qed.

Lemma severity_band_f64_cases (x : f64) :
  (fltb x (f64_of_Z 30) = true -> severity_band_f64 x = "LOW")
  /\ (fltb x (f64_of_Z 30) = false -> fltb x (f64_of_Z 60) = true ->
      severity_band_f64 x = "MEDIUM")
  /\ (fltb x (f64_of_Z 30) = false -> fltb x (f64_of_Z 60) = false ->
      severity_band_f64 x = "HIGH").
Proof.
  unfold severity_band_f64. repeat split.
  - intro H. rewrite H. reflexivity.
  - intros H1 H2. rewrite H1, H2. reflexivity.
  - intros H1 H2. rewrite H1, H2. reflexivity.
Qed.

(** The score the scorer writes and returns on floats, for a site with
    patients and a local model. *)
Lemma composite_risk_score_f64_value (now : Z) (s : Store) (phc_id : string) :
  patients_of s phc_id <> [] ->
  get_latest_local_model s phc_id <> None ->
  let pts := patients_of s phc_id in
  let n := length pts in
  let fever_pct :=
    percentage_f64 (count_if (fun p => (pt_fever p =? 1)%Z) pts) n in
  let keyword_pct := percentage_f64 (count_if matches_disease_keyword pts) n in
  let wbc_pct := percentage_f64 (count_if abnormal_wbc pts) n in
  let score := clamp_0_100_f64 (weighted_sum_f64 fever_pct keyword_pct wbc_pct) in
  exists alert r,
    calculate_composite_risk_score_f64 now s phc_id
      = ([alert], Composite64Score r)
    /\ a64_alert_type alert = "COMPOSITE_RISK"
    /\ a64_risk_score alert = score
    /\ a64_severity alert = severity_band_f64 score
    /\ c64_risk_score r = py_round_f64 score 2
    /\ c64_severity r = severity_band_f64 score.
Proof.
  intros Hne Hmodel. unfold calculate_composite_risk_score_f64.
  destruct (patients_of s phc_id) as [|p0 pts0]; [contradiction|].
  destruct (get_latest_local_model s phc_id) as [latest|]; [|contradiction].
  cbv zeta. eexists. eexists.
  split; [reflexivity|].
  cbn [a64_alert_type a64_risk_score a64_severity c64_risk_score c64_severity].
  unfold weighted_sum_f64. repeat split.
Qed.

(** C6.  For a site with at least one patient record and a local model (the
    scorer runs after a model was stored) the score written to the alert is
    40% of the fever percentage plus 30% of the keyword-match percentage plus
    30% of the abnormal-WBC percentage, computed in binary64 as the code
    does and clamped: kept when it lies between 0 and 100, never below 0 nor
    above 100.  The returned score is that float to two decimals; severity is
    LOW when the float is below 30, MEDIUM when it is below 60, else HIGH.
    10 patients, 4 fevers, 3 matches and 2 abnormal counts give 31.0 and
    MEDIUM. *)
Theorem composite_risk_formula (now : Z) (s : Store) (phc_id : string) :
  patients_of s phc_id <> [] ->
  get_latest_local_model s phc_id <> None ->
  let pts := patients_of s phc_id in
  let n := length pts in
  let fever_pct :=
    percentage_f64 (count_if (fun p => (pt_fever p =? 1)%Z) pts) n in
  let keyword_pct := percentage_f64 (count_if matches_disease_keyword pts) n in
  let wbc_pct := percentage_f64 (count_if abnormal_wbc pts) n in
  let weighted := weighted_sum_f64 fever_pct keyword_pct wbc_pct in
  exists alert r,
    calculate_composite_risk_score_f64 now s phc_id
      = ([alert], Composite64Score r)
    /\ a64_alert_type alert = "COMPOSITE_RISK"
    /\ (fltb (f64_of_Z 0) weighted = true ->
        fltb weighted (f64_of_Z 100) = true -> a64_risk_score alert = weighted)
    /\ (fltb weighted (f64_of_Z 100) = false ->
        a64_risk_score alert = f64_of_Z 100)
    /\ (fltb weighted (f64_of_Z 100) = true ->
        fltb (f64_of_Z 0) weighted = false -> a64_risk_score alert = f64_of_Z 0)
    /\ fltb (a64_risk_score alert) (f64_of_Z 0) = false
    /\ fltb (f64_of_Z 100) (a64_risk_score alert) = false
    /\ c64_risk_score r = py_round_f64 (a64_risk_score alert) 2
    /\ c64_severity r = a64_severity alert
    /\ (fltb (a64_risk_score alert) (f64_of_Z 30) = true ->
        c64_severity r = "LOW")
    /\ (fltb (a64_risk_score alert) (f64_of_Z 30) = false ->
        fltb (a64_risk_score alert) (f64_of_Z 60) = true ->
        c64_severity r = "MEDIUM")
    /\ (fltb (a64_risk_score alert) (f64_of_Z 30) = false ->
        fltb (a64_risk_score alert) (f64_of_Z 60) = false ->
        c64_severity r = "HIGH")
    /\ (n = 10%nat ->
        count_if (fun p => (pt_fever p =? 1)%Z) pts = 4%nat ->
        count_if matches_disease_keyword pts = 3%nat ->
        count_if abnormal_wbc pts = 2%nat ->
        c64_risk_score r = f64_of_Z 31 /\ c64_severity r = "MEDIUM").
Proof.
  intros Hne Hmodel pts n fever_pct keyword_pct wbc_pct weighted.
  destruct (composite_risk_score_f64_value now s phc_id Hne Hmodel)
    as (alert & r & Hc & Hty & Hscore & Hasev & Hr & Hsev).
  fold pts in Hscore, Hasev, Hr, Hsev. fold n in Hscore, Hasev, Hr, Hsev.
  fold fever_pct in Hscore, Hasev, Hr, Hsev.
  fold keyword_pct in Hscore, Hasev, Hr, Hsev.
  fold wbc_pct in Hscore, Hasev, Hr, Hsev.
  fold weighted in Hscore, Hasev, Hr, Hsev.
  exists alert, r.
  split; [exact Hc|]. split; [exact Hty|].
  destruct (clamp_0_100_f64_cases weighted) as (Hkeep & Hhigh & Hlow).
  destruct (clamp_0_100_f64_bounds weighted) as (Hge0 & Hle100).
  rewrite Hscore.
  split; [intros H0 H100; apply Hkeep; assumption|].
  split; [exact Hhigh|]. split; [exact Hlow|].
  split; [exact Hge0|]. split; [exact Hle100|].
  split; [exact Hr|]. split; [rewrite Hsev, Hasev; reflexivity|].
  rewrite Hsev.
  destruct (severity_band_f64_cases (clamp_0_100_f64 weighted)) as (HL & HM & HH).
  split; [exact HL|]. split; [exact HM|]. split; [exact HH|].
  intros Hn Hf Hk Hw.
  assert (H31 : clamp_0_100_f64 weighted
                = clamp_0_100_f64
                    (weighted_sum_f64 (percentage_f64 4 10) (percentage_f64 3 10)
                       (percentage_f64 2 10))).
  { unfold weighted, fever_pct, keyword_pct, wbc_pct.
    rewrite Hn, Hf, Hk, Hw. reflexivity. }
  rewrite Hr, H31. split; vm_compute; reflexivity.
Qed.

Lemma composite_risk_formula_witness :
  (exists alert r,
     calculate_composite_risk_score_f64 0 composite_example_with_model "PHC_1"
       = ([alert], Composite64Score r)
     /\ c64_risk_score r = f64_of_Z 31 /\ c64_severity r = "MEDIUM")
  /\ (exists alert r,
        calculate_composite_risk_score_f64 0 composite_thirty_store "PHC_1"
          = ([alert], Composite64Score r)
        /\ fltb (a64_risk_score alert) (f64_of_Z 30) = true
        /\ c64_risk_score r = f64_of_Z 30 /\ c64_severity r = "LOW").
Proof.
  split.
  - destruct (composite_risk_formula 0 composite_example_with_model "PHC_1")
      as (alert & r & Hc & _ & _ & _ & _ & _ & _ & _ & _ & _ & _ & _ & Hex).
    + vm_compute. discriminate.
    + vm_compute. discriminate.
    + exists alert, r. split; [exact Hc|].
      apply Hex; reflexivity.
  - destruct (composite_risk_formula 0 composite_thirty_store "PHC_1")
      as (alert & r & Hc & _ & Hkeep & _ & _ & _ & _ & Hr & _ & Hlow & _).
    + vm_compute. discriminate.
    + vm_compute. discriminate.
    + exists alert, r. split; [exact Hc|].
      assert (Hscore : a64_risk_score alert
                       = S754_finite false 8444249301319679 (-48)).
      { rewrite Hkeep; vm_compute; reflexivity. }
      rewrite Hscore in Hr, Hlow |- *.
      split; [vm_compute; reflexivity|].
      split; [rewrite Hr; vm_compute; reflexivity|].
      apply Hlow. vm_compute. reflexivity.
Defined.

(** ** Training trigger manager *)

Lemma find_metadata_phc (s : Store) (phc_id : string) (m : TrainingMetadata) :
  find_metadata s phc_id = Some m -> tm_phc_id m = phc_id.
Proof.
  unfold find_metadata. intro H. apply find_some in H. destruct H as [_ H].
  apply String.eqb_eq in H. exact H.
Qed.

Lemma find_replace_metadata (m : TrainingMetadata) (l : list TrainingMetadata)
    (phc_id : string) :
  tm_phc_id m = phc_id ->
  find (fun x => String.eqb (tm_phc_id x) phc_id) (replace_metadata m l) =
    match find (fun x => String.eqb (tm_phc_id x) phc_id) l with
    | Some _ => Some m
    | None => None
    end.
Proof.
  intro Hm. induction l as [|x l IH]; simpl; [reflexivity|].
  rewrite Hm.
  destruct (String.eqb (tm_phc_id x) phc_id) eqn:E; simpl.
  - rewrite Hm, String.eqb_refl. reflexivity.
  - rewrite E. exact IH.
Qed.

Lemma find_save_metadata (s : Store) (m old : TrainingMetadata) (phc_id : string) :
  find_metadata s phc_id = Some old ->
  tm_phc_id m = phc_id ->
  find_metadata (save_metadata s m) phc_id = Some m.
Proof.
  intros Hold Hm. unfold find_metadata, save_metadata in *. simpl.
  rewrite (find_replace_metadata m _ phc_id Hm). rewrite Hold. reflexivity.
Qed.

(** Whatever the store looks like, [record_training_completion] leaves the
    site's lock free. *)
Lemma record_training_completion_releases (now : Z) (s : Store) (phc_id : string)
    (success : bool) :
  training_in_progress (record_training_completion now s phc_id success) phc_id
    = false.
Proof.
  unfold training_in_progress, record_training_completion.
  destruct (find_metadata s phc_id) as [md|] eqn:E.
  - erewrite find_save_metadata; [reflexivity | exact E |].
    simpl. apply (find_metadata_phc s phc_id md E).
  - rewrite E. reflexivity.
Qed.

Lemma set_training_lock_locks (s : Store) (phc_id : string) (m : TrainingMetadata) :
  find_metadata s phc_id = Some m ->
  training_in_progress (set_training_lock s m) phc_id = true.
Proof.
  intro E. unfold training_in_progress, set_training_lock.
  erewrite find_save_metadata; [reflexivity | exact E |].
  simpl. apply (find_metadata_phc s phc_id m E).
Qed.

(** C3.  When a call of the patient-creation pipeline takes the training lock,
    training runs on a store in which the site is marked in progress, and
    whatever the training call does (returns a report, returns an error report
    or raises) the store the pipeline returns is the one left by
    [record_training_completion], in which the site's lock is free.  This holds
    for every training function, in particular for [train_federated_model]. *)
Theorem training_lock_released
    (train : Store -> string -> string -> Store * (string + TrainReport))
    (now : Z) (s : Store) (phc_id : string) :
  acquires_training_lock now s phc_id = true ->
  (exists s3 trigger_reason,
     training_in_progress s3 phc_id = true
     /\ exists success,
          fst (handle_patient_creation_with train now s phc_id)
            = record_training_completion now
                (fst (train s3 phc_id trigger_reason)) phc_id success)
  /\ training_in_progress
       (fst (handle_patient_creation_with train now s phc_id)) phc_id = false
  /\ forall ml,
       training_in_progress (fst (handle_patient_creation ml now s phc_id)) phc_id
         = false.
Proof.
  intro Hacq.
  assert (Hgen : forall train',
    exists s3 trigger_reason,
      training_in_progress s3 phc_id = true
      /\ exists success,
           fst (handle_patient_creation_with train' now s phc_id)
             = record_training_completion now
                 (fst (train' s3 phc_id trigger_reason)) phc_id success).
  { intro train'. unfold acquires_training_lock in Hacq.
    unfold handle_patient_creation_with.
    destruct (should_trigger_local_training now
                (increment_patient_count now s phc_id) phc_id)
      as [s2 [should_train trigger_reason]].
    apply andb_true_iff in Hacq. destruct Hacq as [Hst Hfree].
    rewrite Hst. simpl negb. cbv iota.
    destruct (find_metadata s2 phc_id) as [m|] eqn:Em; [|discriminate].
    apply negb_true_iff in Hfree. rewrite Hfree.
    exists (set_training_lock s2 m), trigger_reason.
    split; [apply set_training_lock_locks; exact Em|].
    destruct (train' (set_training_lock s2 m) phc_id trigger_reason)
      as [s4 [err|result]]; simpl.
    - exists false. reflexivity.
    - destruct (error_set result); [exists false | exists true]; reflexivity. }
  split; [apply Hgen|].
  assert (Hrel : forall train',
    training_in_progress
      (fst (handle_patient_creation_with train' now s phc_id)) phc_id = false).
  { intro train'. destruct (Hgen train') as (s3 & r & _ & success & ->).
    apply record_training_completion_releases. }
  split; [apply Hrel|].
  intro ml. unfold handle_patient_creation. apply Hrel.
Qed.

Lemma training_lock_released_witness :
  acquires_training_lock 0 lock_example_store "PHC_1" = true
  /\ training_in_progress
       (fst (handle_patient_creation_with raising_train 0 lock_example_store
               "PHC_1")) "PHC_1" = false.
Proof.
  split; [reflexivity|].
  apply (training_lock_released raising_train 0 lock_example_store "PHC_1").
  reflexivity.
Defined.

(** ** Federated aggregator *)

Lemma aggregation_phc_ids_eq :
  aggregation_phc_ids = ["PHC_1"; "PHC_2"; "PHC_3"; "PHC_4"].
Proof. reflexivity. Qed.

Lemma existsb_eqb_In (x : string) (l : list string) :
  existsb (String.eqb x) l = true <-> In x l.
Proof.
  rewrite existsb_exists. split.
  - intros (y & Hy & E). apply String.eqb_eq in E. subst. exact Hy.
  - intro H. exists x. split; [exact H | apply String.eqb_refl].
Qed.

Lemma dedup_In (x : string) (l : list string) : In x (dedup l) <-> In x l.
Proof.
  induction l as [|y l IH]; simpl; [tauto|].
  destruct (existsb (String.eqb y) l) eqn:E.
  - apply existsb_eqb_In in E. rewrite IH. split; [tauto|].
    intros [<-|H]; assumption.
  - simpl. rewrite IH. tauto.
Qed.

Lemma dedup_NoDup (l : list string) : NoDup (dedup l).
Proof.
  induction l as [|y l IH]; simpl; [constructor|].
  destruct (existsb (String.eqb y) l) eqn:E; [exact IH|].
  constructor; [|exact IH].
  rewrite dedup_In. intro H. apply existsb_eqb_In in H. congruence.
Qed.

(** The sites that hold a local model with [aggregated = false]. *)
Lemma pending_sites_spec (s : Store) (phc_id : string) :
  In phc_id (dedup (map lm_phc_id
                      (filter (fun m => negb (lm_aggregated m)) (local_models s))))
  <-> exists m, In m (local_models s) /\ lm_aggregated m = false
                /\ lm_phc_id m = phc_id.
Proof.
  rewrite dedup_In, in_map_iff. split.
  - intros (m & Hphc & Hin). apply filter_In in Hin. destruct Hin as [Hin Hagg].
    apply negb_true_iff in Hagg. eauto.
  - intros (m & Hin & Hagg & Hphc). exists m. split; [exact Hphc|].
    apply filter_In. split; [exact Hin|]. rewrite Hagg. reflexivity.
Qed.

Lemma should_trigger_global_aggregation_cases (s : Store) :
  let sites := dedup (map lm_phc_id
                 (filter (fun m => negb (lm_aggregated m)) (local_models s))) in
  ((3 <= length sites)%nat ->
   should_trigger_global_aggregation s = (true, "threshold_met", sites))
  /\ ((1 <= length sites < 3)%nat ->
      should_trigger_global_aggregation s = (false, "insufficient_phcs", sites))
  /\ (length sites = 0%nat ->
      should_trigger_global_aggregation s = (false, "no_models", [])).
Proof.
  intro sites. unfold should_trigger_global_aggregation. subst sites.
  destruct (filter (fun m => negb (lm_aggregated m)) (local_models s))
    as [|m l] eqn:E.
  - simpl. split; [intro; lia|]. split; [intro; lia|]. intros _. reflexivity.
  - set (sites := dedup (map lm_phc_id (m :: l))).
    assert (Hpos : (1 <= length sites)%nat).
    { assert (Hin : In (lm_phc_id m) sites)
        by (apply dedup_In; left; reflexivity).
      destruct sites; [destruct Hin | simpl; lia]. }
    split; [|split]; intro H.
    + apply Nat.leb_le in H. rewrite H. reflexivity.
    + destruct (3 <=? length sites)%nat eqn:E3; [|reflexivity].
      apply Nat.leb_le in E3. lia.
    + lia.
Qed.

Lemma broadcast_global_model_effect (now : Z) (s : Store) (v : Z) :
  broadcast_global_model now s v =
    set_model_broadcasts s
      (model_broadcasts s ++
         map (fun phc_id => {| mb_phc_id := phc_id;
                               mb_global_model_version := v;
                               mb_received_at := now |})
             aggregation_phc_ids).
Proof.
  unfold broadcast_global_model. rewrite aggregation_phc_ids_eq.
  destruct s. simpl. unfold set_model_broadcasts. simpl.
  rewrite <- !app_assoc. reflexivity.
Qed.

(** The marking loop touches the local models only. *)
Lemma mark_loop_effect (next_version : Z) (version_string : string)
    (phc_models : list (string * LocalModel)) (s : Store) :
  fold_left
    (fun st e =>
       set_local_models st
         (mark_aggregated next_version version_string (lm_id (snd e))
            (local_models st)))
    phc_models s
  = set_local_models s
      (fold_left
         (fun l e => mark_aggregated next_version version_string (lm_id (snd e)) l)
         phc_models (local_models s)).
Proof.
  revert s. induction phc_models as [|e l IH]; intro s; simpl.
  - destruct s; reflexivity.
  - rewrite IH. reflexivity.
Qed.

Lemma aggregate_models_none (now : Z) (automatic : bool) (s : Store) :
  collect_phc_models automatic s = [] ->
  aggregate_models now automatic s = (s, None).
Proof. intro E. unfold aggregate_models. rewrite E. reflexivity. Qed.

(** What a successful aggregation writes. *)
Lemma aggregate_models_some (now : Z) (automatic : bool) (s : Store) :
  collect_phc_models automatic s <> [] ->
  let phc_models := collect_phc_models automatic s in
  let total_samples := total_sample_count phc_models in
  let next_version :=
    match get_latest_global_model s with
    | Some latest_global => (gm_version latest_global + 1)%Z
    | None => 1%Z
    end in
  exists s' r g,
    aggregate_models now automatic s = (s', Some r)
    /\ global_models s' = (global_models s ++ [g])%list
    /\ local_models s' =
         fold_left
           (fun l e =>
              mark_aggregated next_version
                (generate_global_version_string next_version) (lm_id (snd e)) l)
           phc_models (local_models s)
    /\ model_broadcasts s' =
         (model_broadcasts s ++
            map (fun phc_id => {| mb_phc_id := phc_id;
                                  mb_global_model_version := next_version;
                                  mb_received_at := now |})
                aggregation_phc_ids)%list
    /\ gm_version g = next_version
    /\ gm_contributors g = map fst phc_models
    /\ gm_contributor_versions g
         = map (fun e => (fst e, lm_version_string (snd e))) phc_models
    /\ gm_accuracy g = py_round (aggregated_metric lm_accuracy phc_models total_samples) 4
    /\ gm_w_precision g
         = py_round (aggregated_metric lm_precision phc_models total_samples) 4
    /\ gm_w_recall g
         = py_round (aggregated_metric lm_recall phc_models total_samples) 4
    /\ gm_w_f1_score g
         = py_round (aggregated_metric lm_f1_score phc_models total_samples) 4
    /\ ar_accuracy r = gm_accuracy g
    /\ ar_contributors r = gm_contributors g
    /\ ar_version r = next_version.
Proof.
  intro Hne. cbv zeta. unfold aggregate_models.
  destruct (collect_phc_models automatic s) as [|e l] eqn:E; [contradiction|].
  rewrite broadcast_global_model_effect, mark_loop_effect.
  eexists. eexists. eexists.
  split; [reflexivity|]. simpl.
  repeat (split; [reflexivity|]). reflexivity.
Qed.

Lemma Qsum_acc (l : list Q) (a : Q) : fold_left Qplus l a == a + Qsum l.
Proof.
  unfold Qsum. revert a. induction l as [|x l IH]; intro a; simpl.
  - ring.
  - rewrite (IH (a + x)), (IH (0 + x)). ring.
Qed.

Lemma Qsum_cons (x : Q) (l : list Q) : Qsum (x :: l) == x + Qsum l.
Proof. unfold Qsum at 1. simpl. rewrite Qsum_acc. ring. Qed.

Lemma total_sample_count_acc (l : list (string * LocalModel)) (a : Z) :
  fold_left (fun acc e => (acc + lm_sample_count (snd e))%Z) l a
  = (a + total_sample_count l)%Z.
Proof.
  unfold total_sample_count. revert a.
  induction l as [|e l IH]; intro a; simpl; [lia|].
  rewrite (IH (a + lm_sample_count (snd e))%Z), (IH (lm_sample_count (snd e))). lia.
Qed.

Lemma total_sample_count_Qsum (l : list (string * LocalModel)) :
  inject_Z (total_sample_count l)
  == Qsum (map (fun e => inject_Z (lm_sample_count (snd e))) l).
Proof.
  induction l as [|e l IH].
  - reflexivity.
  - unfold total_sample_count. simpl fold_left.
    rewrite total_sample_count_acc. simpl map. rewrite Qsum_cons, <- IH.
    rewrite inject_Z_plus. reflexivity.
Qed.

Lemma aggregated_metric_weighted_average (metric : LocalModel -> Q)
    (phc_models : list (string * LocalModel)) :
  (0 < total_sample_count phc_models)%Z ->
  aggregated_metric metric phc_models (total_sample_count phc_models)
  == weighted_average (site_values metric phc_models).
Proof.
  intro Hpos. unfold aggregated_metric, weighted_average, site_values.
  apply Z.ltb_lt in Hpos. rewrite Hpos.
  rewrite !map_map. simpl.
  rewrite total_sample_count_Qsum. reflexivity.
Qed.

(** C5.  When the aggregation collects at least one site and the collected
    sample counts sum to a positive total, every aggregated metric is the
    sample-count-weighted average of the contributing sites' metrics, and the
    new GlobalModel records each one to four decimals.  Sample counts
    50, 150, 100 with accuracies 0.80, 0.90, 0.85 give accuracy 0.8667. *)
Theorem aggregated_metrics_weighted_average (now : Z) (automatic : bool)
    (s : Store) :
  let phc_models := collect_phc_models automatic s in
  let total_samples := total_sample_count phc_models in
  phc_models <> [] ->
  (0 < total_samples)%Z ->
  (forall metric,
     aggregated_metric metric phc_models total_samples
     == weighted_average (site_values metric phc_models))
  /\ exists s' r g,
       aggregate_models now automatic s = (s', Some r)
       /\ global_models s' = (global_models s ++ [g])%list
       /\ gm_accuracy g
            = py_round (weighted_average (site_values lm_accuracy phc_models)) 4
       /\ gm_w_precision g
            = py_round (weighted_average (site_values lm_precision phc_models)) 4
       /\ gm_w_recall g
            = py_round (weighted_average (site_values lm_recall phc_models)) 4
       /\ gm_w_f1_score g
            = py_round (weighted_average (site_values lm_f1_score phc_models)) 4
       /\ ar_accuracy r = gm_accuracy g
       /\ (Forall2 (fun e t => lm_accuracy (snd e) == fst t
                               /\ lm_sample_count (snd e) = snd t)
                   phc_models
                   [(80 # 100, 50%Z); (90 # 100, 150%Z); (85 # 100, 100%Z)] ->
           gm_accuracy g == 8667 # 10000).
Proof.
  intros phc_models total_samples Hne Hpos.
  split; [intro metric; apply aggregated_metric_weighted_average; exact Hpos|].
  destruct (aggregate_models_some now automatic s Hne)
    as (s' & r & g & Hagg & Hg & _ & _ & _ & _ & _ & Hacc & Hprec & Hrec & Hf1
        & Hr & _).
  fold phc_models in Hacc, Hprec, Hrec, Hf1. fold total_samples in Hacc, Hprec, Hrec, Hf1.
  exists s', r, g.
  split; [exact Hagg|]. split; [exact Hg|].
  split; [rewrite Hacc; apply py_round_comp,
            aggregated_metric_weighted_average; exact Hpos|].
  split; [rewrite Hprec; apply py_round_comp,
            aggregated_metric_weighted_average; exact Hpos|].
  split; [rewrite Hrec; apply py_round_comp,
            aggregated_metric_weighted_average; exact Hpos|].
  split; [rewrite Hf1; apply py_round_comp,
            aggregated_metric_weighted_average; exact Hpos|].
  split; [exact Hr|].
  intro Hex. rewrite Hacc.
  assert (Hw : aggregated_metric lm_accuracy phc_models total_samples == 13 # 15).
  { unfold total_samples. rewrite aggregated_metric_weighted_average by exact Hpos.
    unfold weighted_average, site_values.
    inversion Hex as [|e1 t1 l1 l1' [Ha1 Hn1] Hex1]; subst.
    inversion Hex1 as [|e2 t2 l2 l2' [Ha2 Hn2] Hex2]; subst.
    inversion Hex2 as [|e3 t3 l3 l3' [Ha3 Hn3] Hex3]; subst.
    inversion Hex3; subst.
    simpl in *. unfold Qsum. simpl.
    rewrite Ha1, Ha2, Ha3, Hn1, Hn2, Hn3. reflexivity. }
  rewrite (py_round_comp _ _ 4 Hw). reflexivity.
Qed.

Lemma aggregated_metrics_weighted_average_witness :
  exists s' r,
    aggregate_models 0 true aggregation_example_store = (s', Some r)
    /\ ar_accuracy r == 8667 # 10000.
Proof.
  destruct (aggregated_metrics_weighted_average 0 true aggregation_example_store)
    as [_ (s' & r & g & Hagg & _ & _ & _ & _ & _ & Hr & Hex)].
  - vm_compute. discriminate.
  - reflexivity.
  - exists s', r. split; [exact Hagg|]. rewrite Hr. apply Hex.
    repeat (constructor; [split; reflexivity|]). constructor.
Defined.

Lemma order_by_desc_first_In {A : Type} (key : A -> Z) (l : list A) (x : A) :
  first (order_by_desc key l) = Some x -> In x l.
Proof.
  intro H. apply (Permutation_in x (order_by_desc_perm key l)).
  destruct (order_by_desc key l); simpl in H; [discriminate|].
  injection H as ->. left. reflexivity.
Qed.

Lemma order_by_desc_first_none {A : Type} (key : A -> Z) (l : list A) :
  first (order_by_desc key l) = None <-> l = [].
Proof.
  split.
  - intro H. pose proof (order_by_desc_length key l) as Hl.
    destruct (order_by_desc key l); [|discriminate].
    destruct l; [reflexivity | discriminate].
  - intros ->. reflexivity.
Qed.

Lemma latest_for_aggregation_some (automatic : bool) (s : Store)
    (phc_id : string) (m : LocalModel) :
  latest_for_aggregation automatic s phc_id = Some m ->
  In m (local_models s) /\ lm_phc_id m = phc_id
  /\ (automatic = true -> lm_aggregated m = false).
Proof.
  unfold latest_for_aggregation, local_models_of. intro H.
  apply order_by_desc_first_In in H.
  destruct automatic; apply filter_In in H; destruct H as [Hin Hp].
  - apply andb_true_iff in Hp. destruct Hp as [Hphc Hagg].
    apply String.eqb_eq in Hphc. apply negb_true_iff in Hagg. auto.
  - apply String.eqb_eq in Hp. split; [exact Hin|]. split; [exact Hp|].
    discriminate.
Qed.

Lemma latest_for_aggregation_automatic_none (s : Store) (phc_id : string) :
  latest_for_aggregation true s phc_id = None <->
  forall m, In m (local_models s) -> lm_phc_id m = phc_id ->
            lm_aggregated m = true.
Proof.
  unfold latest_for_aggregation. rewrite order_by_desc_first_none. split.
  - intros E m Hin Hphc. destruct (lm_aggregated m) eqn:Hagg; [reflexivity|].
    assert (Hf : In m (filter (fun m0 => String.eqb (lm_phc_id m0) phc_id
                                         && negb (lm_aggregated m0))
                              (local_models s))).
    { apply filter_In. split; [exact Hin|]. rewrite Hphc, String.eqb_refl, Hagg.
      reflexivity. }
    rewrite E in Hf. destruct Hf.
  - intro H.
    destruct (filter _ (local_models s)) as [|m l] eqn:E; [reflexivity|].
    assert (Hf : In m (filter (fun m0 => String.eqb (lm_phc_id m0) phc_id
                                         && negb (lm_aggregated m0))
                              (local_models s))) by (rewrite E; left; reflexivity).
    apply filter_In in Hf. destruct Hf as [Hin Hp].
    apply andb_true_iff in Hp. destruct Hp as [Hphc Hagg].
    apply String.eqb_eq in Hphc. rewrite (H m Hin Hphc) in Hagg. discriminate.
Qed.

Lemma collect_phc_models_In (automatic : bool) (s : Store) (phc_id : string)
    (m : LocalModel) :
  In (phc_id, m) (collect_phc_models automatic s) <->
  In phc_id aggregation_phc_ids
  /\ latest_for_aggregation automatic s phc_id = Some m.
Proof.
  unfold collect_phc_models. rewrite in_flat_map. split.
  - intros (p & Hp & Hin).
    destruct (latest_for_aggregation automatic s p) as [m'|] eqn:E;
      [|destruct Hin].
    destruct Hin as [Heq|[]]. injection Heq as <- <-. auto.
  - intros [Hp E]. exists phc_id. split; [exact Hp|]. rewrite E. left. reflexivity.
Qed.

(** The automatic collection is empty exactly when no listed site holds an
    unaggregated model. *)
Lemma collect_automatic_empty (s : Store) :
  collect_phc_models true s = [] <->
  forall m, In m (local_models s) -> In (lm_phc_id m) aggregation_phc_ids ->
            lm_aggregated m = true.
Proof.
  split.
  - intros E m Hin Hlisted.
    destruct (latest_for_aggregation true s (lm_phc_id m)) as [m'|] eqn:El.
    + assert (H : In (lm_phc_id m, m') (collect_phc_models true s))
        by (apply collect_phc_models_In; auto).
      rewrite E in H. destruct H.
    + apply (proj1 (latest_for_aggregation_automatic_none s _) El m Hin eq_refl).
  - intro H. destruct (collect_phc_models true s) as [|[p m] l] eqn:E;
      [reflexivity|].
    assert (Hin : In (p, m) (collect_phc_models true s))
      by (rewrite E; left; reflexivity).
    apply collect_phc_models_In in Hin. destruct Hin as [Hp Hl].
    apply latest_for_aggregation_some in Hl. destruct Hl as (Hin & Hphc & Hagg).
    rewrite <- Hphc in Hp. rewrite (H m Hin Hp) in Hagg.
    specialize (Hagg eq_refl). discriminate.
Qed.

Lemma try_automatic_aggregation_unfold (now : Z) (s : Store) :
  try_automatic_aggregation now s =
    if fst (fst (should_trigger_global_aggregation s))
    then aggregate_models now true s
    else (s, None).
Proof.
  unfold try_automatic_aggregation.
  destruct (should_trigger_global_aggregation s) as [[b reason] pending].
  reflexivity.
Qed.

(** C4, as the code has it.  [sites] are the distinct sites holding a local
    model with [aggregated = false].  With three or more of them the trigger
    check answers [threshold_met]; the automatic path then creates a
    GlobalModel when at least one of those sites is one of the sites the
    aggregator loops over (PHC_1 .. PHC_4), and creates none otherwise.  With
    fewer than three (in particular exactly two, reported as
    [insufficient_phcs]) the automatic path creates no GlobalModel and leaves
    the store as it is. *)
Theorem automatic_aggregation_trigger (now : Z) (s : Store) :
  let sites := dedup (map lm_phc_id
                 (filter (fun m => negb (lm_aggregated m)) (local_models s))) in
  NoDup sites
  /\ (forall phc_id,
        In phc_id sites <->
        exists m, In m (local_models s) /\ lm_aggregated m = false
                  /\ lm_phc_id m = phc_id)
  /\ ((3 <= length sites)%nat ->
      should_trigger_global_aggregation s = (true, "threshold_met", sites)
      /\ ((exists phc_id, In phc_id sites /\ In phc_id aggregation_phc_ids) ->
          exists s' r g,
            try_automatic_aggregation now s = (s', Some r)
            /\ global_models s' = (global_models s ++ [g])%list)
      /\ ((forall phc_id, In phc_id sites -> ~ In phc_id aggregation_phc_ids) ->
          try_automatic_aggregation now s = (s, None)))
  /\ (length sites = 2%nat ->
      should_trigger_global_aggregation s = (false, "insufficient_phcs", sites))
  /\ ((length sites < 3)%nat ->
      fst (fst (should_trigger_global_aggregation s)) = false
      /\ try_automatic_aggregation now s = (s, None)).
Proof.
  intro sites.
  destruct (should_trigger_global_aggregation_cases s) as (H3 & H12 & H0).
  fold sites in H3, H12, H0.
  split; [apply dedup_NoDup|].
  split; [intro phc_id; apply pending_sites_spec|].
  split; [|split].
  - intro Hge. specialize (H3 Hge). split; [exact H3|].
    split.
    + intros (phc_id & Hin & Hlisted).
      apply pending_sites_spec in Hin. destruct Hin as (m & Hm & Hagg & Hphc).
      assert (Hne : collect_phc_models true s <> []).
      { intro E. rewrite collect_automatic_empty in E.
        rewrite <- Hphc in Hlisted. rewrite (E m Hm Hlisted) in Hagg.
        discriminate. }
      destruct (aggregate_models_some now true s Hne)
        as (s' & r & g & Hagg' & Hg & _).
      exists s', r, g. rewrite try_automatic_aggregation_unfold, H3. simpl.
      split; assumption.
    + intro Hnone. rewrite try_automatic_aggregation_unfold, H3. simpl.
      apply aggregate_models_none. apply collect_automatic_empty.
      intros m Hm Hlisted. destruct (lm_aggregated m) eqn:Hagg; [reflexivity|].
      exfalso. apply (Hnone (lm_phc_id m)); [|exact Hlisted].
      apply pending_sites_spec. exists m. auto.
  - intro H2. apply H12. lia.
  - intro Hlt.
    assert (Hf : fst (fst (should_trigger_global_aggregation s)) = false).
    { destruct (length sites) as [|k] eqn:El.
      - rewrite (H0 eq_refl). reflexivity.
      - rewrite H12 by lia. reflexivity. }
    split; [exact Hf|].
    rewrite try_automatic_aggregation_unfold, Hf. reflexivity.
Qed.

Lemma automatic_aggregation_trigger_witness :
  (exists s' r g,
     try_automatic_aggregation 0 aggregation_example_store = (s', Some r)
     /\ global_models s' = (global_models aggregation_example_store ++ [g])%list)
  /\ try_automatic_aggregation 0 drift_example_store = (drift_example_store, None).
Proof.
  split.
  - destruct (automatic_aggregation_trigger 0 aggregation_example_store)
      as (_ & _ & H3 & _).
    destruct H3 as (_ & Hcreate & _); [vm_compute; lia|].
    apply Hcreate. exists "PHC_1". split; vm_compute; auto.
  - destruct (automatic_aggregation_trigger 0 drift_example_store)
      as (_ & _ & _ & _ & Hlt).
    destruct Hlt as [_ H]; [vm_compute; lia | exact H].
Defined.

(** C4 as stated fails: three distinct sites hold unaggregated models, the
    trigger check answers [threshold_met], and the automatic path creates no
    GlobalModel, because none of the three is a site the aggregator loops
    over. *)
Lemma automatic_aggregation_unlisted_sites_counterexample :
  should_trigger_global_aggregation unlisted_sites_store
    = (true, "threshold_met", ["PHC1"; "PHC2"; "PHC3"])
  /\ try_automatic_aggregation 0 unlisted_sites_store
       = (unlisted_sites_store, None)
  /\ global_models (fst (try_automatic_aggregation 0 unlisted_sites_store)) = [].
Proof. repeat split. Qed.

Lemma mark_aggregated_keeps_ids (v : Z) (vs : string) (i : nat)
    (l : list LocalModel) :
  map lm_id (mark_aggregated v vs i l) = map lm_id l
  /\ map lm_phc_id (mark_aggregated v vs i l) = map lm_phc_id l.
Proof.
  unfold mark_aggregated. rewrite !map_map. split; apply map_ext; intro m;
    destruct (lm_id m =? i)%nat; reflexivity.
Qed.

(** Marking the model with id [i] leaves every model with another id alone. *)
Lemma mark_aggregated_other (v : Z) (vs : string) (i : nat) (l : list LocalModel) :
  Forall (fun m => unlisted_site m = true -> lm_id m <> i) l ->
  filter unlisted_site (mark_aggregated v vs i l) = filter unlisted_site l
  /\ Forall (fun m => unlisted_site m = true -> forall j, lm_id m = j ->
                      In j (map lm_id (filter unlisted_site l)))
            (mark_aggregated v vs i l).
Proof.
  induction 1 as [|m l Hm Hl IH]; simpl; [split; constructor|].
  destruct IH as [IHf IHa].
  destruct (lm_id m =? i)%nat eqn:E.
  - apply Nat.eqb_eq in E.
    assert (Hu : unlisted_site m = false).
    { destruct (unlisted_site m); [exfalso; apply Hm; auto | reflexivity]. }
    unfold unlisted_site at 1 3. simpl lm_phc_id. fold (unlisted_site m).
    rewrite Hu. split; [exact IHf|].
    constructor; [|exact IHa].
    unfold unlisted_site at 1. simpl lm_phc_id. fold (unlisted_site m).
    rewrite Hu. discriminate.
  - destruct (unlisted_site m) eqn:Hu.
    + split; [rewrite IHf; reflexivity|]. constructor.
      * intros _ j <-. left. reflexivity.
      * eapply Forall_impl; [|exact IHa]. intros a Ha Hua j Hj.
        right. apply (Ha Hua j Hj).
    + split; [exact IHf|]. constructor; [rewrite Hu; discriminate | exact IHa].
Qed.

Lemma mark_loop_other (v : Z) (vs : string) (phc_models : list (string * LocalModel))
    (l : list LocalModel) :
  (forall e m, In e phc_models -> In m l -> unlisted_site m = true ->
               lm_id m <> lm_id (snd e)) ->
  filter unlisted_site
    (fold_left (fun l0 e => mark_aggregated v vs (lm_id (snd e)) l0) phc_models l)
  = filter unlisted_site l.
Proof.
  revert l. induction phc_models as [|e rest IH]; intros l H; simpl;
    [reflexivity|].
  assert (Hall : Forall (fun m => unlisted_site m = true -> lm_id m <> lm_id (snd e))
                        l).
  { apply Forall_forall. intros m Hm Hu. apply (H e m); auto. left. reflexivity. }
  destruct (mark_aggregated_other v vs (lm_id (snd e)) l Hall) as [Hf Ha].
  rewrite IH; [exact Hf|].
  intros e' m He' Hm Hu.
  rewrite Forall_forall in Ha. specialize (Ha m Hm Hu (lm_id m) eq_refl).
  apply in_map_iff in Ha. destruct Ha as (m0 & Hid & Hm0).
  apply filter_In in Hm0. destruct Hm0 as [Hm0 Hu0].
  rewrite <- Hid. apply (H e' m0); auto. right. exact He'.
Qed.

Lemma NoDup_map_injective {A B : Type} (f : A -> B) (l : list A) (x y : A) :
  NoDup (map f l) -> In x l -> In y l -> f x = f y -> x = y.
Proof.
  induction l as [|a l IH]; simpl; [tauto|].
  intros Hnd Hx Hy Hxy. inversion Hnd as [|? ? Hnotin Hnd']; subst.
  destruct Hx as [<-|Hx], Hy as [<-|Hy]; auto.
  - exfalso. apply Hnotin. rewrite Hxy. apply in_map, Hy.
  - exfalso. apply Hnotin. rewrite <- Hxy. apply in_map, Hx.
Qed.

Lemma unlisted_site_spec (m : LocalModel) :
  unlisted_site m = true <-> ~ In (lm_phc_id m) aggregation_phc_ids.
Proof.
  unfold unlisted_site. rewrite negb_true_iff.
  rewrite <- existsb_eqb_In. destruct (existsb _ _); split; congruence.
Qed.

(** C10.  The aggregator and the broadcast loop over PHC_1 .. PHC_4 only.
    Every model an aggregation collects belongs to one of these four sites; the
    GlobalModel it creates lists only them as contributors; with unique
    document ids the local models of every other site are left exactly as they
    were (so never marked aggregated); and every broadcast record it writes is
    for one of the four.  The trigger check nevertheless lists every site that
    holds an unaggregated model, whatever its id. *)
Theorem aggregation_limited_to_listed_sites (now : Z) (automatic : bool)
    (s : Store) :
  aggregation_phc_ids = ["PHC_1"; "PHC_2"; "PHC_3"; "PHC_4"]
  /\ (forall phc_id m,
        In (phc_id, m) (collect_phc_models automatic s) ->
        In phc_id aggregation_phc_ids /\ lm_phc_id m = phc_id
        /\ In m (local_models s))
  /\ (forall g,
        In g (global_models (fst (aggregate_models now automatic s))) ->
        In g (global_models s)
        \/ (incl (gm_contributors g) aggregation_phc_ids
            /\ incl (map fst (gm_contributor_versions g)) aggregation_phc_ids))
  /\ (NoDup (map lm_id (local_models s)) ->
      filter unlisted_site (local_models (fst (aggregate_models now automatic s)))
      = filter unlisted_site (local_models s))
  /\ (forall b,
        In b (model_broadcasts (fst (aggregate_models now automatic s))) ->
        In b (model_broadcasts s) \/ In (mb_phc_id b) aggregation_phc_ids)
  /\ (forall m,
        In m (local_models s) -> lm_aggregated m = false ->
        In (lm_phc_id m) (snd (should_trigger_global_aggregation s))).
Proof.
  split; [reflexivity|].
  assert (Hcol : forall phc_id m,
            In (phc_id, m) (collect_phc_models automatic s) ->
            In phc_id aggregation_phc_ids /\ lm_phc_id m = phc_id
            /\ In m (local_models s)).
  { intros phc_id m Hin. apply collect_phc_models_In in Hin.
    destruct Hin as [Hp Hl]. apply latest_for_aggregation_some in Hl.
    destruct Hl as (Hm & Hphc & _). auto. }
  split; [exact Hcol|].
  assert (Hdec : collect_phc_models automatic s = []
                 \/ collect_phc_models automatic s <> []).
  { destruct (collect_phc_models automatic s);
      [left; reflexivity | right; discriminate]. }
  destruct Hdec as [Ecol|Hne].
  - rewrite (aggregate_models_none now automatic s Ecol). simpl.
    split; [auto|]. split; [auto|]. split; [auto|].
    intros m Hm Hagg.
    destruct (should_trigger_global_aggregation_cases s) as (H3 & H12 & H0).
    assert (Hin : In (lm_phc_id m)
                     (dedup (map lm_phc_id
                        (filter (fun m => negb (lm_aggregated m)) (local_models s)))))
      by (apply pending_sites_spec; eauto).
    set (sites := dedup _) in *.
    destruct (le_lt_dec 3 (length sites)) as [Hge|Hlt].
    + rewrite (H3 Hge). exact Hin.
    + rewrite H12; [exact Hin|]. destruct sites; [destruct Hin | simpl in *; lia].
  - destruct (aggregate_models_some now automatic s Hne)
      as (s' & r & g & Hagg & Hg & Hl & Hb & _ & Hc & Hcv & _).
    rewrite Hagg. simpl fst.
    split.
    { intros g' Hg'. rewrite Hg in Hg'. apply in_app_or in Hg'.
      destruct Hg' as [Hold|[<-|[]]]; [left; exact Hold | right].
      rewrite Hc, Hcv, map_map. simpl.
      split; intros p Hp; apply in_map_iff in Hp;
        destruct Hp as ([p' m'] & <- & Hin); simpl;
        apply (Hcol p' m' Hin). }
    split.
    { intro Hnd. rewrite Hl. apply mark_loop_other.
      intros [p c] m He Hm Hu Hid. simpl in Hid.
      destruct (Hcol p c He) as (Hp & Hphc & Hc').
      assert (m = c) by (apply (NoDup_map_injective lm_id _ m c Hnd Hm Hc' Hid)).
      subst m. apply unlisted_site_spec in Hu. apply Hu. rewrite Hphc. exact Hp. }
    split.
    { intros b Hb'. rewrite Hb in Hb'. apply in_app_or in Hb'.
      destruct Hb' as [Hold|Hnew]; [left; exact Hold | right].
      apply in_map_iff in Hnew. destruct Hnew as (p & <- & Hp). exact Hp. }
    intros m Hm Hagg'.
    destruct (should_trigger_global_aggregation_cases s) as (H3 & H12 & H0).
    assert (Hin : In (lm_phc_id m)
                     (dedup (map lm_phc_id
                        (filter (fun m => negb (lm_aggregated m)) (local_models s)))))
      by (apply pending_sites_spec; eauto).
    set (sites := dedup _) in *.
    destruct (le_lt_dec 3 (length sites)) as [Hge|Hlt].
    + rewrite (H3 Hge). exact Hin.
    + rewrite H12; [exact Hin|]. destruct sites; [destruct Hin | simpl in *; lia].
Qed.

Lemma aggregation_limited_to_listed_sites_witness :
  fst (fst (should_trigger_global_aggregation five_sites_store)) = true
  /\ filter unlisted_site
       (local_models (fst (aggregate_models 0 true five_sites_store)))
     = filter unlisted_site (local_models five_sites_store)
  /\ In "PHC_5" (snd (should_trigger_global_aggregation five_sites_store)).
Proof.
  destruct (aggregation_limited_to_listed_sites 0 true five_sites_store)
    as (_ & _ & _ & Hkeep & _ & Hcount).
  split; [reflexivity|]. split.
  - apply Hkeep. vm_compute.
    repeat (constructor; [simpl; intuition discriminate|]). constructor.
  - apply (Hcount (example_local_model 3 "PHC_5" 1 (85 # 100) 100 30 false)).
    + vm_compute. auto.
    + reflexivity.
Defined.

(** ** Local trainer *)

Lemma bind_ok {A B : Type} (c : pyresult A) (k : A -> pyresult B) (b : B) :
  bind c k = Ok b -> exists a, c = Ok a /\ k a = Ok b.
Proof. destruct c as [a|msg]; simpl; [eauto | discriminate]. Qed.

(** The checks that precede the leakage guard and the class count. *)
Lemma train_local_model_validated (ml : MLBackend) (X : matrix) (y : list string)
    (feature_columns : list string) :
  (10 <= length X)%nat ->
  length X = length y ->
  existsb (existsb is_nan) X || existsb (existsb is_inf) X = false ->
  train_local_model ml X y feature_columns =
    if existsb (String.eqb "diagnosis") feature_columns
    then TrainError msg_data_leakage (length X)
    else if (length (np_unique y) <? 2)%nat
    then TrainError msg_single_class (length X)
    else match train_local_model_body ml X y feature_columns (np_unique y) with
         | Ok outcome => outcome
         | Raise msg => TrainError ("Model training failed: " ++ msg) (length X)
         end.
Proof.
  intros Hn Hlen Hfin. unfold train_local_model.
  assert (H10 : (length X <? 10)%nat = false) by (apply Nat.ltb_ge; exact Hn).
  rewrite H10. rewrite <- Hlen, Nat.eqb_refl. simpl negb. cbv iota.
  rewrite Hfin. reflexivity.
Qed.

(** C2, what the code does.  The leakage guard compares the feature names with
    the literal ["diagnosis"] only.  On validated input whose feature list names
    the label column [disease_label] (and not ["diagnosis"]) the guard does not
    fire: with at least two classes the trainer goes on to scale, split and fit,
    and with the toy backend it returns a fitted model whose feature list still
    contains the label column. *)
Theorem label_column_passes_leakage_guard (ml : MLBackend) (X : matrix)
    (y : list string) (feature_columns : list string) :
  (10 <= length X)%nat ->
  length X = length y ->
  existsb (existsb is_nan) X || existsb (existsb is_inf) X = false ->
  (2 <= length (np_unique y))%nat ->
  In "disease_label" feature_columns ->
  ~ In "diagnosis" feature_columns ->
  train_local_model ml X y feature_columns <> TrainError msg_data_leakage (length X)
  /\ train_local_model ml X y feature_columns =
       match train_local_model_body ml X y feature_columns (np_unique y) with
       | Ok outcome => outcome
       | Raise msg => TrainError ("Model training failed: " ++ msg) (length X)
       end.
Proof.
  intros Hn Hlen Hfin Hcls Hlabel Hdiag.
  rewrite (train_local_model_validated ml X y feature_columns Hn Hlen Hfin).
  assert (Hg : existsb (String.eqb "diagnosis") feature_columns = false).
  { destruct (existsb _ feature_columns) eqn:E; [|reflexivity].
    apply existsb_eqb_In in E. contradiction. }
  assert (H2 : (length (np_unique y) <? 2)%nat = false)
    by (apply Nat.ltb_ge; exact Hcls).
  rewrite Hg, H2. split; [|reflexivity].
  unfold train_local_model_body.
  destruct (scaler_fit_transform ml X) as [X_scaled|msg]; simpl;
    [|intro H; inversion H].
  destruct (train_test_split ml X_scaled _ _ _) as [split|msg]; simpl;
    [|intro H; inversion H].
  destruct (length (sp_X_test split) =? 0)%nat; [intro H; inversion H|].
  repeat match goal with
         | |- context [bind ?c _] => destruct c as [?|?]; simpl
         end; intro H; inversion H.
Qed.

Lemma label_column_passes_leakage_guard_witness :
  exists md,
    train_local_model toy_backend leakage_example_X leakage_example_y
      ["fever"; "disease_label"] = TrainOk md
    /\ md_feature_columns md = ["fever"; "disease_label"].
Proof.
  destruct (label_column_passes_leakage_guard toy_backend leakage_example_X
              leakage_example_y ["fever"; "disease_label"]) as [_ Heq].
  - vm_compute. lia.
  - reflexivity.
  - reflexivity.
  - vm_compute. lia.
  - simpl. auto.
  - simpl. intros [H|[H|[]]]; discriminate.
  - rewrite Heq.
    set (b := train_local_model_body _ _ _ _ _). vm_compute in b. subst b.
    cbv beta iota. eexists. split; reflexivity.
Defined.

(** The guard does fire on the literal name it looks for. *)
Lemma diagnosis_column_rejected (ml : MLBackend) (X : matrix) (y : list string)
    (feature_columns : list string) :
  (10 <= length X)%nat ->
  length X = length y ->
  existsb (existsb is_nan) X || existsb (existsb is_inf) X = false ->
  In "diagnosis" feature_columns ->
  train_local_model ml X y feature_columns = TrainError msg_data_leakage (length X).
Proof.
  intros Hn Hlen Hfin Hin.
  rewrite (train_local_model_validated ml X y feature_columns Hn Hlen Hfin).
  apply existsb_eqb_In in Hin. rewrite Hin. reflexivity.
Qed.

(** A model returned by the trainer was fit on the training part of the 70/30
    split and carries both parts. *)
Lemma train_local_model_split (ml : MLBackend) (X : matrix) (y : list string)
    (feature_columns : list string) (md : ModelData ml) :
  train_local_model ml X y feature_columns = TrainOk md ->
  exists X_scaled stratify split,
    scaler_fit_transform ml X = Ok X_scaled
    /\ train_test_split ml X_scaled (label_encode (np_unique y) y) (3 # 10) stratify
         = Ok split
    /\ md_X_test md = sp_X_test split /\ md_y_test md = sp_y_test split
    /\ md_X_train md = sp_X_train split /\ md_y_train md = sp_y_train split
    /\ md_label_classes md = np_unique y
    /\ sp_X_test split <> [].
Proof.
  unfold train_local_model.
  destruct (length X <? 10)%nat; [discriminate|].
  destruct (negb (length X =? length y)%nat); [discriminate|].
  destruct (existsb (existsb is_nan) X || existsb (existsb is_inf) X);
    [discriminate|].
  destruct (existsb (String.eqb "diagnosis") feature_columns); [discriminate|].
  destruct (length (np_unique y) <? 2)%nat; [discriminate|].
  destruct (train_local_model_body ml X y feature_columns (np_unique y))
    as [outcome|msg] eqn:E; [|discriminate].
  intros ->. unfold train_local_model_body in E.
  apply bind_ok in E. destruct E as (X_scaled & HX & E).
  apply bind_ok in E. destruct E as (split & Hs & E).
  destruct (length (sp_X_test split) =? 0)%nat eqn:Ht; [discriminate|].
  apply bind_ok in E. destruct E as (sw & _ & E).
  apply bind_ok in E. destruct E as (model & _ & E).
  apply bind_ok in E. destruct E as (cv & _ & E).
  apply bind_ok in E. destruct E as (bin & _ & E).
  injection E as <-. simpl.
  eexists. eexists. exists split.
  split; [exact HX|]. split; [exact Hs|].
  repeat (split; [reflexivity|]).
  intro Hnil. rewrite Hnil in Ht. discriminate.
Qed.

(** What the evaluator reports: the test accuracy is the accuracy on the test
    split, the train accuracy the one on the training split, each to four
    decimals. *)
Lemma evaluate_model_body_accuracy (ml : MLBackend) (md : ModelData ml)
    (r : EvalResult) :
  evaluate_model_body ml md = Ok r ->
  exists metrics acc_test acc_train,
    r = EvalOk metrics (length (md_y_test md) + length (md_y_train md))
    /\ split_accuracy ml (md_model md) (md_label_classes md)
         (md_X_test md) (md_y_test md) = Ok acc_test
    /\ split_accuracy ml (md_model md) (md_label_classes md)
         (md_X_train md) (md_y_train md) = Ok acc_train
    /\ test_accuracy metrics = py_round acc_test 4
    /\ train_accuracy metrics = py_round acc_train 4.
Proof.
  unfold evaluate_model_body. intro E.
  apply bind_ok in E. destruct E as (y_test_decoded & H1 & E).
  apply bind_ok in E. destruct E as (y_train_decoded & H2 & E).
  apply bind_ok in E. destruct E as (y_pred_test & H3 & E).
  apply bind_ok in E. destruct E as (proba & _ & E).
  apply bind_ok in E. destruct E as (y_pred_test_decoded & H4 & E).
  apply bind_ok in E. destruct E as (acc_test & H5 & E).
  apply bind_ok in E. destruct E as (prec & _ & E).
  apply bind_ok in E. destruct E as (rec & _ & E).
  apply bind_ok in E. destruct E as (f1 & _ & E).
  apply bind_ok in E. destruct E as (cm & _ & E).
  apply bind_ok in E. destruct E as (y_pred_train & H6 & E).
  apply bind_ok in E. destruct E as (y_pred_train_decoded & H7 & E).
  apply bind_ok in E. destruct E as (acc_train & H8 & E).
  apply bind_ok in E. destruct E as (tprec & _ & E).
  apply bind_ok in E. destruct E as (trec & _ & E).
  apply bind_ok in E. destruct E as (tf1 & _ & E).
  injection E as <-.
  eexists. exists acc_test, acc_train.
  split; [reflexivity|].
  unfold split_accuracy. rewrite H1, H2, H3, H6. simpl.
  rewrite H4, H7. simpl.
  repeat split; assumption.
Qed.

(** ** The training run *)

Lemma same_model_refl (m : LocalModel) : same_model m m.
Proof. unfold same_model. repeat split. Qed.

Lemma same_model_trans (a b c : LocalModel) :
  same_model a b -> same_model b c -> same_model a c.
Proof.
  unfold same_model. intros Hab Hbc.
  destruct Hab as (A1 & A2 & A3 & A4 & A5 & A6 & A7 & A8 & A9).
  destruct Hbc as (B1 & B2 & B3 & B4 & B5 & B6 & B7 & B8 & B9).
  repeat split; congruence.
Qed.

Lemma mark_aggregated_same (v : Z) (vs : string) (i : nat) (l : list LocalModel)
    (m : LocalModel) :
  In m l -> exists m', In m' (mark_aggregated v vs i l) /\ same_model m m'.
Proof.
  intro Hin. unfold mark_aggregated.
  eexists. split; [apply in_map; exact Hin|].
  destruct (lm_id m =? i)%nat; [|apply same_model_refl].
  unfold same_model. simpl. repeat split.
Qed.

Lemma mark_loop_same (v : Z) (vs : string) (phc_models : list (string * LocalModel))
    (l : list LocalModel) (m : LocalModel) :
  In m l ->
  exists m',
    In m' (fold_left (fun l0 e => mark_aggregated v vs (lm_id (snd e)) l0)
             phc_models l)
    /\ same_model m m'.
Proof.
  revert l m. induction phc_models as [|e rest IH]; intros l m Hin; simpl.
  - exists m. split; [exact Hin | apply same_model_refl].
  - destruct (mark_aggregated_same v vs (lm_id (snd e)) l m Hin) as (m1 & H1 & S1).
    destruct (IH _ m1 H1) as (m2 & H2 & S2).
    exists m2. split; [exact H2|]. eapply same_model_trans; eassumption.
Qed.

(** The automatic aggregation keeps every local model, up to the marks. *)
Lemma try_automatic_aggregation_keeps (now : Z) (s : Store) (m : LocalModel) :
  In m (local_models s) ->
  exists m', In m' (local_models (fst (try_automatic_aggregation now s)))
             /\ same_model m m'.
Proof.
  intro Hin. rewrite try_automatic_aggregation_unfold.
  destruct (fst (fst (should_trigger_global_aggregation s))).
  - assert (Hdec : collect_phc_models true s = [] \/ collect_phc_models true s <> []).
    { destruct (collect_phc_models true s);
        [left; reflexivity | right; discriminate]. }
    destruct Hdec as [E|Hne].
    + rewrite (aggregate_models_none now true s E). simpl.
      exists m. split; [exact Hin | apply same_model_refl].
    + destruct (aggregate_models_some now true s Hne)
        as (s' & r & g & Hagg & _ & Hl & _).
      rewrite Hagg. simpl. rewrite Hl. apply mark_loop_same. exact Hin.
  - simpl. exists m. split; [exact Hin | apply same_model_refl].
Qed.

Lemma record_training_completion_local_models (now : Z) (s : Store)
    (phc_id : string) (success : bool) :
  local_models (record_training_completion now s phc_id success) = local_models s.
Proof.
  unfold record_training_completion. destruct (find_metadata s phc_id); reflexivity.
Qed.

Lemma detect_model_drift_local_models (now : Z) (s : Store) (phc_id : string) :
  local_models (fst (detect_model_drift now s phc_id)) = local_models s.
Proof.
  unfold detect_model_drift.
  destruct (first _); [|reflexivity].
  destruct (first _); [|reflexivity].
  simpl. destruct (Qgtb _ 10); reflexivity.
Qed.

Lemma calculate_composite_risk_score_local_models (now : Z) (s : Store)
    (phc_id : string) :
  local_models (fst (calculate_composite_risk_score now s phc_id)) = local_models s.
Proof.
  unfold calculate_composite_risk_score.
  destruct (patients_of s phc_id); reflexivity.
Qed.

Lemma fresh_local_model_id_new (l : list LocalModel) :
  ~ In (fresh_local_model_id l) (map lm_id l).
Proof.
  assert (H : forall i, In i (map lm_id l) ->
                        (i <= fold_right Nat.max 0 (map lm_id l))%nat).
  { induction l as [|m l IH]; simpl; [tauto|].
    intros i [<-|Hi]; [lia|]. specialize (IH i Hi). lia. }
  intro Hin. apply H in Hin. unfold fresh_local_model_id in Hin. lia.
Qed.

Lemma preprocess_data_columns (pts : list Patient) (feature_columns : list string)
    (X : matrix) (y features : list string) :
  preprocess_data pts feature_columns = Ok (X, y, features) ->
  features = feature_columns /\ y = map pt_disease_label pts.
Proof.
  unfold preprocess_data. intro E. apply bind_ok in E.
  destruct E as (X' & _ & E). injection E as _ <- <-. split; reflexivity.
Qed.

(** C1.  On a training run that succeeds, the trainer has returned a model
    together with the 70/30 split it was fit on ([test_size = 0.3]); the
    accuracy written to the new LocalModel and returned in the result is the
    accuracy of the model's predictions on the test part against the test
    labels, recorded to four decimals (so within 0.00005 of it); the accuracy on
    the training part goes to the separate train-accuracy fields.  The new
    document has a fresh id and is in the store when the run returns. *)
Theorem stored_accuracy_is_test_accuracy (ml : MLBackend) (now : Z) (s : Store)
    (phc_id trigger_reason : string) :
  tr_error (snd (train_federated_model ml now s phc_id trigger_reason)) = None ->
  exists X y md acc_test acc_train lm,
    preprocess_data (patients_of s phc_id) training_feature_columns
      = Ok (X, y, training_feature_columns)
    /\ train_local_model ml X y training_feature_columns = TrainOk md
    /\ (exists X_scaled stratify split,
          scaler_fit_transform ml X = Ok X_scaled
          /\ train_test_split ml X_scaled (label_encode (np_unique y) y) (3 # 10)
               stratify = Ok split
          /\ md_X_test md = sp_X_test split /\ md_y_test md = sp_y_test split
          /\ md_X_train md = sp_X_train split /\ md_y_train md = sp_y_train split)
    /\ split_accuracy ml (md_model md) (md_label_classes md)
         (md_X_test md) (md_y_test md) = Ok acc_test
    /\ split_accuracy ml (md_model md) (md_label_classes md)
         (md_X_train md) (md_y_train md) = Ok acc_train
    /\ In lm (local_models
                (fst (train_federated_model ml now s phc_id trigger_reason)))
    /\ ~ In (lm_id lm) (map lm_id (local_models s))
    /\ tr_update_id (snd (train_federated_model ml now s phc_id trigger_reason))
         = Some (lm_id lm)
    /\ lm_phc_id lm = phc_id
    /\ lm_accuracy lm = py_round acc_test 4
    /\ tr_accuracy (snd (train_federated_model ml now s phc_id trigger_reason))
         = py_round acc_test 4
    /\ Qabs (lm_accuracy lm - acc_test) <= 1 # 20000
    /\ lm_train_accuracy lm = py_round acc_train 4
    /\ tr_train_accuracy
         (snd (train_federated_model ml now s phc_id trigger_reason))
         = Some (py_round acc_train 4).
Proof.
  unfold train_federated_model.
  destruct (patients_of s phc_id) as [|p0 pts0] eqn:Epts; [discriminate|].
  destruct (preprocess_data (p0 :: pts0) training_feature_columns)
    as [[[X y] features]|msg] eqn:Epre; [|discriminate].
  destruct (preprocess_data_columns _ _ _ _ _ Epre) as [-> _].
  destruct (length X =? 0)%nat; [discriminate|].
  destruct (train_local_model ml X y training_feature_columns)
    as [error n|md] eqn:Etrain; [discriminate|].
  unfold evaluate_model.
  destruct (evaluate_model_body ml md) as [r|msg] eqn:Eev; [|discriminate].
  destruct (evaluate_model_body_accuracy ml md r Eev)
    as (metrics & acc_test & acc_train & -> & Htest & Htrain & Hmt & Hmtr).
  set (local_model := new_local_model now s phc_id trigger_reason metrics _).
  set (s1 := set_local_models s (local_models s ++ [local_model])%list).
  set (s2 := record_training_completion now s1 phc_id true).
  pose proof (detect_model_drift_local_models now s2 phc_id) as Hl3.
  destruct (detect_model_drift now s2 phc_id) as [s3 drift_result].
  pose proof (calculate_composite_risk_score_local_models now s3 phc_id) as Hl4.
  destruct (calculate_composite_risk_score now s3 phc_id) as [s4 risk_result].
  assert (Hin4 : In local_model (local_models s4)).
  { simpl in Hl3, Hl4. rewrite Hl4, Hl3. unfold s2.
    rewrite record_training_completion_local_models. unfold s1. simpl.
    apply in_or_app. right. left. reflexivity. }
  destruct (try_automatic_aggregation_keeps now s4 local_model Hin4)
    as (lm & Hlm & Hsame).
  destruct (try_automatic_aggregation now s4) as [s5 agg]. simpl in Hlm.
  intros _. simpl fst. simpl snd.
  destruct Hsame as (Sid & Sphc & _ & _ & Sacc & _ & _ & _ & Stacc).
  exists X, y, md, acc_test, acc_train, lm.
  split; [reflexivity|]. split; [exact Etrain|].
  split.
  { destruct (train_local_model_split ml X y _ md Etrain)
      as (X_scaled & stratify & split & H1 & H2 & H3 & H4 & H5 & H6 & _).
    exists X_scaled, stratify, split. repeat split; assumption. }
  split; [exact Htest|]. split; [exact Htrain|]. split; [exact Hlm|].
  split; [rewrite Sid; apply fresh_local_model_id_new|].
  split; [simpl; rewrite Sid; reflexivity|].
  split; [rewrite Sphc; reflexivity|].
  split; [rewrite Sacc; exact Hmt|].
  split; [simpl; exact Hmt|].
  split.
  { rewrite Sacc. simpl. rewrite Hmt.
    apply (Qle_trans _ _ _ (py_round_close acc_test 4)). vm_compute. discriminate. }
  split; [rewrite Stacc; exact Hmtr|].
  simpl. rewrite Hmtr. reflexivity.
Qed.

Lemma stored_accuracy_is_test_accuracy_witness :
  exists lm,
    In lm (local_models
             (fst (train_federated_model toy_backend 0 training_example_store
                     "PHC_1" "manual")))
    /\ lm_accuracy lm == 6667 # 10000
    /\ lm_train_accuracy lm == 4286 # 10000.
Proof.
  destruct (stored_accuracy_is_test_accuracy toy_backend 0 training_example_store
              "PHC_1" "manual")
    as (X & y & md & acc_test & acc_train & lm & _ & _ & _ & _ & _ & Hin & _).
  - reflexivity.
  - exists lm. split; [exact Hin|].
    vm_compute in Hin. destruct Hin as [<-|[]]. split; reflexivity.
Defined.

(** ** Risk hierarchy *)

Lemma min_1_spec (x : Q) : min_1 x == Qmin x 1.
Proof.
  unfold min_1. destruct (Qltb 1 x) eqn:E.
  - apply Qltb_true in E. rewrite Q.min_r; [reflexivity|].
    apply Qlt_le_weak; exact E.
  - apply Qltb_false in E. rewrite Q.min_l; [reflexivity | exact E].
Qed.

Lemma min_1_le (x : Q) : min_1 x <= 1.
Proof. rewrite min_1_spec. apply Q.le_min_r. Qed.

Lemma update_first_some {A : Type} (test : A -> bool) (upd : A -> A) (l l' : list A) :
  update_first test upd l = Some l' ->
  exists old, In old l /\ test old = true /\ In (upd old) l'.
Proof.
  revert l'. induction l as [|x l IH]; intros l' H; simpl in H; [discriminate|].
  destruct (test x) eqn:E.
  - injection H as <-. exists x. split; [left; reflexivity|].
    split; [exact E | left; reflexivity].
  - destruct (update_first test upd l) as [l0|]; [|discriminate].
    injection H as <-. destruct (IH l0 eq_refl) as (old & Hin & Ht & Hu).
    exists old. split; [right; exact Hin|]. split; [exact Ht | right; exact Hu].
Qed.

(** After an upsert the store holds either the updated row or the new one. *)
Lemma upsert_risk_score_row (s : Store) (test : RiskScore -> bool)
    (upd : RiskScore -> RiskScore) (fresh : RiskScore) :
  exists row,
    In row (risk_scores (upsert_risk_score s test upd fresh))
    /\ (row = fresh \/ exists old, test old = true /\ row = upd old).
Proof.
  unfold upsert_risk_score.
  destruct (update_first test upd (risk_scores s)) as [l|] eqn:E.
  - destruct (update_first_some test upd _ l E) as (old & _ & Ht & Hin).
    exists (upd old). split; [exact Hin|]. right. exists old. auto.
  - exists fresh. split; [|left; reflexivity].
    simpl. apply in_or_app. right. left. reflexivity.
Qed.

Lemma upsert_risk_score_patients (s : Store) (test : RiskScore -> bool)
    (upd : RiskScore -> RiskScore) (fresh : RiskScore) :
  patients (upsert_risk_score s test upd fresh) = patients s.
Proof.
  unfold upsert_risk_score. destruct (update_first _ _ _); reflexivity.
Qed.

Lemma option_string_eqb_eq (a b : option string) :
  option_string_eqb a b = true -> a = b.
Proof.
  destruct a, b; simpl; try discriminate; [|reflexivity].
  intro H. apply String.eqb_eq in H. congruence.
Qed.

Lemma calculate_phc_risk_score_patients (now : Z) (s : Store) (phc_id : string)
    (w : Z) :
  patients (fst (calculate_phc_risk_score now s phc_id w)) = patients s.
Proof.
  unfold calculate_phc_risk_score.
  destruct (length _ =? 0)%nat; [reflexivity|]. simpl.
  apply upsert_risk_score_patients.
Qed.

(** The site result depends on the patient records only. *)
Lemma calculate_phc_risk_score_result (now : Z) (s s' : Store) (phc_id : string)
    (w : Z) :
  patients s = patients s' ->
  snd (calculate_phc_risk_score now s phc_id w)
  = snd (calculate_phc_risk_score now s' phc_id w).
Proof.
  intro H. unfold calculate_phc_risk_score, patients_in_window. rewrite H.
  destruct (length _ =? 0)%nat; reflexivity.
Qed.

Lemma collect_phc_risks_results (now : Z) (s : Store) (phc_ids : list string)
    (w : Z) :
  snd (collect_phc_risks now s phc_ids w)
  = map (fun phc_id => snd (calculate_phc_risk_score now s phc_id w)) phc_ids.
Proof.
  revert s. induction phc_ids as [|p rest IH]; intro s; simpl; [reflexivity|].
  pose proof (calculate_phc_risk_score_patients now s p w) as Hp.
  destruct (calculate_phc_risk_score now s p w) as [s1 d] eqn:E1. simpl in Hp.
  specialize (IH s1).
  destruct (collect_phc_risks now s1 rest w) as [s2 ds]. simpl in *.
  rewrite IH. f_equal. apply map_ext. intro q.
  apply calculate_phc_risk_score_result. exact Hp.
Qed.

Lemma Qnat_plus (a b : nat) : Qnat (a + b) == Qnat a + Qnat b.
Proof. unfold Qnat. rewrite Nat2Z.inj_add, inject_Z_plus. reflexivity. Qed.

Lemma total_patient_count_acc (l : list PhcRisk) (a : nat) :
  fold_left (fun acc d => (acc + pr_patient_count d)%nat) l a
  = (a + total_patient_count l)%nat.
Proof.
  unfold total_patient_count. revert a.
  induction l as [|d l IH]; intro a; simpl; [lia|].
  rewrite (IH (a + pr_patient_count d)%nat), (IH (pr_patient_count d)). lia.
Qed.

Lemma total_patient_count_Qsum (l : list PhcRisk) :
  Qnat (total_patient_count l) == Qsum (map (fun d => Qnat (pr_patient_count d)) l).
Proof.
  induction l as [|d l IH]; [reflexivity|].
  unfold total_patient_count. simpl fold_left. rewrite total_patient_count_acc.
  simpl map. rewrite Qsum_cons, <- IH. apply Qnat_plus.
Qed.

Lemma weighted_risk_sum_acc (l : list PhcRisk) (t : nat) (a : Q) :
  fold_left
    (fun city_risk_score d =>
       city_risk_score + pr_phc_risk_score d * (Qnat (pr_patient_count d) / Qnat t))
    l a
  == a + Qsum (map (fun d => pr_phc_risk_score d * Qnat (pr_patient_count d)) l)
         / Qnat t.
Proof.
  revert a. induction l as [|d l IH]; intro a.
  - simpl. unfold Qsum. simpl. unfold Qdiv. ring.
  - simpl fold_left. rewrite IH. simpl map. rewrite Qsum_cons.
    unfold Qdiv. ring.
Qed.

(** The accumulation loop computes the patient-count-weighted average. *)
Lemma weighted_risk_sum_average (l : list PhcRisk) :
  weighted_risk_sum l (total_patient_count l) == weighted_average (risk_weights l).
Proof.
  unfold weighted_risk_sum. rewrite weighted_risk_sum_acc.
  unfold weighted_average, risk_weights. rewrite !map_map. simpl.
  rewrite total_patient_count_Qsum. ring.
Qed.

Lemma site_risk_formula (now : Z) (s : Store) (phc_id : string) (w : Z) :
  let pts := patients_in_window now s phc_id w in
  let n := length pts in
  let high := count_if (fun p => String.eqb (pt_severity_level p) "High") pts in
  let diseased :=
    count_if (fun p => negb (String.eqb (pt_disease_label p) "Healthy")) pts in
  pts <> [] ->
  exists s' r row,
    calculate_phc_risk_score now s phc_id w = (s', r)
    /\ In row (risk_scores s')
    /\ rs_phc_id row = Some phc_id
    /\ rs_phc_risk_score row
       == site_risk_spec (Qnat high / Qnat n) (Qnat diseased / Qnat n)
            (Qnat diseased / Qnat n)
    /\ rs_phc_risk_score row <= 1
    /\ rs_outbreak_flag_percentage row = percentage diseased n
    /\ rs_disease_prevalence_percentage row = percentage diseased n
    /\ pr_phc_risk_score r = py_round (rs_phc_risk_score row) 4
    /\ pr_patient_count r = n.
Proof.
  intros pts n high diseased Hne. unfold calculate_phc_risk_score.
  fold pts. fold n.
  assert (Hn : (n =? 0)%nat = false).
  { apply Nat.eqb_neq. unfold n. destruct pts; [contradiction | discriminate]. }
  rewrite Hn. fold high. fold diseased.
  set (score := min_1 _).
  match goal with
  | |- context [upsert_risk_score s ?t ?u ?f] =>
      destruct (upsert_risk_score_row s t u f) as (row & Hin & Hrow)
  end.
  eexists. eexists. exists row.
  split; [reflexivity|]. split; [exact Hin|].
  assert (Hscore : score == site_risk_spec (Qnat high / Qnat n)
                              (Qnat diseased / Qnat n) (Qnat diseased / Qnat n)).
  { unfold score. rewrite min_1_spec. unfold site_risk_spec.
    apply Q.min_compat; [|reflexivity].
    generalize (Qnat high / Qnat n), (Qnat diseased / Qnat n). intros x y. field. }
  destruct Hrow as [->|(old & Ht & ->)]; simpl.
  - repeat (split; [first [reflexivity | exact Hscore | apply min_1_le]|]).
    reflexivity.
  - apply andb_true_iff in Ht. destruct Ht as [Ht _].
    apply andb_true_iff in Ht. destruct Ht as [Ht _].
    apply option_string_eqb_eq in Ht.
    split; [exact Ht|].
    repeat (split; [first [reflexivity | exact Hscore | apply min_1_le]|]).
    reflexivity.
Qed.

Lemma city_risk_formula (now : Z) (s : Store) (city : string) (w : Z) :
  let phc_ids := sites_of_city city in
  let phc_risks :=
    map (fun phc_id => snd (calculate_phc_risk_score now s phc_id w)) phc_ids in
  phc_ids <> [] ->
  total_patient_count phc_risks <> 0%nat ->
  exists s' r row,
    calculate_city_risk_score now s city w = (s', CityScore r)
    /\ In row (risk_scores s')
    /\ rs_city row = Some city /\ rs_phc_id row = None
    /\ rs_city_risk_score row == Qmin (weighted_average (risk_weights phc_risks)) 1
    /\ ci_city_risk_score r = py_round (rs_city_risk_score row) 4
    /\ ci_phc_breakdown r = phc_risks
    /\ ci_total_patients r = total_patient_count phc_risks.
Proof.
  intros phc_ids phc_risks Hne Htot. unfold calculate_city_risk_score.
  fold (sites_of_city city). fold phc_ids.
  destruct phc_ids as [|p0 rest0] eqn:Eids; [contradiction|]. rewrite <- Eids.
  pose proof (collect_phc_risks_results now s phc_ids w) as Hres.
  destruct (collect_phc_risks now s phc_ids w) as [s1 risks]. simpl in Hres.
  assert (Hrisks : risks = phc_risks) by (rewrite Hres, Eids; reflexivity).
  rewrite Hrisks.
  assert (Hnil : match phc_risks with [] => true | _ :: _ => false end = false)
    by reflexivity.
  rewrite Hnil. apply Nat.eqb_neq in Htot. rewrite Htot. simpl orb. cbv iota.
  set (score := min_1 _).
  match goal with
  | |- context [upsert_risk_score s1 ?t ?u ?f] =>
      destruct (upsert_risk_score_row s1 t u f) as (row & Hin & Hrow)
  end.
  eexists. eexists. exists row.
  split; [reflexivity|]. split; [exact Hin|].
  assert (Hscore : score == Qmin (weighted_average (risk_weights phc_risks)) 1).
  { unfold score. rewrite min_1_spec. apply Q.min_compat; [|reflexivity].
    apply weighted_risk_sum_average. }
  destruct Hrow as [->|(old & Ht & ->)]; simpl.
  - repeat (split; [first [reflexivity | exact Hscore]|]). reflexivity.
  - apply andb_true_iff in Ht. destruct Ht as [Ht _].
    apply andb_true_iff in Ht. destruct Ht as [Ht Hphc].
    apply andb_true_iff in Ht. destruct Ht as [Hcity _].
    apply option_string_eqb_eq in Hcity, Hphc.
    split; [exact Hcity|]. split; [exact Hphc|].
    repeat (split; [first [reflexivity | exact Hscore]|]). reflexivity.
Qed.

(** C9.  For a site with at least one patient in the window, the stored site
    risk is [0.4 * high-severity fraction + 0.3 * f + 0.3 * f] capped at 1, where
    [f] is the fraction of patients whose label is not 'Healthy' (stored both as
    the outbreak-flag and as the disease-prevalence percentage); the site result
    reports it to four decimals.  For a city with patients, the stored city
    risk is the patient-count-weighted average of the risks its site results
    report, capped at 1, and is reported to four decimals.  Site results with
    30 and 70 patients and risks 0.2 and 0.6 give city risk 0.48. *)
Theorem risk_hierarchy_formulas (now : Z) (s : Store) (w : Z) :
  (forall phc_id,
     let pts := patients_in_window now s phc_id w in
     let n := length pts in
     let high := count_if (fun p => String.eqb (pt_severity_level p) "High") pts in
     let diseased :=
       count_if (fun p => negb (String.eqb (pt_disease_label p) "Healthy")) pts in
     pts <> [] ->
     exists s' r row,
       calculate_phc_risk_score now s phc_id w = (s', r)
       /\ In row (risk_scores s')
       /\ rs_phc_id row = Some phc_id
       /\ rs_phc_risk_score row
          == site_risk_spec (Qnat high / Qnat n) (Qnat diseased / Qnat n)
               (Qnat diseased / Qnat n)
       /\ rs_phc_risk_score row <= 1
       /\ rs_outbreak_flag_percentage row = percentage diseased n
       /\ rs_disease_prevalence_percentage row = percentage diseased n
       /\ pr_phc_risk_score r = py_round (rs_phc_risk_score row) 4
       /\ pr_patient_count r = n)
  /\ (forall city,
        let phc_ids := sites_of_city city in
        let phc_risks :=
          map (fun phc_id => snd (calculate_phc_risk_score now s phc_id w))
              phc_ids in
        phc_ids <> [] ->
        total_patient_count phc_risks <> 0%nat ->
        exists s' r row,
          calculate_city_risk_score now s city w = (s', CityScore r)
          /\ In row (risk_scores s')
          /\ rs_city row = Some city /\ rs_phc_id row = None
          /\ rs_city_risk_score row
             == Qmin (weighted_average (risk_weights phc_risks)) 1
          /\ rs_city_risk_score row <= 1
          /\ ci_city_risk_score r = py_round (rs_city_risk_score row) 4
          /\ ci_phc_breakdown r = phc_risks
          /\ (Forall2 (fun d t => pr_patient_count d = fst t
                                  /\ pr_phc_risk_score d == snd t)
                      phc_risks [(30%nat, 2 # 10); (70%nat, 6 # 10)] ->
              rs_city_risk_score row == 48 # 100
              /\ ci_city_risk_score r == 48 # 100)).
Proof.
  split.
  - intro phc_id. apply site_risk_formula.
  - intros city phc_ids phc_risks Hne Htot.
    destruct (city_risk_formula now s city w Hne Htot)
      as (s' & r & row & Hc & Hin & Hcity & Hphc & Hscore & Hr & Hb & Ht).
    fold phc_ids in Hscore, Hb, Ht. fold phc_risks in Hscore, Hb, Ht.
    exists s', r, row.
    repeat (split; [assumption|]).
    split; [rewrite Hscore; apply Q.le_min_r|].
    split; [exact Hr|]. split; [exact Hb|].
    intro Hex.
    assert (H48 : rs_city_risk_score row == 48 # 100).
    { rewrite Hscore. unfold weighted_average, risk_weights.
      inversion Hex as [|d1 t1 l1 l1' [Hn1 Hr1] Hex1]; subst.
      inversion Hex1 as [|d2 t2 l2 l2' [Hn2 Hr2] Hex2]; subst.
      inversion Hex2; subst.
      simpl in *. unfold Qsum. simpl.
      rewrite Hn1, Hn2, Hr1, Hr2. reflexivity. }
    split; [exact H48|].
    rewrite Hr, (py_round_comp _ _ 4 H48). reflexivity.
Qed.

Lemma risk_hierarchy_formulas_witness :
  (exists s' r,
     calculate_phc_risk_score 0 city_example_store "PHC_1" 7 = (s', r)
     /\ pr_phc_risk_score r == 2 # 10 /\ pr_patient_count r = 30%nat)
  /\ exists s' r,
       calculate_city_risk_score 0 city_example_store "Pollachi" 7
         = (s', CityScore r)
       /\ ci_city_risk_score r == 48 # 100
       /\ map pr_patient_count (ci_phc_breakdown r) = [30; 70]%nat.
Proof.
  split.
  - destruct (proj1 (risk_hierarchy_formulas 0 city_example_store 7) "PHC_1")
      as (s' & r & row & Hc & _ & _ & Hrisk & _ & _ & _ & Hr & Hn).
    + vm_compute. discriminate.
    + exists s', r. split; [exact Hc|]. split; [|exact Hn].
      rewrite Hr.
      assert (H : rs_phc_risk_score row == 2 # 10)
        by (rewrite Hrisk; vm_compute; reflexivity).
      rewrite (py_round_comp _ _ 4 H). reflexivity.
  - destruct (proj2 (risk_hierarchy_formulas 0 city_example_store 7) "Pollachi")
      as (s' & r & row & Hc & _ & _ & _ & _ & _ & _ & Hb & Hex).
    + vm_compute. discriminate.
    + vm_compute. discriminate.
    + exists s', r. split; [exact Hc|]. split.
      * apply Hex.
        repeat (constructor; [split; reflexivity|]). constructor.
      * rewrite Hb. reflexivity.
Defined.

(** ** Outbreak detector *)

Lemma add_to_day_dates (date fever : Z) (l : list (Z * Z)) (d : Z) :
  In d (map fst (add_to_day date fever l)) <-> d = date \/ In d (map fst l).
Proof.
  induction l as [|[d0 c0] l IH]; simpl.
  - intuition.
  - destruct (date <? d0)%Z; simpl; [intuition|].
    destruct (date =? d0)%Z eqn:E; simpl.
    + apply Z.eqb_eq in E. subst. intuition.
    + rewrite IH. intuition.
Qed.

Lemma add_to_day_sorted (date fever : Z) (l : list (Z * Z)) :
  StronglySorted Z.lt (map fst l) ->
  StronglySorted Z.lt (map fst (add_to_day date fever l)).
Proof.
  induction l as [|[d0 c0] l IH]; simpl; intro Hs.
  - constructor; constructor.
  - inversion Hs as [|? ? Hs' Hall]; subst.
    destruct (date <? d0)%Z eqn:E1; simpl.
    + apply Z.ltb_lt in E1. constructor; [exact Hs|].
      constructor; [exact E1|].
      eapply Forall_impl; [|exact Hall]. intros; lia.
    + destruct (date =? d0)%Z eqn:E2; simpl.
      * constructor; assumption.
      * apply Z.ltb_ge in E1. apply Z.eqb_neq in E2.
        constructor; [apply IH; exact Hs'|].
        apply Forall_forall. intros d Hd. apply add_to_day_dates in Hd.
        destruct Hd as [->|Hd]; [lia|].
        rewrite Forall_forall in Hall. apply Hall. exact Hd.
Qed.

Lemma add_to_day_fever_on (date fever : Z) (l : list (Z * Z)) (d : Z) :
  StronglySorted Z.lt (map fst l) ->
  fever_on d (add_to_day date fever l)
  = ((if (date =? d)%Z then fever else 0) + fever_on d l)%Z.
Proof.
  induction l as [|[d0 c0] l IH]; simpl; intro Hs.
  - destruct (date =? d)%Z; lia.
  - inversion Hs as [|? ? Hs' Hall]; subst.
    destruct (date <? d0)%Z eqn:E1; simpl.
    + destruct (date =? d)%Z; lia.
    + destruct (date =? d0)%Z eqn:E2; simpl.
      * apply Z.eqb_eq in E2. subst d0.
        destruct (date =? d)%Z; lia.
      * rewrite (IH Hs'). destruct (d0 =? d)%Z; lia.
Qed.

(** X25.  The bucketed series has one row per calendar day that has a
    patient, in date order, and each row holds the sum of that day's fever
    flags. *)
Lemma daily_fever_counts_spec (pts : list Patient) :
  StronglySorted Z.lt (map fst (daily_fever_counts pts))
  /\ (forall d, In d (map fst (daily_fever_counts pts)) <->
                exists p, In p pts /\ day_of (pt_created_at p) = d)
  /\ (forall d, fever_on d (daily_fever_counts pts) = fever_sum_on d pts).
Proof.
  unfold daily_fever_counts.
  assert (H : forall acc,
    StronglySorted Z.lt (map fst acc) ->
    let r := fold_left
               (fun acc p => add_to_day (day_of (pt_created_at p)) (pt_fever p) acc)
               pts acc in
    StronglySorted Z.lt (map fst r)
    /\ (forall d, In d (map fst r) <->
                  In d (map fst acc)
                  \/ exists p, In p pts /\ day_of (pt_created_at p) = d)
    /\ (forall d, fever_on d r = (fever_on d acc + fever_sum_on d pts)%Z)).
  { induction pts as [|p pts IH]; intros acc Hs; simpl.
    - split; [exact Hs|]. split; [|intro; lia].
      intro d. split; [auto|]. intros [H|(p & [] & _)]. exact H.
    - pose proof (add_to_day_sorted (day_of (pt_created_at p)) (pt_fever p) acc Hs)
        as Hs1.
      destruct (IH _ Hs1) as (I1 & I2 & I3).
      split; [exact I1|]. split.
      + intro d. rewrite I2, add_to_day_dates. split.
        * intros [[->|H]|(q & Hq & Hd)]; eauto.
        * intros [H|(q & [<-|Hq] & Hd)]; eauto.
      + intro d. rewrite I3, add_to_day_fever_on by exact Hs.
        destruct (day_of (pt_created_at p) =? d)%Z; lia. }
  destruct (H [] (SSorted_nil _)) as (H1 & H2 & H3).
  split; [exact H1|]. split.
  - intro d. rewrite H2. simpl. intuition.
  - intro d. rewrite H3. reflexivity.
Qed.

Lemma rolling_mean_dropna_short (w : nat) (l : list Q) :
  (length l < w)%nat -> rolling_mean_dropna w l = [].
Proof.
  intro H. destruct l as [|x l]; simpl; [reflexivity|].
  assert (E : (w <=? length (x :: l))%nat = false) by (apply Nat.leb_gt; exact H).
  simpl in E. rewrite E, andb_false_r. reflexivity.
Qed.

(** Entry [i] of the rolling series is the mean of the window of [w] daily
    counts that starts at day [i]. *)
Lemma rolling_mean_dropna_nth (w : nat) (l : list Q) (i : nat) :
  (1 <= w)%nat -> (i + w <= length l)%nat ->
  nth_error (rolling_mean_dropna w l) i = Some (Qmean (firstn w (skipn i l))).
Proof.
  intro Hw. revert i. induction l as [|x l IH]; intros i Hi.
  - simpl in Hi. lia.
  - assert (E : ((1 <=? w) && (w <=? length (x :: l)))%nat = true).
    { apply andb_true_iff. split; apply Nat.leb_le; [exact Hw | lia]. }
    change (rolling_mean_dropna w (x :: l))
      with (if ((1 <=? w) && (w <=? length (x :: l)))%nat
            then Qmean (firstn w (x :: l)) :: rolling_mean_dropna w l else []).
    rewrite E. destruct i as [|i].
    + reflexivity.
    + simpl nth_error. simpl skipn. apply IH. simpl in Hi. lia.
Qed.

Lemma rolling_mean_dropna_length (w : nat) (l : list Q) :
  (1 <= w <= length l)%nat ->
  length (rolling_mean_dropna w l) = (length l - w + 1)%nat.
Proof.
  intros [Hw Hl]. induction l as [|x l IH]; [simpl in Hl; lia|].
  assert (E : ((1 <=? w) && (w <=? length (x :: l)))%nat = true).
  { apply andb_true_iff. split; apply Nat.leb_le; assumption. }
  change (rolling_mean_dropna w (x :: l))
    with (if ((1 <=? w) && (w <=? length (x :: l)))%nat
          then Qmean (firstn w (x :: l)) :: rolling_mean_dropna w l else []).
  rewrite E. simpl length.
  destruct (le_lt_dec w (length l)) as [Hle|Hgt].
  - rewrite (IH Hle). lia.
  - rewrite (rolling_mean_dropna_short w l Hgt). cbn [length] in *. lia.
Qed.

(** The guarded division on floats: the quotient is taken only for a standard
    deviation that is a number other than zero. *)
Lemma z_score_f64_cases (latest_fever rolling_mean rolling_std : f64) :
  let z := z_score_f64 latest_fever rolling_mean rolling_std in
  (feqb rolling_std (f64_of_Z 0) = false -> f64_is_nan rolling_std = false ->
   z = fdiv (fsub latest_fever rolling_mean) rolling_std)
  /\ (feqb rolling_std (f64_of_Z 0) = true -> z = f64_of_Z 0)
  /\ (f64_is_nan rolling_std = true -> z = f64_of_Z 0).
Proof.
  cbv zeta. unfold z_score_f64. repeat split.
  - intros H0 Hnan. rewrite H0, Hnan. reflexivity.
  - intros H0. rewrite H0. reflexivity.
  - intros Hnan. rewrite Hnan, orb_true_r. reflexivity.
Qed.

(** C8.  With fewer bucketed days than [lookback_days] the detector reports
    insufficient history and writes no alert.  Otherwise (for a window of zero
    or more days), whatever pandas returns for the rolling series of the daily
    fever counts and for its mean and standard deviation: [z] is
    [(latest - rolling_mean) / rolling_std], computed in binary64, when the
    standard deviation is a number other than zero, and [0] when it is zero or
    NaN, so that nothing is divided by zero; the flag is set exactly when
    [|z| > 2]; an alert is written exactly when the flag is set, HIGH when
    [|z| > 3] and MEDIUM otherwise. *)
Theorem outbreak_detection_rule (pd : PandasBackend) (now : Z) (s : Store)
    (phc_id : string) (lookback_days : Z) :
  let daily_fever := daily_fever_counts (outbreak_patients now s phc_id) in
  let fever_count := map snd daily_fever in
  let rolling_avg :=
    pd_rolling_mean_dropna pd (Z.to_nat lookback_days) fever_count in
  let rolling_mean := pd_mean pd rolling_avg in
  let rolling_std := pd_std pd rolling_avg in
  let latest := f64_of_Z (last fever_count 0%Z) in
  ((Z.of_nat (length daily_fever) < lookback_days)%Z ->
   detect_fever_outbreak_f64 pd now s phc_id lookback_days
     = ([], Outbreak64NoData phc_id)
   \/ detect_fever_outbreak_f64 pd now s phc_id lookback_days
      = ([], Outbreak64InsufficientDays phc_id (length daily_fever)
               lookback_days))
  /\ ((0 <= lookback_days <= Z.of_nat (length daily_fever))%Z ->
      outbreak_patients now s phc_id <> [] ->
      exists written z flag,
        detect_fever_outbreak_f64 pd now s phc_id lookback_days
          = (written,
             Outbreak64Report phc_id flag (py_round_f64 z 4)
               (last fever_count 0%Z) (py_round_f64 rolling_mean 2)
               (length daily_fever))
        /\ (feqb rolling_std (f64_of_Z 0) = false ->
            f64_is_nan rolling_std = false ->
            z = fdiv (fsub latest rolling_mean) rolling_std)
        /\ (feqb rolling_std (f64_of_Z 0) = true -> z = f64_of_Z 0)
        /\ (f64_is_nan rolling_std = true -> z = f64_of_Z 0)
        /\ flag = fltb (f64_of_Z 2) (fabs z)
        /\ (flag = true ->
            exists a, written = [a]
              /\ a64_phc_id a = phc_id
              /\ a64_alert_type a = "FEVER_OUTBREAK"
              /\ a64_risk_score a = fabs z
              /\ (fltb (f64_of_Z 3) (fabs z) = true -> a64_severity a = "HIGH")
              /\ (fltb (f64_of_Z 3) (fabs z) = false ->
                  a64_severity a = "MEDIUM"))
        /\ (flag = false -> written = [])).
Proof.
  cbv zeta. unfold detect_fever_outbreak_f64.
  fold (outbreak_patients now s phc_id).
  destruct (outbreak_patients now s phc_id) as [|p0 pts0].
  { split; [intros _; left; reflexivity | intros _ Hne; contradiction]. }
  set (daily_fever := daily_fever_counts (p0 :: pts0)).
  set (fever_count := map snd daily_fever).
  set (rolling_avg :=
         pd_rolling_mean_dropna pd (Z.to_nat lookback_days) fever_count).
  split.
  - intro Hlt. right. apply Z.ltb_lt in Hlt. rewrite Hlt. reflexivity.
  - intros [H0 Hle] _.
    assert (E1 : (Z.of_nat (length daily_fever) <? lookback_days)%Z = false)
      by (apply Z.ltb_ge; exact Hle).
    assert (E2 : (lookback_days <? 0)%Z = false) by (apply Z.ltb_ge; exact H0).
    rewrite E1, E2.
    set (z := z_score_f64 (f64_of_Z (last fever_count 0%Z))
                (pd_mean pd rolling_avg) (pd_std pd rolling_avg)).
    destruct (z_score_f64_cases (f64_of_Z (last fever_count 0%Z))
                (pd_mean pd rolling_avg) (pd_std pd rolling_avg))
      as (Hz1 & Hz2 & Hz3). fold z in Hz1, Hz2, Hz3.
    eexists. exists z, (fltb (f64_of_Z 2) (fabs z)).
    split; [reflexivity|].
    split; [exact Hz1|]. split; [exact Hz2|]. split; [exact Hz3|].
    split; [reflexivity|].
    split.
    + intro Hf. rewrite Hf. eexists. split; [reflexivity|].
      split; [reflexivity|]. split; [reflexivity|]. split; [reflexivity|].
      cbn [a64_severity outbreak_alert_f64]. split.
      * intro H3. rewrite H3. reflexivity.
      * intro H3. rewrite H3. reflexivity.
    + intro Hf. rewrite Hf. reflexivity.
Qed.

Lemma outbreak_detection_rule_witness :
  detect_fever_outbreak_f64 plain_pandas 0 quiet_example_store "PHC_1" 8
    = ([], Outbreak64InsufficientDays "PHC_1" 7 8)
  /\ (exists z,
        detect_fever_outbreak_f64 plain_pandas 0 quiet_example_store "PHC_1" 7
          = ([], Outbreak64Report "PHC_1" false z 1 (f64_of_Z 1) 7)
        /\ z = f64_of_Z 0)
  /\ (exists a z,
        detect_fever_outbreak_f64 plain_pandas 0 outbreak_example_store "PHC_1" 7
          = ([a], Outbreak64Report "PHC_1" true z 10
                    (f64_of_Q (164 # 100)) 8)
        /\ a64_severity a = "HIGH")
  /\ (exists a z,
        detect_fever_outbreak_f64 plain_pandas 0 level_example_store "PHC_1" 7
          = ([a], Outbreak64Report "PHC_1" true z 0 (f64_of_Q (186 # 100)) 9)
        /\ a64_severity a = "HIGH").
Proof.
  split; [|split; [|split]].
  - destruct (proj1 (outbreak_detection_rule plain_pandas 0 quiet_example_store
                       "PHC_1" 8)) as [H|H].
    + vm_compute. reflexivity.
    + vm_compute in H. discriminate H.
    + exact H.
  - destruct (proj2 (outbreak_detection_rule plain_pandas 0 quiet_example_store
                       "PHC_1" 7))
      as (written & z & flag & Hd & _ & _ & Hnan & Hflag & _ & Hoff).
    + vm_compute. split; discriminate.
    + vm_compute. discriminate.
    + assert (Hz : z = f64_of_Z 0) by (apply Hnan; vm_compute; reflexivity).
      subst z. vm_compute in Hflag. subst flag.
      rewrite (Hoff eq_refl) in Hd.
      exists (py_round_f64 (f64_of_Z 0) 4). split; [exact Hd | reflexivity].
  - destruct (proj2 (outbreak_detection_rule plain_pandas 0 outbreak_example_store
                       "PHC_1" 7))
      as (written & z & flag & Hd & Hz & _ & _ & Hflag & Hon & _).
    + vm_compute. split; discriminate.
    + vm_compute. discriminate.
    + assert (Hz' : z = S754_finite false 5174854483927191 (-49)).
      { rewrite Hz; vm_compute; reflexivity. }
      subst z. vm_compute in Hflag. subst flag.
      destruct (Hon eq_refl) as (a & -> & _ & _ & _ & Hhigh & _).
      exists a. eexists. split; [exact Hd|].
      apply Hhigh. vm_compute. reflexivity.
  - destruct (proj2 (outbreak_detection_rule plain_pandas 0 level_example_store
                       "PHC_1" 7))
      as (written & z & flag & Hd & Hz & _ & _ & Hflag & Hon & _).
    + vm_compute. split; discriminate.
    + vm_compute. discriminate.
    + assert (Hz' : z = S754_finite true 6829036867000012 0).
      { rewrite Hz; vm_compute; reflexivity. }
      subst z. vm_compute in Hflag. subst flag.
      destruct (Hon eq_refl) as (a & -> & _ & _ & _ & Hhigh & _).
      exists a. eexists. split; [exact Hd|].
      apply Hhigh. vm_compute. reflexivity.
Defined.

(** ** The scorer as post-training analytics *)

Lemma record_training_completion_patients (now : Z) (s : Store)
    (phc_id : string) (success : bool) :
  patients (record_training_completion now s phc_id success) = patients s.
Proof.
  unfold record_training_completion. destruct (find_metadata s phc_id); reflexivity.
Qed.

Lemma detect_model_drift_patients (now : Z) (s : Store) (phc_id : string) :
  patients (fst (detect_model_drift now s phc_id)) = patients s.
Proof.
  unfold detect_model_drift.
  destruct (first _); [|reflexivity].
  destruct (first _); [|reflexivity].
  simpl. destruct (Qgtb _ 10); reflexivity.
Qed.

Lemma get_latest_local_model_some (s : Store) (phc_id : string) (m : LocalModel) :
  In m (local_models s) -> lm_phc_id m = phc_id ->
  get_latest_local_model s phc_id <> None.
Proof.
  intros Hin Hphc. unfold get_latest_local_model.
  rewrite order_by_desc_first_none. intro E.
  assert (H : In m (local_models_of s phc_id)).
  { unfold local_models_of. apply filter_In. split; [exact Hin|].
    rewrite Hphc. apply String.eqb_refl. }
  rewrite E in H. destruct H.
Qed.

(** X8.  When the scorer runs after a successful training run the site has a
    local model (the one just written), so the keyword matches are counted:
    the score is the full three-component formula over the site's patients. *)
Lemma post_training_risk_counts_keywords (ml : MLBackend) (now : Z) (s : Store)
    (phc_id trigger_reason : string) :
  tr_error (snd (train_federated_model ml now s phc_id trigger_reason)) = None ->
  let pts := patients_of s phc_id in
  let n := length pts in
  exists r,
    tr_composite_risk_score
      (snd (train_federated_model ml now s phc_id trigger_reason))
      = Some (CompositeScore r)
    /\ exists score,
         cr_risk_score r = py_round score 2
         /\ score == composite_score_spec
                       (percentage (count_if (fun p => (pt_fever p =? 1)%Z) pts) n)
                       (percentage (count_if matches_disease_keyword pts) n)
                       (percentage (count_if abnormal_wbc pts) n).
Proof.
  intros Hok. cbv zeta.
  assert (Hpts : patients_of s phc_id <> []).
  { intro E. unfold train_federated_model in Hok. rewrite E in Hok.
    discriminate. }
  revert Hok. unfold train_federated_model.
  destruct (patients_of s phc_id) as [|p0 pts0] eqn:Epts; [contradiction|].
  destruct (preprocess_data (p0 :: pts0) training_feature_columns)
    as [[[X y] features]|msg]; [|discriminate].
  destruct (length X =? 0)%nat; [discriminate|].
  destruct (train_local_model ml X y features) as [error k|md]; [discriminate|].
  destruct (evaluate_model ml (TrainOk md)) as [e k|e|metrics num_samples];
    [discriminate | discriminate |].
  set (local_model := new_local_model now s phc_id trigger_reason metrics _).
  set (s1 := set_local_models s (local_models s ++ [local_model])%list).
  set (s2 := record_training_completion now s1 phc_id true).
  pose proof (detect_model_drift_local_models now s2 phc_id) as Hl3.
  pose proof (detect_model_drift_patients now s2 phc_id) as Hp3.
  destruct (detect_model_drift now s2 phc_id) as [s3 drift_result].
  simpl in Hl3, Hp3.
  assert (Hpat : patients_of s3 phc_id = p0 :: pts0).
  { rewrite <- Epts. unfold patients_of. rewrite Hp3. unfold s2.
    rewrite record_training_completion_patients. reflexivity. }
  assert (Hmodel : get_latest_local_model s3 phc_id <> None).
  { apply (get_latest_local_model_some s3 phc_id local_model); [|reflexivity].
    rewrite Hl3. unfold s2. rewrite record_training_completion_local_models.
    unfold s1. simpl. apply in_or_app. right. left. reflexivity. }
  assert (Hne3 : patients_of s3 phc_id <> []) by (rewrite Hpat; discriminate).
  destruct (composite_risk_score_value now s3 phc_id Hne3)
    as (s4 & r & a & Hc & _ & _ & Hscore & Hr & _).
  rewrite Hc.
  destruct (try_automatic_aggregation now s4) as [s5 agg].
  intros _. simpl. exists r. split; [reflexivity|].
  exists (al_risk_score a). split; [exact Hr|].
  rewrite Hscore, Hpat.
  destruct (get_latest_local_model s3 phc_id); [reflexivity | contradiction].
Qed.

(** ** One full window only *)

(** X26.  With exactly [lookback_days] bucketed days the rolling series has a
    single entry, its standard deviation is undefined, and the detector
    reports [z = 0] and no outbreak whatever the counts are. *)
Lemma single_window_no_outbreak (fsqrt : Q -> Q) (now : Z) (s : Store)
    (phc_id : string) (lookback_days : Z) :
  let daily_fever := daily_fever_counts (outbreak_patients now s phc_id) in
  (1 <= lookback_days)%Z ->
  Z.of_nat (length daily_fever) = lookback_days ->
  exists latest_count mean_report,
    detect_fever_outbreak fsqrt now s phc_id lookback_days
      = (s, OutbreakReport phc_id false (py_round 0 4) latest_count mean_report
              (length daily_fever)).
Proof.
  intros daily_fever H1 Hn.
  unfold detect_fever_outbreak. fold (outbreak_patients now s phc_id).
  destruct (outbreak_patients now s phc_id) as [|p0 pts0].
  { exfalso. unfold daily_fever in Hn. simpl in Hn. lia. }
  fold daily_fever.
  assert (E1 : (Z.of_nat (length daily_fever) <? lookback_days)%Z = false)
    by (apply Z.ltb_ge; lia).
  assert (E2 : (lookback_days <? 0)%Z = false) by (apply Z.ltb_ge; lia).
  rewrite E1, E2.
  set (fever_count := map (fun e => inject_Z (snd e)) daily_fever).
  assert (Hlen : length (rolling_mean_dropna (Z.to_nat lookback_days) fever_count)
                 = 1%nat).
  { rewrite rolling_mean_dropna_length.
    - unfold fever_count. rewrite length_map. lia.
    - unfold fever_count. rewrite length_map. lia. }
  assert (Hstd : series_std fsqrt
                   (rolling_mean_dropna (Z.to_nat lookback_days) fever_count) = None).
  { unfold series_std. rewrite Hlen. reflexivity. }
  rewrite Hstd.
  assert (Hz : forall m, z_score_of (last fever_count 0) m None = 0)
    by (intro m; reflexivity).
  rewrite Hz. change (Qgtb (Qabs 0) 2) with false. cbv iota.
  eexists. eexists. reflexivity.
Qed.

(** * Further properties of the code *)

(** ** Feature extraction *)

Lemma patient_feature_numeric (p : Patient) (col : string) :
  numeric_column col = true -> patient_feature p col = Ok (numeric_field p col).
Proof.
  unfold numeric_column, numeric_columns. simpl existsb. intro H.
  repeat (apply orb_true_iff in H; destruct H as [H | H];
          [apply String.eqb_eq in H; subst col; reflexivity|]).
  discriminate H.
Qed.

Lemma mapM_map {A B : Type} (f : A -> pyresult B) (g : A -> B) (l : list A) :
  (forall x, In x l -> f x = Ok (g x)) -> mapM f l = Ok (map g l).
Proof.
  induction l as [|x l IH]; intro H; simpl; [reflexivity|].
  rewrite (H x (or_introl eq_refl)), IH; [reflexivity|].
  intros y Hy. apply H. right. exact Hy.
Qed.

Lemma feature_row_ok (p : Patient) (feature_columns : list string) :
  (forall c, In c feature_columns -> numeric_column c = true) ->
  mapM (patient_feature p) feature_columns
    = Ok (map (numeric_field p) feature_columns).
Proof.
  intro Hcols. apply mapM_map. intros c Hc.
  apply patient_feature_numeric, Hcols, Hc.
Qed.

(** X1.  The feature extractor: for feature columns taken among the thirteen
    integer and float fields of the patient record (the twelve training
    columns are such) it returns one row per patient, in the order of the
    patients, each row holding the patient's values of those fields in the
    order of the columns (a stored NaN or infinity included), together with
    the patients' disease labels in the same order and the columns
    themselves. *)
Theorem preprocess_data_shape (pts : list Patient) (feature_columns : list string) :
  (forall c, In c feature_columns -> numeric_column c = true) ->
  preprocess_data pts feature_columns
    = Ok (map (fun p => map (numeric_field p) feature_columns) pts,
          map pt_disease_label pts, feature_columns).
Proof.
  intro Hcols. unfold preprocess_data.
  assert (Hrows : mapM (fun p => mapM (patient_feature p) feature_columns) pts
                  = Ok (map (fun p => map (numeric_field p) feature_columns) pts)).
  { induction pts as [|p pts IH]; simpl; [reflexivity|].
    rewrite (feature_row_ok p feature_columns Hcols). cbn [bind].
    rewrite IH. reflexivity. }
  rewrite Hrows. reflexivity.
Qed.

Lemma training_feature_columns_numeric (c : string) :
  In c training_feature_columns -> numeric_column c = true.
Proof.
  unfold training_feature_columns. simpl.
  intros H. repeat (destruct H as [<-|H]; [reflexivity|]). destruct H.
Qed.

Lemma preprocess_data_shape_witness :
  preprocess_data composite_example_patients training_feature_columns
    = Ok (map (fun p => map (numeric_field p) training_feature_columns)
              composite_example_patients,
          map pt_disease_label composite_example_patients,
          training_feature_columns).
Proof.
  apply (preprocess_data_shape composite_example_patients
           training_feature_columns training_feature_columns_numeric).
Defined.

(** The feature matrix of the training columns. *)
Lemma extract_rows_ok (pts : list Patient) :
  mapM (fun p => mapM (patient_feature p) training_feature_columns) pts
    = Ok (map (fun p => map (numeric_field p) training_feature_columns) pts).
Proof.
  apply mapM_map. intros p _.
  apply feature_row_ok, training_feature_columns_numeric.
Qed.

(** The NaN/Inf check of the trainer on that matrix looks at the two float
    vitals: every other training column is an integer field. *)
Lemma training_matrix_check (pts : list Patient) :
  let X := map (fun p => map (numeric_field p) training_feature_columns) pts in
  existsb (existsb is_nan) X || existsb (existsb is_inf) X
    = existsb vitals_not_finite pts.
Proof.
  cbv zeta. induction pts as [|p pts IH]; [reflexivity|].
  cbn [map existsb]. rewrite <- IH.
  unfold vitals_not_finite, not_finite, training_feature_columns.
  cbn [map existsb numeric_field String.eqb Ascii.eqb Bool.eqb is_nan is_inf orb].
  destruct (is_nan (pt_temperature_c p)), (is_inf (pt_temperature_c p)),
    (is_nan (pt_hemoglobin p)), (is_inf (pt_hemoglobin p));
    cbn [orb];
    destruct (existsb (existsb is_nan) _), (existsb (existsb is_inf) _);
    reflexivity.
Qed.

Lemma preprocess_training_ok (pts : list Patient) :
  exists X,
    preprocess_data pts training_feature_columns
      = Ok (X, map pt_disease_label pts, training_feature_columns)
    /\ length X = length pts
    /\ existsb (existsb is_nan) X || existsb (existsb is_inf) X
       = existsb vitals_not_finite pts.
Proof.
  exists (map (fun p => map (numeric_field p) training_feature_columns) pts).
  unfold preprocess_data. rewrite extract_rows_ok. cbn [bind].
  split; [reflexivity|]. split; [apply length_map|].
  apply training_matrix_check.
Qed.

(** ** Failed training runs *)

(** X5.  A training run that reports an error has written nothing: the store
    is the one it was given (no model version, no metadata change, no alert,
    no aggregation). *)
Theorem failed_training_writes_nothing (ml : MLBackend) (now : Z) (s : Store)
    (phc_id trigger_reason : string) :
  tr_error (snd (train_federated_model ml now s phc_id trigger_reason)) <> None ->
  fst (train_federated_model ml now s phc_id trigger_reason) = s
  /\ tr_version (snd (train_federated_model ml now s phc_id trigger_reason)) = None
  /\ tr_update_id (snd (train_federated_model ml now s phc_id trigger_reason)) = None.
Proof.
  unfold train_federated_model.
  destruct (patients_of s phc_id) as [|p0 pts0]; [repeat split|].
  destruct (preprocess_data (p0 :: pts0) training_feature_columns)
    as [[[X y] features]|msg]; [|repeat split].
  destruct (length X =? 0)%nat; [repeat split|].
  destruct (train_local_model ml X y features) as [error n|md]; [repeat split|].
  destruct (evaluate_model ml (TrainOk md)) as [error n|error|metrics n];
    [repeat split | repeat split |].
  cbv zeta.
  destruct (detect_model_drift _ _ _) as [s3 drift_result].
  destruct (calculate_composite_risk_score _ _ _) as [s4 risk_result].
  destruct (try_automatic_aggregation _ _) as [s5 agg].
  simpl. intro H. exfalso. apply H. reflexivity.
Qed.

Lemma failed_training_writes_nothing_witness :
  fst (train_federated_model toy_backend 0 nine_patients_store "PHC_1" "manual")
    = nine_patients_store.
Proof.
  apply (failed_training_writes_nothing toy_backend 0 nine_patients_store
           "PHC_1" "manual").
  vm_compute. discriminate.
Defined.

(** X3.  A site with fewer than ten patient records is never trained, whatever
    the learning library does: with no record the run reports "No patient data
    available", with one to nine it reports that at least ten samples are
    needed, together with the number of records found; the store is
    unchanged. *)
Theorem too_few_patients_rejected (ml : MLBackend) (now : Z) (s : Store)
    (phc_id trigger_reason : string) :
  (length (patients_of s phc_id) < 10)%nat ->
  train_federated_model ml now s phc_id trigger_reason =
    (s, train_error_report
          (if (length (patients_of s phc_id) =? 0)%nat
           then "No patient data available" else msg_not_enough_data)
          (Z.of_nat (length (patients_of s phc_id))) phc_id trigger_reason).
Proof.
  intro Hlt. unfold train_federated_model.
  destruct (patients_of s phc_id) as [|p0 pts0]; [reflexivity|].
  destruct (preprocess_training_ok (p0 :: pts0)) as (X & HX & Hlen & _).
  rewrite HX.
  replace (length X =? 0)%nat with false
    by (symmetry; apply Nat.eqb_neq; rewrite Hlen; discriminate).
  unfold train_local_model.
  replace (length X <? 10)%nat with true
    by (symmetry; apply Nat.ltb_lt; rewrite Hlen; exact Hlt).
  rewrite Hlen. reflexivity.
Qed.

Lemma too_few_patients_rejected_witness :
  train_federated_model toy_backend 0 nine_patients_store "PHC_1" "manual" =
    (nine_patients_store, train_error_report msg_not_enough_data 9 "PHC_1" "manual").
Proof.
  apply (too_few_patients_rejected toy_backend 0 nine_patients_store "PHC_1" "manual").
  vm_compute. lia.
Defined.

(** ** [np.unique] and the label encoder *)

Lemma string_compare_refl (s : string) : String.compare s s = Eq.
Proof.
  pose proof (String.compare_antisym s s) as H.
  destruct (String.compare s s); [reflexivity | discriminate | discriminate].
Qed.

Lemma ascii_compare_lt_trans (a b c : ascii) :
  Ascii.compare a b = Lt -> Ascii.compare b c = Lt -> Ascii.compare a c = Lt.
Proof.
  unfold Ascii.compare. rewrite !N.compare_lt_iff. apply N.lt_trans.
Qed.

Lemma string_lt_trans (s1 s2 s3 : string) :
  string_lt s1 s2 -> string_lt s2 s3 -> string_lt s1 s3.
Proof.
  unfold string_lt. revert s2 s3.
  induction s1 as [|a s1 IH]; intros [|b s2] [|c s3]; simpl;
    try discriminate; try reflexivity.
  destruct (Ascii.compare a b) eqn:Eab; try discriminate.
  - apply Ascii.compare_eq_iff in Eab. subst b.
    destruct (Ascii.compare a c); try discriminate.
    + apply IH.
    + reflexivity.
  - intros _.
    destruct (Ascii.compare b c) eqn:Ebc; try discriminate.
    + apply Ascii.compare_eq_iff in Ebc. subst c. rewrite Eab. reflexivity.
    + rewrite (ascii_compare_lt_trans a b c Eab Ebc). reflexivity.
Qed.

Lemma string_lt_irrefl (s : string) : ~ string_lt s s.
Proof. unfold string_lt. rewrite string_compare_refl. discriminate. Qed.

Lemma string_compare_gt_lt (x y : string) :
  String.compare x y = Gt -> string_lt y x.
Proof.
  unfold string_lt. intro H. rewrite String.compare_antisym, H. reflexivity.
Qed.

Lemma insert_unique_In (x z : string) (l : list string) :
  In z (insert_unique x l) <-> z = x \/ In z l.
Proof.
  induction l as [|y l IH]; simpl.
  - intuition.
  - destruct (String.compare x y) eqn:E.
    + apply String.compare_eq_iff in E. subst y. simpl. intuition.
    + simpl. intuition.
    + simpl. rewrite IH. intuition.
Qed.

Lemma insert_unique_HdRel (x y : string) (l : list string) :
  string_lt y x -> HdRel string_lt y l -> HdRel string_lt y (insert_unique x l).
Proof.
  intros Hyx Hl. destruct l as [|z l]; simpl.
  - constructor. exact Hyx.
  - inversion Hl; subst.
    destruct (String.compare x z); constructor; assumption.
Qed.

Lemma insert_unique_sorted (x : string) (l : list string) :
  Sorted string_lt l -> Sorted string_lt (insert_unique x l).
Proof.
  induction 1 as [|y l Hs IH Hhd]; simpl.
  - repeat constructor.
  - destruct (String.compare x y) eqn:E.
    + constructor; assumption.
    + constructor; [constructor; assumption|]. constructor. exact E.
    + constructor; [exact IH|].
      apply insert_unique_HdRel; [apply string_compare_gt_lt; exact E | exact Hhd].
Qed.

Lemma np_unique_sorted (y : list string) : Sorted string_lt (np_unique y).
Proof.
  induction y as [|x y IH]; simpl; [constructor|].
  apply insert_unique_sorted. exact IH.
Qed.

Lemma np_unique_In (y : list string) (z : string) : In z (np_unique y) <-> In z y.
Proof.
  induction y as [|x y IH]; simpl; [reflexivity|].
  fold (np_unique y). rewrite insert_unique_In, IH. intuition.
Qed.

Lemma strongly_sorted_NoDup (l : list string) :
  StronglySorted string_lt l -> NoDup l.
Proof.
  induction 1 as [|x l Hs IH Hall]; constructor; [|exact IH].
  intro Hin. rewrite Forall_forall in Hall.
  exact (string_lt_irrefl x (Hall x Hin)).
Qed.

(** [np.unique] on the labels: the classes are exactly the labels that occur,
    each once, in strictly increasing order. *)
Lemma np_unique_spec (y : list string) :
  StronglySorted string_lt (np_unique y)
  /\ NoDup (np_unique y)
  /\ (forall z, In z (np_unique y) <-> In z y).
Proof.
  assert (Hs : StronglySorted string_lt (np_unique y)).
  { apply Sorted_StronglySorted; [|apply np_unique_sorted].
    intros a b c. apply string_lt_trans. }
  split; [exact Hs|]. split; [apply strongly_sorted_NoDup; exact Hs|].
  apply np_unique_In.
Qed.

Lemma nth_error_index_of (classes : list string) (z : string) :
  In z classes -> nth_error classes (index_of z classes) = Some z.
Proof.
  induction classes as [|c classes IH]; simpl; [intros []|].
  intro H. destruct (String.eqb z c) eqn:E.
  - apply String.eqb_eq in E. subst c. reflexivity.
  - simpl. apply IH. destruct H as [->|H]; [|exact H].
    rewrite String.eqb_refl in E. discriminate.
Qed.

Lemma inverse_transform_label_encode (classes y : list string) :
  (forall z, In z y -> In z classes) ->
  inverse_transform classes (label_encode classes y) = Ok y.
Proof.
  induction y as [|z y IH]; intro H; simpl; [reflexivity|].
  rewrite nth_error_index_of by (apply H; left; reflexivity).
  fold (label_encode classes y).
  rewrite IH by (intros w Hw; apply H; right; exact Hw).
  reflexivity.
Qed.

Lemma index_of_lt (classes : list string) (z : string) :
  In z classes -> (index_of z classes < length classes)%nat.
Proof.
  induction classes as [|c classes IH]; simpl; [intros []|].
  intro H. destruct (String.eqb z c) eqn:E; [lia|].
  apply -> Nat.succ_lt_mono. apply IH. destruct H as [->|H]; [|exact H].
  rewrite String.eqb_refl in E. discriminate.
Qed.

(** Round trip of the label encoder over the classes [np.unique] finds: every
    code is below the number of classes, and decoding the encoded labels gives
    the labels back. *)
Lemma label_encoding_round_trip (y : list string) :
  Forall (fun code => (code < length (np_unique y))%nat)
         (label_encode (np_unique y) y)
  /\ inverse_transform (np_unique y) (label_encode (np_unique y) y) = Ok y.
Proof.
  split.
  - unfold label_encode. apply Forall_forall. intros code Hin.
    apply in_map_iff in Hin. destruct Hin as (z & <- & Hz).
    apply index_of_lt. apply np_unique_In. exact Hz.
  - apply inverse_transform_label_encode. intros z Hz. apply np_unique_In. exact Hz.
Qed.

Lemma np_unique_constant (y : list string) (L : string) :
  (forall z, In z y -> z = L) -> (length (np_unique y) < 2)%nat.
Proof.
  intro H.
  assert (Hu : np_unique y = [] \/ np_unique y = [L]).
  { induction y as [|x y IH]; [left; reflexivity|]. right. simpl.
    fold (np_unique y). rewrite (H x (or_introl eq_refl)).
    destruct IH as [-> | ->].
    - intros z Hz. apply H. right. exact Hz.
    - reflexivity.
    - simpl. rewrite string_compare_refl. reflexivity. }
  destruct Hu as [-> | ->]; simpl; lia.
Qed.

(** X4.  A site whose patients (ten or more) all carry the same diagnosis is
    not trained, whatever the learning library does, and the store is left
    unchanged.  The run reports that only one class is present, unless one of
    the two float vitals (temperature, hemoglobin) of some patient is NaN or
    an infinity: the trainer checks the feature matrix first, and the run
    then reports "Feature matrix contains NaN or Inf values". *)
Theorem single_class_rejected (ml : MLBackend) (now : Z) (s : Store)
    (phc_id trigger_reason label : string) :
  (10 <= length (patients_of s phc_id))%nat ->
  (forall p, In p (patients_of s phc_id) -> pt_disease_label p = label) ->
  train_federated_model ml now s phc_id trigger_reason =
    (s, train_error_report
          (if existsb vitals_not_finite (patients_of s phc_id)
           then msg_nan_inf else msg_single_class)
          (Z.of_nat (length (patients_of s phc_id))) phc_id trigger_reason).
Proof.
  intros Hlen Hlabel. unfold train_federated_model.
  destruct (patients_of s phc_id) as [|p0 pts0]; [simpl in Hlen; lia|].
  destruct (preprocess_training_ok (p0 :: pts0)) as (X & HX & HlenX & Hfin).
  rewrite HX.
  replace (length X =? 0)%nat with false
    by (symmetry; apply Nat.eqb_neq; rewrite HlenX; discriminate).
  destruct (existsb vitals_not_finite (p0 :: pts0)) eqn:Hvitals.
  - unfold train_local_model.
    replace (length X <? 10)%nat with false
      by (symmetry; apply Nat.ltb_ge; rewrite HlenX; exact Hlen).
    replace (length X =? length (map pt_disease_label (p0 :: pts0)))%nat
      with true
      by (symmetry; apply Nat.eqb_eq; rewrite HlenX, length_map; reflexivity).
    cbn [negb]. rewrite Hfin, HlenX. reflexivity.
  - rewrite train_local_model_validated;
      [| rewrite HlenX; exact Hlen | rewrite HlenX, length_map; reflexivity
       | exact Hfin].
    change (existsb (String.eqb "diagnosis") training_feature_columns) with false.
    cbv iota.
    replace (length (np_unique (map pt_disease_label (p0 :: pts0))) <? 2)%nat
      with true.
    + rewrite HlenX. reflexivity.
    + symmetry. apply Nat.ltb_lt. apply (np_unique_constant _ label).
      intros z Hz. apply in_map_iff in Hz. destruct Hz as (p & <- & Hp).
      apply Hlabel. exact Hp.
Qed.

Lemma single_class_rejected_witness :
  train_federated_model toy_backend 0 one_class_store "PHC_1" "manual" =
    (one_class_store, train_error_report msg_single_class 12 "PHC_1" "manual")
  /\ train_federated_model toy_backend 0 nan_vital_store "PHC_1" "manual" =
    (nan_vital_store, train_error_report msg_nan_inf 12 "PHC_1" "manual").
Proof.
  split.
  - apply (single_class_rejected toy_backend 0 one_class_store "PHC_1" "manual"
             "Dengue").
    + vm_compute. lia.
    + intros p Hp. vm_compute in Hp.
      repeat (destruct Hp as [<-|Hp]; [reflexivity|]). destruct Hp.
  - apply (single_class_rejected toy_backend 0 nan_vital_store "PHC_1" "manual"
             "Dengue").
    + vm_compute. lia.
    + intros p Hp. vm_compute in Hp.
      repeat (destruct Hp as [<-|Hp]; [reflexivity|]). destruct Hp.
Defined.

(** ** Reported accuracies *)

Lemma count_equal_le (y_true y_pred : list string) :
  (count_equal y_true y_pred <= length y_true)%nat.
Proof.
  revert y_pred. induction y_true as [|a y_true IH]; intros [|b y_pred]; simpl;
    try lia.
  specialize (IH y_pred). destruct (String.eqb a b); lia.
Qed.

Lemma accuracy_score_bounds (y_true y_pred : list string) (a : Q) :
  accuracy_score y_true y_pred = Ok a -> 0 <= a /\ a <= 1.
Proof.
  unfold accuracy_score. destruct (length y_true =? length y_pred)%nat;
    [|discriminate].
  intro H. injection H as <-.
  pose proof (count_equal_le y_true y_pred) as Hle.
  unfold Qnat. destruct (length y_true) as [|n] eqn:En.
  - assert (E0 : count_equal y_true y_pred = 0%nat) by lia. rewrite E0.
    split; vm_compute; discriminate.
  - assert (Hpos : 0 < inject_Z (Z.of_nat (S n))).
    { change 0 with (inject_Z 0). rewrite <- Zlt_Qlt. lia. }
    split.
    + apply Qle_shift_div_l; [exact Hpos|]. rewrite Qmult_0_l.
      change 0 with (inject_Z 0). rewrite <- Zle_Qle. lia.
    + apply Qle_shift_div_r; [exact Hpos|]. rewrite Qmult_1_l.
      rewrite <- Zle_Qle. lia.
Qed.

Lemma round_half_even_between (a b : Z) (q : Q) :
  inject_Z a <= q -> q <= inject_Z b ->
  (a <= round_half_even q <= b)%Z.
Proof.
  intros Ha Hb.
  pose proof (Qfloor_resp_le _ _ Ha) as Hfa. rewrite Qfloor_Z in Hfa.
  pose proof (Qfloor_resp_le _ _ Hb) as Hfb. rewrite Qfloor_Z in Hfb.
  unfold round_half_even. set (f := Qfloor q) in *.
  assert (Hlt : (f < b)%Z \/ f = b) by lia.
  destruct Hlt as [Hlt | ->].
  - destruct (Qcompare (q - inject_Z f) (1 # 2)); [destruct (Z.even f)| |]; lia.
  - assert (E : Qcompare (q - inject_Z b) (1 # 2) = Lt).
    { apply Qlt_alt. apply Qle_lt_trans with 0; [|reflexivity].
      apply (Qplus_le_r _ _ (inject_Z b)). ring_simplify. exact Hb. }
    rewrite E. lia.
Qed.

Lemma py_round_unit (x : Q) (n : nat) :
  0 <= x -> x <= 1 -> 0 <= py_round x n /\ py_round x n <= 1.
Proof.
  intros H0 H1. unfold py_round. pose proof (pow10_pos n) as Hp.
  destruct (round_half_even_between 0 (10 ^ Z.of_nat n) (x * pow10 n)) as [Hlo Hhi].
  - change (inject_Z 0) with 0. apply Qmult_le_0_compat; [exact H0|].
    apply Qlt_le_weak. exact Hp.
  - fold (pow10 n). rewrite <- (Qmult_1_l (pow10 n)) at 2.
    apply Qmult_le_compat_r; [exact H1 | apply Qlt_le_weak; exact Hp].
  - split.
    + apply Qle_shift_div_l; [exact Hp|]. rewrite Qmult_0_l.
      change 0 with (inject_Z 0). rewrite <- Zle_Qle. exact Hlo.
    + apply Qle_shift_div_r; [exact Hp|]. rewrite Qmult_1_l.
      unfold pow10. rewrite <- Zle_Qle. exact Hhi.
Qed.

Lemma split_accuracy_bounds (ml : MLBackend) (model : ml_model ml)
    (label_classes : list string) (X : matrix) (y : list nat) (a : Q) :
  split_accuracy ml model label_classes X y = Ok a -> 0 <= a /\ a <= 1.
Proof.
  unfold split_accuracy. intro E.
  apply bind_ok in E. destruct E as (y_true & _ & E).
  apply bind_ok in E. destruct E as (y_pred & _ & E).
  apply bind_ok in E. destruct E as (y_pred_decoded & _ & E).
  exact (accuracy_score_bounds _ _ _ E).
Qed.

(** X6.  Whatever the classifier predicts, the test and train accuracies the
    evaluator reports for non-empty splits lie between 0 and 1 (after their
    rounding to four decimals), and the sample count it reports is the size of
    the two splits together. *)
Theorem reported_accuracies_in_unit_interval (ml : MLBackend) (md : ModelData ml)
    (metrics : Metrics) (num_samples : nat) :
  md_y_test md <> [] -> md_y_train md <> [] ->
  evaluate_model ml (TrainOk md) = EvalOk metrics num_samples ->
  (0 <= test_accuracy metrics /\ test_accuracy metrics <= 1)
  /\ (0 <= train_accuracy metrics /\ train_accuracy metrics <= 1)
  /\ num_samples = (length (md_y_test md) + length (md_y_train md))%nat.
Proof.
  intros _ _. unfold evaluate_model.
  destruct (evaluate_model_body ml md) as [r|msg] eqn:E; [|discriminate].
  destruct (evaluate_model_body_accuracy ml md r E)
    as (m & acc_test & acc_train & -> & Htest & Htrain & Hmt & Hmtr).
  intro H. injection H as <- <-.
  destruct (split_accuracy_bounds _ _ _ _ _ _ Htest) as [T0 T1].
  destruct (split_accuracy_bounds _ _ _ _ _ _ Htrain) as [R0 R1].
  rewrite Hmt, Hmtr.
  split; [apply py_round_unit; assumption|].
  split; [apply py_round_unit; assumption|]. reflexivity.
Qed.

Lemma reported_accuracies_in_unit_interval_witness :
  exists metrics num_samples,
    evaluate_model toy_backend (TrainOk toy_model_data) = EvalOk metrics num_samples
    /\ test_accuracy metrics <= 1 /\ num_samples = 3%nat.
Proof.
  destruct (evaluate_model toy_backend (TrainOk toy_model_data))
    as [error n|error|metrics n] eqn:E;
    [vm_compute in E; discriminate | vm_compute in E; discriminate |].
  exists metrics, n. split; [reflexivity|].
  destruct (reported_accuracies_in_unit_interval toy_backend toy_model_data metrics n)
    as ((_ & H1) & _ & Hn); [discriminate | discriminate | exact E |].
  split; [exact H1 | exact Hn].
Defined.

(** ** Version strings *)

Lemma str_of_Z_inj (n n' : Z) : str_of_Z n = str_of_Z n' -> n = n'.
Proof.
  unfold str_of_Z. intro H. apply DecimalZ.to_int_inj.
  assert (Hisi : forall z, NilZero.int_of_string (NilZero.string_of_int (Z.to_int z))
                           = Some (Z.to_int z)).
  { intro z. apply NilZero.isi; destruct z; simpl; try discriminate;
      intro E; injection E; apply DecimalPos.Unsigned.to_uint_nonnil. }
  pose proof (Hisi n) as Hn. rewrite H, Hisi in Hn. injection Hn as Hn.
  symmetry. exact Hn.
Qed.

Lemma string_app_inv_head (p a b : string) : p ++ a = p ++ b -> a = b.
Proof.
  induction p as [|c p IH]; simpl; intro H; [exact H|].
  injection H as H. apply IH. exact H.
Qed.

(** X9.  A version string identifies its version: two global models with the
    same version string have the same version number, two versions of one site
    with the same version string have the same number, and a global version
    string is never a local one. *)
Theorem version_strings_identify_versions :
  (forall v v',
     generate_global_version_string v = generate_global_version_string v' -> v = v')
  /\ (forall phc_id v v',
        generate_local_version_string phc_id v
          = generate_local_version_string phc_id v' -> v = v')
  /\ (forall phc_id v v',
        generate_global_version_string v <> generate_local_version_string phc_id v').
Proof.
  split; [|split].
  - intros v v' H. unfold generate_global_version_string in H.
    apply string_app_inv_head in H. apply str_of_Z_inj. exact H.
  - intros phc_id v v' H. unfold generate_local_version_string in H.
    apply string_app_inv_head in H. apply string_app_inv_head in H.
    apply string_app_inv_head in H. apply str_of_Z_inj. exact H.
  - intros phc_id v v'. unfold generate_global_version_string,
      generate_local_version_string. simpl. discriminate.
Qed.

Lemma version_strings_identify_versions_witness :
  generate_global_version_string 12 = "global_v12"
  /\ generate_global_version_string 12 <> generate_local_version_string "PHC_1" 12.
Proof.
  split; [reflexivity|].
  exact (proj2 (proj2 version_strings_identify_versions) "PHC_1" 12%Z 12%Z).
Defined.

(** ** Version numbers *)

Lemma first_order_by_desc_max {A : Type} (key : A -> Z) (l : list A) (x : A) :
  first (order_by_desc key l) = Some x -> Forall (fun m => (key m <= key x)%Z) l.
Proof.
  intro H. pose proof (order_by_desc_sorted key l) as Hs.
  pose proof (order_by_desc_perm key l) as Hp.
  destruct (order_by_desc key l) as [|y rest]; [discriminate|].
  injection H as ->.
  apply StronglySorted_inv in Hs. destruct Hs as [_ Hall].
  apply Forall_forall. intros m Hm.
  apply (Permutation_in _ (Permutation_sym Hp)) in Hm.
  destruct Hm as [<-|Hm]; [lia|].
  rewrite Forall_forall in Hall. exact (Hall m Hm).
Qed.

Lemma Forall2_map_left {A B C : Type} (R : B -> C -> Prop) (f : A -> B)
    (l : list A) (l' : list C) :
  Forall2 R (map f l) l' -> Forall2 (fun a c => R (f a) c) l l'.
Proof.
  revert l'. induction l as [|a l IH]; intros l' H; inversion H; subst;
    constructor; auto.
Qed.

Lemma Forall2_refl_on {A : Type} (R : A -> A -> Prop) (l : list A) :
  (forall a, R a a) -> Forall2 R l l.
Proof. intro H. induction l; constructor; auto. Qed.

Lemma Forall2_In_r {A B : Type} (R : A -> B -> Prop) (l : list A) (l' : list B)
    (b : B) :
  Forall2 R l l' -> In b l' -> exists a, In a l /\ R a b.
Proof.
  induction 1 as [|a c l l' Hac _ IH]; simpl; [intros []|].
  intros [<-|Hin]; [exists a; auto|].
  destruct (IH Hin) as (a' & Ha' & HR). exists a'. auto.
Qed.

Lemma Forall2_In_l {A B : Type} (R : A -> B -> Prop) (l : list A) (l' : list B)
    (a : A) :
  Forall2 R l l' -> In a l -> exists b, In b l' /\ R a b.
Proof.
  induction 1 as [|c b l l' Hcb _ IH]; simpl; [intros []|].
  intros [<-|Hin]; [exists b; auto|].
  destruct (IH Hin) as (b' & Hb' & HR). exists b'. auto.
Qed.

(** The marking loop, model by model: a model whose id is among the
    contributors' carries the mark, every other one is untouched. *)
Lemma mark_loop_pointwise (v : Z) (vs : string)
    (phc_models : list (string * LocalModel)) (l : list LocalModel) :
  Forall2
    (fun m m' =>
       (In (lm_id m) (map (fun e => lm_id (snd e)) phc_models) -> marked_in v vs m m')
       /\ (~ In (lm_id m) (map (fun e => lm_id (snd e)) phc_models) -> m' = m))
    l
    (fold_left (fun l0 e => mark_aggregated v vs (lm_id (snd e)) l0) phc_models l).
Proof.
  revert l. induction phc_models as [|e rest IH]; intro l; simpl.
  - apply Forall2_refl_on. intro m. split; [intros [] | reflexivity].
  - specialize (IH (mark_aggregated v vs (lm_id (snd e)) l)).
    unfold mark_aggregated at 2 in IH. apply Forall2_map_left in IH.
    eapply Forall2_impl; [|exact IH].
    intros m m' [Hin Hout]. simpl in Hin, Hout.
    destruct (lm_id m =? lm_id (snd e))%nat eqn:E.
    + apply Nat.eqb_eq in E. simpl in Hin, Hout. split.
      * intros _.
        destruct (in_dec Nat.eq_dec (lm_id m)
                    (map (fun e0 => lm_id (snd e0)) rest)) as [Hr|Hr].
        -- destruct (Hin Hr) as (Hs & Hc & Ha & Hv & Hvs).
           unfold marked_in, same_model in *. simpl in *. tauto.
        -- rewrite (Hout Hr). unfold marked_in, same_model. simpl. tauto.
      * intros Hn. exfalso. apply Hn. left. symmetry. exact E.
    + apply Nat.eqb_neq in E. split.
      * intros [Heq|Hr]; [exfalso; apply E; symmetry; exact Heq|]. exact (Hin Hr).
      * intros Hn. apply Hout. intro Hr. apply Hn. right. exact Hr.
Qed.

Lemma marked_in_same (v : Z) (vs : string) (m m' : LocalModel) :
  marked_in v vs m m' -> same_model m m'.
Proof. intros [H _]. exact H. Qed.

Lemma mark_loop_same_models (v : Z) (vs : string)
    (phc_models : list (string * LocalModel)) (l : list LocalModel) :
  Forall2 same_model l
    (fold_left (fun l0 e => mark_aggregated v vs (lm_id (snd e)) l0) phc_models l).
Proof.
  eapply Forall2_impl; [|apply mark_loop_pointwise].
  intros m m' [Hin Hout]. simpl in Hin, Hout.
  destruct (in_dec Nat.eq_dec (lm_id m)
              (map (fun e => lm_id (snd e)) phc_models)) as [H|H].
  - exact (marked_in_same _ _ _ _ (Hin H)).
  - rewrite (Hout H). apply same_model_refl.
Qed.

(** What a successful aggregation has done to the store. *)
Lemma aggregate_models_result (now : Z) (automatic : bool) (s s' : Store)
    (r : AggregationResult) :
  aggregate_models now automatic s = (s', Some r) ->
  let phc_models := collect_phc_models automatic s in
  let next_version :=
    match get_latest_global_model s with
    | Some latest_global => (gm_version latest_global + 1)%Z
    | None => 1%Z
    end in
  phc_models <> []
  /\ ar_version r = next_version
  /\ ar_version_string r = generate_global_version_string next_version
  /\ ar_contributors r = map fst phc_models
  /\ ar_contributor_versions r
       = map (fun e => (fst e, lm_version_string (snd e))) phc_models
  /\ ar_num_contributors r = length phc_models
  /\ (exists g, global_models s' = (global_models s ++ [g])%list
                /\ gm_version g = next_version
                /\ gm_version_string g = generate_global_version_string next_version
                /\ gm_contributors g = map fst phc_models)
  /\ local_models s' =
       fold_left
         (fun l e =>
            mark_aggregated next_version
              (generate_global_version_string next_version) (lm_id (snd e)) l)
         phc_models (local_models s)
  /\ training_metadata s' = training_metadata s
  /\ patients s' = patients s
  /\ alerts s' = alerts s
  /\ risk_scores s' = risk_scores s.
Proof.
  unfold aggregate_models. cbv zeta.
  destruct (collect_phc_models automatic s) as [|e rest] eqn:Ecol; [discriminate|].
  rewrite mark_loop_effect, broadcast_global_model_effect.
  intro H. injection H as <- <-. simpl.
  split; [discriminate|].
  repeat (split; [reflexivity|]).
  split; [|repeat split].
  eexists. split; [reflexivity|]. repeat split.
Qed.

Lemma try_automatic_aggregation_frame (now : Z) (s : Store) :
  let s' := fst (try_automatic_aggregation now s) in
  Forall2 same_model (local_models s) (local_models s')
  /\ training_metadata s' = training_metadata s
  /\ patients s' = patients s.
Proof.
  cbv zeta. rewrite try_automatic_aggregation_unfold.
  destruct (fst (fst (should_trigger_global_aggregation s)));
    [|simpl; split; [apply Forall2_refl_on, same_model_refl | split; reflexivity]].
  destruct (aggregate_models now true s) as [s' [r|]] eqn:E.
  - destruct (aggregate_models_result now true s s' r E)
      as (_ & _ & _ & _ & _ & _ & _ & Hl & Hm & Hp & _).
    simpl. rewrite Hl. split; [apply mark_loop_same_models|]. split; assumption.
  - assert (Hs : s' = s).
    { unfold aggregate_models in E. cbv zeta in E.
      destruct (collect_phc_models true s); [|discriminate].
      injection E as <-. reflexivity. }
    simpl. rewrite Hs.
    split; [apply Forall2_refl_on, same_model_refl | split; reflexivity].
Qed.

Lemma detect_model_drift_metadata (now : Z) (s : Store) (phc_id : string) :
  training_metadata (fst (detect_model_drift now s phc_id)) = training_metadata s.
Proof.
  unfold detect_model_drift.
  destruct (first _); [|reflexivity].
  destruct (first _); [|reflexivity].
  simpl. destruct (Qgtb _ 10); reflexivity.
Qed.

Lemma calculate_composite_risk_score_frame (now : Z) (s : Store) (phc_id : string) :
  training_metadata (fst (calculate_composite_risk_score now s phc_id))
    = training_metadata s
  /\ patients (fst (calculate_composite_risk_score now s phc_id)) = patients s.
Proof.
  unfold calculate_composite_risk_score.
  destruct (patients_of s phc_id); split; reflexivity.
Qed.

Lemma record_training_completion_set_local_models (now : Z) (s : Store)
    (l : list LocalModel) (phc_id : string) (success : bool) :
  training_metadata (record_training_completion now (set_local_models s l) phc_id success)
    = training_metadata (record_training_completion now s phc_id success).
Proof.
  unfold record_training_completion, find_metadata. simpl.
  destruct (find _ (training_metadata s)); reflexivity.
Qed.

(** What a successful training run has done to the store. *)
Lemma train_federated_model_success (ml : MLBackend) (now : Z) (s : Store)
    (phc_id trigger_reason : string) :
  tr_error (snd (train_federated_model ml now s phc_id trigger_reason)) = None ->
  exists metrics num_samples,
    let lm := new_local_model now s phc_id trigger_reason metrics num_samples in
    let run := train_federated_model ml now s phc_id trigger_reason in
    tr_version (snd run) = Some (lm_version lm)
    /\ tr_version_string (snd run) = Some (lm_version_string lm)
    /\ tr_update_id (snd run) = Some (lm_id lm)
    /\ tr_timestamp (snd run) = Some now
    /\ Forall2 same_model (local_models s ++ [lm])%list (local_models (fst run))
    /\ training_metadata (fst run)
         = training_metadata (record_training_completion now s phc_id true)
    /\ patients (fst run) = patients s.
Proof.
  unfold train_federated_model.
  destruct (patients_of s phc_id) as [|p0 pts0]; [discriminate|].
  destruct (preprocess_data (p0 :: pts0) training_feature_columns)
    as [[[X y] features]|msg]; [|discriminate].
  destruct (length X =? 0)%nat; [discriminate|].
  destruct (train_local_model ml X y features) as [error n|md]; [discriminate|].
  destruct (evaluate_model ml (TrainOk md)) as [error n|error|metrics n];
    [discriminate | discriminate |].
  cbv zeta.
  set (local_model := new_local_model now s phc_id trigger_reason metrics n).
  set (s1 := set_local_models s (local_models s ++ [local_model])%list).
  set (s2 := record_training_completion now s1 phc_id true).
  pose proof (detect_model_drift_local_models now s2 phc_id) as Hl3.
  pose proof (detect_model_drift_metadata now s2 phc_id) as Hm3.
  pose proof (detect_model_drift_patients now s2 phc_id) as Hp3.
  destruct (detect_model_drift now s2 phc_id) as [s3 drift_result].
  pose proof (calculate_composite_risk_score_local_models now s3 phc_id) as Hl4.
  pose proof (calculate_composite_risk_score_frame now s3 phc_id) as [Hm4 Hp4].
  destruct (calculate_composite_risk_score now s3 phc_id) as [s4 risk_result].
  pose proof (try_automatic_aggregation_frame now s4) as (Hl5 & Hm5 & Hp5).
  destruct (try_automatic_aggregation now s4) as [s5 agg].
  simpl in *. intros _. exists metrics, n.
  repeat (split; [reflexivity|]).
  split; [|split].
  - rewrite Hl4, Hl3 in Hl5. unfold s2 in Hl5.
    rewrite record_training_completion_local_models in Hl5. exact Hl5.
  - rewrite Hm5, Hm4, Hm3. unfold s2, s1.
    apply record_training_completion_set_local_models.
  - rewrite Hp5, Hp4, Hp3. unfold s2.
    rewrite record_training_completion_patients. reflexivity.
Qed.

(** X7.  A successful training run stores the site's model under the next
    version number of the site: 1 for a site without models, otherwise one
    more than the version of the site's latest model, hence above every
    version the site had.  The model is named by the site's version string for
    that number, and afterwards it is the site's latest model. *)
Theorem new_local_version_is_fresh (ml : MLBackend) (now : Z) (s : Store)
    (phc_id trigger_reason : string) :
  tr_error (snd (train_federated_model ml now s phc_id trigger_reason)) = None ->
  exists v,
    tr_version (snd (train_federated_model ml now s phc_id trigger_reason)) = Some v
    /\ tr_version_string (snd (train_federated_model ml now s phc_id trigger_reason))
         = Some (generate_local_version_string phc_id v)
    /\ (local_models_of s phc_id = [] -> v = 1%Z)
    /\ (forall previous, get_latest_local_model s phc_id = Some previous ->
         v = (lm_version previous + 1)%Z)
    /\ Forall (fun m => (lm_version m < v)%Z) (local_models_of s phc_id)
    /\ exists latest,
         get_latest_local_model
           (fst (train_federated_model ml now s phc_id trigger_reason)) phc_id
           = Some latest
         /\ lm_version latest = v
         /\ lm_version_string latest = generate_local_version_string phc_id v.
Proof.
  intro Hok.
  destruct (train_federated_model_success ml now s phc_id trigger_reason Hok)
    as (metrics & n & Hv & Hvs & _ & _ & Hl & _ & _).
  cbv zeta in *.
  set (run := train_federated_model ml now s phc_id trigger_reason) in *.
  set (lm := new_local_model now s phc_id trigger_reason metrics n) in *.
  assert (Hbelow : Forall (fun m => (lm_version m < lm_version lm)%Z)
                          (local_models_of s phc_id)).
  { unfold lm, new_local_model. simpl. unfold get_latest_local_model.
    destruct (first (order_by_desc lm_version (local_models_of s phc_id)))
      as [latest|] eqn:E.
    - apply first_order_by_desc_max in E.
      eapply Forall_impl; [|exact E]. simpl. intros m Hm.
      apply Z.lt_succ_r. exact Hm.
    - apply order_by_desc_first_none in E. rewrite E. constructor. }
  exists (lm_version lm).
  split; [exact Hv|]. split; [exact Hvs|]. split.
  { intro Hnone. unfold lm, new_local_model. simpl.
    unfold get_latest_local_model. rewrite Hnone. reflexivity. }
  split.
  { intros previous Hprev. unfold lm, new_local_model. simpl.
    rewrite Hprev. reflexivity. }
  split; [exact Hbelow|].
  (* the stored copy of the new model *)
  destruct (Forall2_In_l _ _ _ lm Hl) as (lm' & Hin' & Hsame).
  { apply in_or_app. right. left. reflexivity. }
  destruct Hsame as (_ & Sphc & Sver & Sstr & _).
  assert (Hin_site : In lm' (local_models_of (fst run) phc_id)).
  { unfold local_models_of. apply filter_In. split; [exact Hin'|].
    rewrite Sphc. unfold lm. simpl. apply String.eqb_refl. }
  unfold get_latest_local_model.
  destruct (first (order_by_desc lm_version (local_models_of (fst run) phc_id)))
    as [latest|] eqn:E.
  2:{ apply order_by_desc_first_none in E. rewrite E in Hin_site. destruct Hin_site. }
  pose proof (first_order_by_desc_max _ _ _ E) as Hmax.
  pose proof (order_by_desc_first_In _ _ _ E) as Hlatest.
  rewrite Forall_forall in Hmax. specialize (Hmax lm' Hin_site).
  unfold local_models_of in Hlatest. apply filter_In in Hlatest.
  destruct Hlatest as [Hlatest Hphc]. apply String.eqb_eq in Hphc.
  destruct (Forall2_In_r _ _ _ latest Hl Hlatest) as (m0 & Hm0 & S0).
  destruct S0 as (_ & S0phc & S0ver & S0str & _).
  apply in_app_or in Hm0. destruct Hm0 as [Hold|[<-|[]]].
  - exfalso. rewrite Forall_forall in Hbelow.
    assert (Hsite : In m0 (local_models_of s phc_id)).
    { unfold local_models_of. apply filter_In. split; [exact Hold|].
      rewrite <- S0phc, Hphc. apply String.eqb_refl. }
    specialize (Hbelow m0 Hsite). cbv beta in Hbelow. lia.
  - exists latest. split; [reflexivity|]. split; [exact S0ver|].
    rewrite S0str. reflexivity.
Qed.

Lemma new_local_version_is_fresh_witness :
  local_models_of training_example_store "PHC_1" = []
  /\ exists v,
       tr_version (snd (train_federated_model toy_backend 0 training_example_store
                          "PHC_1" "manual")) = Some v
       /\ v = 1%Z.
Proof.
  split; [reflexivity|].
  destruct (new_local_version_is_fresh toy_backend 0 training_example_store
              "PHC_1" "manual") as (v & Hv & _ & Hfirst & _).
  - reflexivity.
  - exists v. split; [exact Hv | apply Hfirst; reflexivity].
Defined.

Lemma generate_global_version_string_inj (v v' : Z) :
  generate_global_version_string v = generate_global_version_string v' -> v = v'.
Proof.
  unfold generate_global_version_string. intro H.
  apply string_app_inv_head in H. apply str_of_Z_inj. exact H.
Qed.

Lemma find_app_last {A : Type} (f : A -> bool) (l : list A) (y : A) :
  (forall x, In x l -> f x = false) -> f y = true -> find f (l ++ [y]) = Some y.
Proof.
  intros Hl Hy. induction l as [|x l IH]; simpl.
  - rewrite Hy. reflexivity.
  - rewrite (Hl x (or_introl eq_refl)). apply IH.
    intros z Hz. apply Hl. right. exact Hz.
Qed.

Lemma next_global_version_above (s : Store) :
  Forall (fun g => (gm_version g <
                      match get_latest_global_model s with
                      | Some latest_global => gm_version latest_global + 1
                      | None => 1
                      end)%Z) (global_models s).
Proof.
  unfold get_latest_global_model.
  destruct (first (order_by_desc gm_version (global_models s))) as [latest|] eqn:E.
  - apply first_order_by_desc_max in E.
    eapply Forall_impl; [|exact E]. cbv beta. intros g Hg.
    apply Z.lt_succ_r. exact Hg.
  - apply order_by_desc_first_none in E. rewrite E. constructor.
Qed.

(** X10.  A successful aggregation (automatic or manual) numbers the new global
    model above every stored global version and names it by the version string
    of that number; the latest-global query then returns the new model, and,
    when the stored version strings are those of their versions, so does the
    look-up by version string. *)
Theorem new_global_version_is_fresh (now : Z) (automatic : bool) (s s' : Store)
    (r : AggregationResult) :
  aggregate_models now automatic s = (s', Some r) ->
  Forall (fun g => (gm_version g < ar_version r)%Z) (global_models s)
  /\ ar_version_string r = generate_global_version_string (ar_version r)
  /\ (exists g,
        global_models s' = (global_models s ++ [g])%list
        /\ get_latest_global_model s' = Some g
        /\ gm_version g = ar_version r
        /\ gm_version_string g = ar_version_string r
        /\ (global_versions_consistent s ->
            global_versions_consistent s'
            /\ get_model_by_version_string s' (ar_version_string r)
                 = Some (IsGlobal g))).
Proof.
  intro Hagg.
  destruct (aggregate_models_result now automatic s s' r Hagg)
    as (_ & Hv & Hvs & _ & _ & _ & (g & Hg & Hgv & Hgs & _) & _).
  cbv zeta in *.
  pose proof (next_global_version_above s) as Habove.
  rewrite <- Hv in Habove, Hgv. rewrite <- Hv in Hvs, Hgs.
  split; [exact Habove|]. split; [exact Hvs|].
  exists g. split; [exact Hg|].
  rewrite Forall_forall in Habove.
  split; [|split; [exact Hgv | split; [rewrite Hgs, Hvs; reflexivity|]]].
  - unfold get_latest_global_model. rewrite Hg.
    destruct (first (order_by_desc gm_version (global_models s ++ [g])))
      as [x|] eqn:E.
    2:{ apply order_by_desc_first_none in E. destruct (global_models s); discriminate. }
    pose proof (first_order_by_desc_max _ _ _ E) as Hmax.
    pose proof (order_by_desc_first_In _ _ _ E) as Hx.
    rewrite Forall_forall in Hmax.
    assert (Hgx : (gm_version g <= gm_version x)%Z).
    { apply Hmax. apply in_or_app. right. left. reflexivity. }
    apply in_app_or in Hx. destruct Hx as [Hold|[<-|[]]]; [|reflexivity].
    exfalso. specialize (Habove x Hold). cbv beta in Habove. lia.
  - intro Hcons. unfold global_versions_consistent in *. split.
    + rewrite Hg. apply Forall_app. split; [exact Hcons|].
      constructor; [|constructor]. rewrite Hgs, Hgv. reflexivity.
    + unfold get_model_by_version_string. rewrite Hg.
      rewrite (find_app_last _ _ g); [reflexivity | | ].
      * intros x Hx. apply String.eqb_neq. intro Heq.
        rewrite Forall_forall in Hcons. rewrite (Hcons x Hx), Hvs in Heq.
        apply generate_global_version_string_inj in Heq.
        specialize (Habove x Hx). cbv beta in Habove. lia.
      * apply String.eqb_eq. rewrite Hgs, Hvs. reflexivity.
Qed.

Lemma new_global_version_is_fresh_witness :
  exists s' r,
    aggregate_models 0 true aggregation_example_store = (s', Some r)
    /\ ar_version_string r = "global_v1"
    /\ Forall (fun g => (gm_version g < ar_version r)%Z)
              (global_models aggregation_example_store).
Proof.
  destruct (aggregate_models 0 true aggregation_example_store) as [s' [r|]] eqn:E;
    [|vm_compute in E; discriminate].
  exists s', r. split; [reflexivity|].
  destruct (new_global_version_is_fresh 0 true aggregation_example_store s' r E)
    as (Hall & _ & _).
  split; [|exact Hall].
  vm_compute in E. injection E as _ <-. reflexivity.
Defined.

(** ** Aggregation marks *)

(** X11.  After a successful aggregation every local model that contributed
    (the one collected for a listed site) is the same model marked as
    aggregated, with the new global version and its version string as back
    reference; every other local model is untouched.  The contributors are
    stored models of the sites they are listed under, and in automatic mode
    none of them was aggregated before. *)
Theorem contributors_marked_aggregated (now : Z) (automatic : bool) (s s' : Store)
    (r : AggregationResult) :
  aggregate_models now automatic s = (s', Some r) ->
  let phc_models := collect_phc_models automatic s in
  let ids := map (fun e => lm_id (snd e)) phc_models in
  Forall2
    (fun m m' =>
       (In (lm_id m) ids -> marked_in (ar_version r) (ar_version_string r) m m')
       /\ (~ In (lm_id m) ids -> m' = m))
    (local_models s) (local_models s')
  /\ Forall (fun e => In (snd e) (local_models s)
                      /\ lm_phc_id (snd e) = fst e
                      /\ In (fst e) aggregation_phc_ids
                      /\ (automatic = true -> lm_aggregated (snd e) = false))
            phc_models
  /\ ar_contributors r = map fst phc_models
  /\ ar_contributor_versions r
       = map (fun e => (fst e, lm_version_string (snd e))) phc_models.
Proof.
  intro Hagg.
  destruct (aggregate_models_result now automatic s s' r Hagg)
    as (_ & Hv & Hvs & Hc & Hcv & _ & _ & Hl & _).
  cbv zeta in *. rewrite <- Hv in Hvs, Hl. rewrite <- Hvs in Hl.
  split; [rewrite Hl; apply mark_loop_pointwise|].
  split; [|split; assumption].
  apply Forall_forall. intros [phc_id m] He. simpl.
  apply collect_phc_models_In in He. destruct He as [Hid Hlatest].
  destruct (latest_for_aggregation_some _ _ _ _ Hlatest) as (Hin & Hphc & Hun).
  auto.
Qed.

Lemma contributors_marked_aggregated_witness :
  exists s' r,
    aggregate_models 0 true aggregation_example_store = (s', Some r)
    /\ ar_contributors r = map fst (collect_phc_models true aggregation_example_store).
Proof.
  destruct (aggregate_models 0 true aggregation_example_store) as [s' [r|]] eqn:E;
    [|vm_compute in E; discriminate].
  exists s', r. split; [reflexivity|].
  destruct (contributors_marked_aggregated 0 true aggregation_example_store s' r E)
    as (_ & _ & Hc & _).
  exact Hc.
Defined.

Lemma manual_aggregation_none (now : Z) (s : Store) :
  (forall m, In m (local_models s) -> ~ In (lm_phc_id m) aggregation_phc_ids) ->
  aggregate_models now false s = (s, None).
Proof.
  intro Hnone. apply aggregate_models_none.
  destruct (collect_phc_models false s) as [|[phc_id m] rest] eqn:E;
    [reflexivity|].
  exfalso.
  assert (He : In (phc_id, m) (collect_phc_models false s))
    by (rewrite E; left; reflexivity).
  apply collect_phc_models_In in He. destruct He as [Hid Hlatest].
  destruct (latest_for_aggregation_some _ _ _ _ Hlatest) as (Hin & Hphc & _).
  apply (Hnone m Hin). rewrite Hphc. exact Hid.
Qed.

Lemma manual_aggregation_some (now : Z) (s : Store) (m : LocalModel) :
  In m (local_models s) -> In (lm_phc_id m) aggregation_phc_ids ->
  exists s' r,
    aggregate_models now false s = (s', Some r)
    /\ In (lm_phc_id m) (ar_contributors r)
    /\ incl (ar_contributors r) aggregation_phc_ids
    /\ ar_num_contributors r = length (ar_contributors r).
Proof.
  intros Hin Hid.
  assert (Hsite : In m (local_models_of s (lm_phc_id m))).
  { unfold local_models_of. apply filter_In. split; [exact Hin|].
    apply String.eqb_refl. }
  destruct (latest_for_aggregation false s (lm_phc_id m)) as [latest|] eqn:E.
  2:{ unfold latest_for_aggregation in E. apply order_by_desc_first_none in E.
      rewrite E in Hsite. destruct Hsite. }
  assert (He : In (lm_phc_id m, latest) (collect_phc_models false s)).
  { apply collect_phc_models_In. split; assumption. }
  destruct (aggregate_models now false s) as [s' [r|]] eqn:Eagg.
  2:{ exfalso. unfold aggregate_models in Eagg. cbv zeta in Eagg.
      destruct (collect_phc_models false s); [destruct He | discriminate]. }
  destruct (aggregate_models_result now false s s' r Eagg)
    as (_ & _ & _ & Hc & _ & Hn & _).
  cbv zeta in *. exists s', r. split; [reflexivity|].
  split; [rewrite Hc; apply (in_map fst) in He; exact He|].
  split.
  - rewrite Hc. intros phc_id Hp. apply in_map_iff in Hp.
    destruct Hp as ([p l] & <- & Hp). apply collect_phc_models_In in Hp.
    exact (proj1 Hp).
  - rewrite Hn, Hc, length_map. reflexivity.
Qed.

(** X12.  Manual aggregation looks at every model of the listed sites, marked
    or not: it returns nothing (and touches nothing) exactly when no stored
    model belongs to a listed site, and otherwise every listed site that has a
    model contributes, even when all of its models were aggregated before. *)
Theorem manual_aggregation_reuses_models (now : Z) (s : Store) :
  ((forall m, In m (local_models s) -> ~ In (lm_phc_id m) aggregation_phc_ids) ->
   aggregate_models now false s = (s, None))
  /\ (forall m, In m (local_models s) -> In (lm_phc_id m) aggregation_phc_ids ->
      exists s' r,
        aggregate_models now false s = (s', Some r)
        /\ In (lm_phc_id m) (ar_contributors r)).
Proof.
  split.
  - apply manual_aggregation_none.
  - intros m Hin Hid.
    destruct (manual_aggregation_some now s m Hin Hid) as (s' & r & Hagg & Hc & _).
    exists s', r. split; assumption.
Qed.

Lemma manual_aggregation_reuses_models_witness :
  try_automatic_aggregation 1 aggregated_example_store
    = (aggregated_example_store, None)
  /\ exists s' r,
       aggregate_models 1 false aggregated_example_store = (s', Some r)
       /\ In "PHC_1" (ar_contributors r).
Proof.
  split; [vm_compute; reflexivity|].
  apply (proj2 (manual_aggregation_reuses_models 1 aggregated_example_store)
           (nth 0 (local_models aggregated_example_store)
              (example_local_model 0 "PHC_1" 0 0 0 0 true))).
  - vm_compute. left. reflexivity.
  - vm_compute. left. reflexivity.
Defined.

(** ** The patient-event pipeline *)

Lemma find_metadata_ext (s t : Store) (phc_id : string) :
  training_metadata s = training_metadata t ->
  find_metadata s phc_id = find_metadata t phc_id.
Proof. unfold find_metadata. intros ->. reflexivity. Qed.

Lemma find_app_none {A : Type} (f : A -> bool) (l : list A) (y : A) :
  find f l = None -> find f (l ++ [y]) = if f y then Some y else None.
Proof.
  induction l as [|x l IH]; simpl; [reflexivity|].
  destruct (f x); [discriminate | exact IH].
Qed.

Lemma counted_phc (now : Z) (s : Store) (phc_id : string) :
  tm_phc_id (counted now s phc_id) = phc_id.
Proof.
  unfold counted. destruct (find_metadata s phc_id) as [m|] eqn:E; simpl;
    [exact (find_metadata_phc s phc_id m E) | reflexivity].
Qed.

Lemma find_metadata_counted (now : Z) (s : Store) (phc_id : string) :
  find_metadata (increment_patient_count now s phc_id) phc_id
    = Some (counted now s phc_id).
Proof.
  unfold increment_patient_count, counted.
  destruct (find_metadata s phc_id) as [m|] eqn:E.
  - apply (find_save_metadata s _ m phc_id E). simpl.
    exact (find_metadata_phc s phc_id m E).
  - unfold find_metadata, create_metadata in *. simpl.
    rewrite (find_app_none _ _ _ E). simpl. rewrite String.eqb_refl. reflexivity.
Qed.

Lemma should_trigger_local_training_some (now : Z) (s : Store) (phc_id : string)
    (m : TrainingMetadata) :
  find_metadata s phc_id = Some m ->
  should_trigger_local_training now s phc_id = (s, trigger_decision now m).
Proof.
  intro E. unfold should_trigger_local_training, trigger_decision. rewrite E.
  destruct (PATIENT_THRESHOLD <=? _)%Z; [reflexivity|].
  destruct (tm_last_training_at m); [|reflexivity].
  destruct (TIME_THRESHOLD <=? _)%Z; reflexivity.
Qed.

(** The pipeline in terms of the counted metadata. *)
Lemma handle_patient_creation_with_steps
    (train : Store -> string -> string -> Store * (string + TrainReport))
    (now : Z) (s : Store) (phc_id : string) :
  handle_patient_creation_with train now s phc_id =
    let s1 := increment_patient_count now s phc_id in
    let m1 := counted now s phc_id in
    if negb (fst (trigger_decision now m1))
    then (s1, NotTrained (snd (trigger_decision now m1)) phc_id)
    else if tm_training_in_progress m1
    then (s1, NotTrained "training_in_progress" phc_id)
    else
      match train (set_training_lock s1 m1) phc_id (snd (trigger_decision now m1)) with
      | (s4, inr result) =>
          match error_set result with
          | Some error =>
              (record_training_completion now s4 phc_id false,
               TrainingFailed error phc_id (snd (trigger_decision now m1)))
          | None =>
              (record_training_completion now s4 phc_id true,
               Trained phc_id (snd (trigger_decision now m1))
                 (py_round (tr_accuracy result) 4)
                 (tr_version result) (tr_version_string result)
                 (tr_num_samples result)
                 (py_round (tr_precision result) 4)
                 (py_round (tr_recall result) 4)
                 (py_round (tr_f1_score result) 4)
                 (tr_timestamp result))
          end
      | (s4, inl training_error) =>
          (record_training_completion now s4 phc_id false,
           TrainingFailed ("Training execution failed: " ++ training_error)
             phc_id (snd (trigger_decision now m1)))
      end.
Proof.
  unfold handle_patient_creation_with. cbv zeta.
  rewrite (should_trigger_local_training_some now _ phc_id _
             (find_metadata_counted now s phc_id)).
  destruct (trigger_decision now (counted now s phc_id)) as [should_train reason].
  cbn [fst snd]. destruct should_train; [|reflexivity]. cbn [negb].
  rewrite find_metadata_counted. reflexivity.
Qed.

Lemma acquires_training_lock_steps (now : Z) (s : Store) (phc_id : string) :
  acquires_training_lock now s phc_id =
    fst (trigger_decision now (counted now s phc_id))
    && negb (tm_training_in_progress (counted now s phc_id)).
Proof.
  unfold acquires_training_lock. cbv zeta.
  rewrite (should_trigger_local_training_some now _ phc_id _
             (find_metadata_counted now s phc_id)).
  destruct (trigger_decision now (counted now s phc_id)) as [should_train reason].
  rewrite find_metadata_counted. reflexivity.
Qed.

(** X13.  A patient event on a site whose last training (if any) is less than
    24 hours old: below the threshold of 20 patients it only counts the
    patient; at the threshold it trains with reason "patient_threshold",
    unless the site's lock is held, in which case it counts the patient and
    reports "training_in_progress" without training. *)
Theorem patient_threshold_trigger
    (train : Store -> string -> string -> Store * (string + TrainReport))
    (now : Z) (s : Store) (phc_id : string) (m : TrainingMetadata) :
  find_metadata s phc_id = Some m ->
  (forall t, tm_last_training_at m = Some t -> (now - t < TIME_THRESHOLD)%Z) ->
  let c := (tm_patients_since_last_training m + 1)%Z in
  ((c < PATIENT_THRESHOLD)%Z ->
   handle_patient_creation_with train now s phc_id
     = (increment_patient_count now s phc_id, NotTrained "no_trigger" phc_id))
  /\ ((PATIENT_THRESHOLD <= c)%Z -> tm_training_in_progress m = true ->
      handle_patient_creation_with train now s phc_id
        = (increment_patient_count now s phc_id,
           NotTrained "training_in_progress" phc_id))
  /\ ((PATIENT_THRESHOLD <= c)%Z -> tm_training_in_progress m = false ->
      acquires_training_lock now s phc_id = true
      /\ result_reason (snd (handle_patient_creation_with train now s phc_id))
           = "patient_threshold"
      /\ (model_trained (snd (handle_patient_creation_with train now s phc_id))
          || training_failed (snd (handle_patient_creation_with train now s phc_id))
          = true)).
Proof.
  intros Hm Hrecent c.
  rewrite acquires_training_lock_steps, handle_patient_creation_with_steps.
  cbv zeta. unfold counted. rewrite Hm. unfold trigger_decision.
  cbn [tm_patients_since_last_training tm_last_training_at tm_training_in_progress].
  fold c.
  split; [|split].
  - intro Hlt. apply Z.leb_gt in Hlt. rewrite Hlt.
    destruct (tm_last_training_at m) as [t|]; [|reflexivity].
    specialize (Hrecent t eq_refl). apply Z.leb_gt in Hrecent. rewrite Hrecent.
    reflexivity.
  - intros Hge Hlock. apply Z.leb_le in Hge. rewrite Hge, Hlock. reflexivity.
  - intros Hge Hlock. apply Z.leb_le in Hge. rewrite Hge, Hlock. cbn [fst snd negb].
    split; [reflexivity|].
    destruct (train _ phc_id "patient_threshold") as [s4 [e|result]];
      [split; reflexivity|].
    destruct (error_set result); split; reflexivity.
Qed.

Lemma patient_threshold_trigger_witness :
  acquires_training_lock 0 lock_example_store "PHC_1" = true
  /\ result_reason
       (snd (handle_patient_creation_with raising_train 0 lock_example_store "PHC_1"))
     = "patient_threshold".
Proof.
  destruct (patient_threshold_trigger raising_train 0 lock_example_store "PHC_1"
              {| tm_phc_id := "PHC_1"; tm_last_training_at := None;
                 tm_patients_since_last_training := 19;
                 tm_last_aggregated_version := 0;
                 tm_training_in_progress := false; tm_updated_at := 0 |})
    as (_ & _ & H).
  - reflexivity.
  - intros t Ht. discriminate Ht.
  - destruct H as (H1 & H2 & _); [vm_compute; discriminate | reflexivity |].
    split; [exact H1 | exact H2].
Defined.

(** X14.  The first patient event of a site creates its metadata with one
    patient counted and never trains; the reason reported is "no_trigger"
    (the trigger's own "metadata_initialized" cannot reach the caller, the
    counter having created the metadata first). *)
Theorem first_patient_initializes_counter
    (train : Store -> string -> string -> Store * (string + TrainReport))
    (now : Z) (s : Store) (phc_id : string) :
  find_metadata s phc_id = None ->
  handle_patient_creation_with train now s phc_id
    = (create_metadata s (new_metadata now phc_id 1), NotTrained "no_trigger" phc_id)
  /\ find_metadata (fst (handle_patient_creation_with train now s phc_id)) phc_id
       = Some (new_metadata now phc_id 1).
Proof.
  intro Hnone.
  pose proof (find_metadata_counted now s phc_id) as Hc.
  rewrite handle_patient_creation_with_steps. cbv zeta.
  unfold counted in *. rewrite Hnone in *.
  unfold increment_patient_count in *. rewrite Hnone in *.
  split; [reflexivity | exact Hc].
Qed.

Lemma first_patient_initializes_counter_witness :
  handle_patient_creation_with raising_train 5 empty_store "PHC_1"
    = (create_metadata empty_store (new_metadata 5 "PHC_1" 1),
       NotTrained "no_trigger" "PHC_1").
Proof.
  apply (first_patient_initializes_counter raising_train 5 empty_store "PHC_1").
  reflexivity.
Defined.

Lemma record_training_completion_metadata (now : Z) (s : Store) (phc_id : string)
    (success : bool) (m : TrainingMetadata) :
  find_metadata s phc_id = Some m ->
  find_metadata (record_training_completion now s phc_id success) phc_id =
    Some {| tm_phc_id := tm_phc_id m;
            tm_last_training_at :=
              if success then Some now else tm_last_training_at m;
            tm_patients_since_last_training :=
              if success then 0%Z else tm_patients_since_last_training m;
            tm_last_aggregated_version := tm_last_aggregated_version m;
            tm_training_in_progress := false;
            tm_updated_at := now |}.
Proof.
  intro E. unfold record_training_completion. rewrite E.
  apply (find_save_metadata s _ m phc_id E). simpl.
  exact (find_metadata_phc s phc_id m E).
Qed.

Lemma find_metadata_set_training_lock (s : Store) (phc_id : string)
    (m : TrainingMetadata) :
  find_metadata s phc_id = Some m ->
  find_metadata (set_training_lock s m) phc_id =
    Some {| tm_phc_id := tm_phc_id m;
            tm_last_training_at := tm_last_training_at m;
            tm_patients_since_last_training := tm_patients_since_last_training m;
            tm_last_aggregated_version := tm_last_aggregated_version m;
            tm_training_in_progress := true;
            tm_updated_at := tm_updated_at m |}.
Proof.
  intro E. unfold set_training_lock.
  apply (find_save_metadata s _ m phc_id E). simpl.
  exact (find_metadata_phc s phc_id m E).
Qed.

Lemma train_local_model_error_nonempty (ml : MLBackend) (X : matrix)
    (y feature_columns : list string) (error : string) (n : nat) :
  train_local_model ml X y feature_columns = TrainError error n -> error <> "".
Proof.
  unfold train_local_model, train_local_model_body.
  repeat match goal with
         | |- context [if ?c then _ else _] => destruct c
         | |- context [bind ?c _] => destruct c; cbn [bind]
         end;
    cbv zeta;
    repeat match goal with
           | |- context [if ?c then _ else _] => destruct c
           | |- context [bind ?c _] => destruct c; cbn [bind]
           end;
    intro H; inversion H; subst; discriminate.
Qed.

Lemma train_federated_model_error_nonempty (ml : MLBackend) (now : Z) (s : Store)
    (phc_id trigger_reason : string) :
  tr_error (snd (train_federated_model ml now s phc_id trigger_reason)) <> Some "".
Proof.
  unfold train_federated_model.
  destruct (patients_of s phc_id) as [|p0 pts0]; [discriminate|].
  destruct (preprocess_data (p0 :: pts0) training_feature_columns)
    as [[[X y] features]|msg]; [|discriminate].
  destruct (length X =? 0)%nat; [discriminate|].
  destruct (train_local_model ml X y features) as [error n|md] eqn:Etrain.
  { simpl. intro H. injection H as H.
    exact (train_local_model_error_nonempty _ _ _ _ _ _ Etrain H). }
  unfold evaluate_model.
  destruct (evaluate_model_body ml md) as [r|msg] eqn:Eev; [|discriminate].
  destruct (evaluate_model_body_accuracy ml md r Eev) as (metrics & a & b & -> & _).
  cbv zeta.
  destruct (detect_model_drift _ _ _) as [s3 drift_result].
  destruct (calculate_composite_risk_score _ _ _) as [s4 risk_result].
  destruct (try_automatic_aggregation _ _) as [s5 agg].
  discriminate.
Qed.

Lemma error_set_train (ml : MLBackend) (now : Z) (s : Store)
    (phc_id trigger_reason : string) :
  error_set (snd (train_federated_model ml now s phc_id trigger_reason))
    = tr_error (snd (train_federated_model ml now s phc_id trigger_reason)).
Proof.
  pose proof (train_federated_model_error_nonempty ml now s phc_id trigger_reason)
    as H.
  unfold error_set.
  destruct (tr_error (snd (train_federated_model ml now s phc_id trigger_reason)))
    as [[|c e]|]; [exfalso; apply H; reflexivity | reflexivity | reflexivity].
Qed.

Lemma train_federated_model_error_store (ml : MLBackend) (now : Z) (s : Store)
    (phc_id trigger_reason : string) :
  tr_error (snd (train_federated_model ml now s phc_id trigger_reason)) <> None ->
  fst (train_federated_model ml now s phc_id trigger_reason) = s.
Proof.
  unfold train_federated_model.
  destruct (patients_of s phc_id) as [|p0 pts0]; [reflexivity|].
  destruct (preprocess_data (p0 :: pts0) training_feature_columns)
    as [[[X y] features]|msg]; [|reflexivity].
  destruct (length X =? 0)%nat; [reflexivity|].
  destruct (train_local_model ml X y features) as [error n|md]; [reflexivity|].
  destruct (evaluate_model ml (TrainOk md)) as [error n|error|metrics n];
    [reflexivity | reflexivity |].
  cbv zeta.
  destruct (detect_model_drift _ _ _) as [s3 drift_result].
  destruct (calculate_composite_risk_score _ _ _) as [s4 risk_result].
  destruct (try_automatic_aggregation _ _) as [s5 agg].
  simpl. intro H. exfalso. apply H. reflexivity.
Qed.

(** The pipeline with the repository's trainer, by the outcome of the run. *)
Lemma handle_patient_creation_steps (ml : MLBackend) (now : Z) (s : Store)
    (phc_id : string) :
  handle_patient_creation ml now s phc_id =
    let s1 := increment_patient_count now s phc_id in
    let m1 := counted now s phc_id in
    let reason := snd (trigger_decision now m1) in
    if negb (fst (trigger_decision now m1))
    then (s1, NotTrained reason phc_id)
    else if tm_training_in_progress m1
    then (s1, NotTrained "training_in_progress" phc_id)
    else
      let run := train_federated_model ml now (set_training_lock s1 m1) phc_id reason in
      match tr_error (snd run) with
      | Some error =>
          (record_training_completion now (set_training_lock s1 m1) phc_id false,
           TrainingFailed error phc_id reason)
      | None =>
          (record_training_completion now (fst run) phc_id true,
           Trained phc_id reason
             (py_round (tr_accuracy (snd run)) 4)
             (tr_version (snd run)) (tr_version_string (snd run))
             (tr_num_samples (snd run))
             (py_round (tr_precision (snd run)) 4)
             (py_round (tr_recall (snd run)) 4)
             (py_round (tr_f1_score (snd run)) 4)
             (tr_timestamp (snd run)))
      end.
Proof.
  unfold handle_patient_creation. rewrite handle_patient_creation_with_steps.
  cbv zeta.
  destruct (negb (fst (trigger_decision now (counted now s phc_id))));
    [reflexivity|].
  destruct (tm_training_in_progress (counted now s phc_id)); [reflexivity|].
  pose proof (error_set_train ml now
                (set_training_lock (increment_patient_count now s phc_id)
                   (counted now s phc_id))
                phc_id (snd (trigger_decision now (counted now s phc_id)))) as He.
  pose proof (train_federated_model_error_store ml now
                (set_training_lock (increment_patient_count now s phc_id)
                   (counted now s phc_id))
                phc_id (snd (trigger_decision now (counted now s phc_id)))) as Hs.
  destruct (train_federated_model ml now _ phc_id _) as [s4 result].
  cbn [fst snd] in *. rewrite He.
  destruct (tr_error result) as [error|]; [|reflexivity].
  rewrite Hs by discriminate. reflexivity.
Qed.

(** X15.  After a patient event that trained the site's model, the site's
    counter is back at zero and its last training is dated now: the next
    patient event within 24 hours only counts the patient and trains
    nothing. *)
Theorem no_retraining_within_a_day (ml : MLBackend)
    (train' : Store -> string -> string -> Store * (string + TrainReport))
    (now now' : Z) (s : Store) (phc_id : string) :
  model_trained (snd (handle_patient_creation ml now s phc_id)) = true ->
  (now' - now < TIME_THRESHOLD)%Z ->
  let s' := fst (handle_patient_creation ml now s phc_id) in
  (exists m, find_metadata s' phc_id = Some m
             /\ tm_patients_since_last_training m = 0%Z
             /\ tm_last_training_at m = Some now
             /\ tm_training_in_progress m = false)
  /\ handle_patient_creation_with train' now' s' phc_id
       = (increment_patient_count now' s' phc_id, NotTrained "no_trigger" phc_id).
Proof.
  intros Htrained Hsoon.
  rewrite handle_patient_creation_steps in *. cbv zeta in *.
  set (s1 := increment_patient_count now s phc_id) in *.
  set (m1 := counted now s phc_id) in *.
  destruct (negb (fst (trigger_decision now m1))); [discriminate|].
  destruct (tm_training_in_progress m1); [discriminate|].
  set (s3 := set_training_lock s1 m1) in *.
  set (reason := snd (trigger_decision now m1)) in *.
  destruct (tr_error (snd (train_federated_model ml now s3 phc_id reason)))
    as [error|] eqn:Eerr; [discriminate|].
  destruct (train_federated_model_success ml now s3 phc_id reason Eerr)
    as (metrics & n & _ & _ & _ & _ & _ & Hmeta & _).
  cbv zeta in Hmeta. cbn [fst].
  set (s4 := fst (train_federated_model ml now s3 phc_id reason)) in *.
  assert (H3 : exists m3, find_metadata s3 phc_id = Some m3).
  { eexists. apply find_metadata_set_training_lock.
    apply find_metadata_counted. }
  destruct H3 as (m3 & H3).
  assert (H4 : find_metadata s4 phc_id
               = find_metadata (record_training_completion now s3 phc_id true) phc_id)
    by (apply find_metadata_ext; exact Hmeta).
  rewrite (record_training_completion_metadata now s3 phc_id true m3 H3) in H4.
  pose proof (record_training_completion_metadata now s4 phc_id true _ H4) as H5.
  cbn [tm_phc_id tm_last_training_at tm_patients_since_last_training
       tm_last_aggregated_version] in H5.
  split.
  - eexists. split; [exact H5|]. repeat split.
  - rewrite handle_patient_creation_with_steps. cbv zeta.
    unfold counted. rewrite H5. unfold trigger_decision.
    cbn [tm_patients_since_last_training tm_last_training_at tm_training_in_progress].
    change (PATIENT_THRESHOLD <=? 0 + 1)%Z with false.
    apply Z.leb_gt in Hsoon. rewrite Hsoon. reflexivity.
Qed.

Lemma no_retraining_within_a_day_witness :
  model_trained (snd (handle_patient_creation toy_backend 0 ready_example_store
                        "PHC_1")) = true
  /\ snd (handle_patient_creation_with raising_train 3600
            (fst (handle_patient_creation toy_backend 0 ready_example_store "PHC_1"))
            "PHC_1")
     = NotTrained "no_trigger" "PHC_1".
Proof.
  split; [vm_compute; reflexivity|].
  destruct (no_retraining_within_a_day toy_backend raising_train 0 3600
              ready_example_store "PHC_1") as [_ H].
  - vm_compute. reflexivity.
  - vm_compute. reflexivity.
  - rewrite H. reflexivity.
Defined.

Lemma trigger_decision_mono (now now' : Z) (m m' : TrainingMetadata) :
  fst (trigger_decision now m) = true ->
  (now <= now')%Z ->
  (tm_patients_since_last_training m <= tm_patients_since_last_training m')%Z ->
  tm_last_training_at m' = tm_last_training_at m ->
  fst (trigger_decision now' m') = true.
Proof.
  unfold trigger_decision. intros H Hnow Hc ->.
  destruct (PATIENT_THRESHOLD <=? tm_patients_since_last_training m)%Z eqn:E.
  - apply Z.leb_le in E.
    replace (PATIENT_THRESHOLD <=? tm_patients_since_last_training m')%Z with true
      by (symmetry; apply Z.leb_le; lia).
    reflexivity.
  - destruct (PATIENT_THRESHOLD <=? tm_patients_since_last_training m')%Z;
      [reflexivity|].
    destruct (tm_last_training_at m) as [t|]; [|discriminate].
    destruct (TIME_THRESHOLD <=? now - t)%Z eqn:Et; [|discriminate].
    apply Z.leb_le in Et.
    replace (TIME_THRESHOLD <=? now' - t)%Z with true
      by (symmetry; apply Z.leb_le; lia).
    reflexivity.
Qed.

(** X16.  A training run that fails keeps the site's counter and the date of
    its last training, and frees the lock: the next patient event (at the same
    or a later time) attempts the training again. *)
Theorem failed_training_retriggers (ml : MLBackend) (now now' : Z) (s : Store)
    (phc_id : string) :
  training_failed (snd (handle_patient_creation ml now s phc_id)) = true ->
  (now <= now')%Z ->
  let s' := fst (handle_patient_creation ml now s phc_id) in
  local_models s' = local_models s
  /\ find_metadata s' phc_id =
       Some {| tm_phc_id := phc_id;
               tm_last_training_at := tm_last_training_at (counted now s phc_id);
               tm_patients_since_last_training :=
                 tm_patients_since_last_training (counted now s phc_id);
               tm_last_aggregated_version :=
                 tm_last_aggregated_version (counted now s phc_id);
               tm_training_in_progress := false;
               tm_updated_at := now |}
  /\ acquires_training_lock now' s' phc_id = true.
Proof.
  intros Hfailed Hlater.
  rewrite handle_patient_creation_steps in *. cbv zeta in *.
  set (s1 := increment_patient_count now s phc_id) in *.
  pose proof (find_metadata_counted now s phc_id) as H1. fold s1 in H1.
  pose proof (counted_phc now s phc_id) as Hphc.
  set (m1 := counted now s phc_id) in *.
  destruct (fst (trigger_decision now m1)) eqn:Etrig; [|discriminate].
  cbn [negb] in *.
  destruct (tm_training_in_progress m1) eqn:Elock; [discriminate|].
  set (s3 := set_training_lock s1 m1) in *.
  destruct (tr_error (snd (train_federated_model ml now s3 phc_id _)))
    as [error|]; [|discriminate].
  cbn [fst].
  pose proof (find_metadata_set_training_lock s1 phc_id m1 H1) as H3. fold s3 in H3.
  pose proof (record_training_completion_metadata now s3 phc_id false _ H3) as H5.
  cbn [tm_phc_id tm_last_training_at tm_patients_since_last_training
       tm_last_aggregated_version] in H5.
  rewrite Hphc in H5.
  split; [|split; [exact H5|]].
  - rewrite record_training_completion_local_models. unfold s3, set_training_lock.
    simpl. unfold s1, increment_patient_count.
    destruct (find_metadata s phc_id); reflexivity.
  - rewrite acquires_training_lock_steps. unfold counted at 1 2. rewrite H5.
    cbn [tm_training_in_progress negb]. rewrite andb_true_r.
    apply (trigger_decision_mono now now' m1); [exact Etrig | exact Hlater | |];
      simpl; [lia | reflexivity].
Qed.

Lemma failed_training_retriggers_witness :
  training_failed (snd (handle_patient_creation toy_backend 0 failing_example_store
                          "PHC_1")) = true
  /\ acquires_training_lock 60
       (fst (handle_patient_creation toy_backend 0 failing_example_store "PHC_1"))
       "PHC_1" = true.
Proof.
  split; [vm_compute; reflexivity|].
  apply (failed_training_retriggers toy_backend 0 60 failing_example_store "PHC_1").
  - vm_compute. reflexivity.
  - vm_compute. discriminate.
Defined.

(** ** District risk *)

Lemma collect_phc_risks_patients (now : Z) (s : Store) (phc_ids : list string)
    (w : Z) :
  patients (fst (collect_phc_risks now s phc_ids w)) = patients s.
Proof.
  revert s. induction phc_ids as [|p rest IH]; intro s; simpl; [reflexivity|].
  pose proof (calculate_phc_risk_score_patients now s p w) as Hp.
  destruct (calculate_phc_risk_score now s p w) as [s1 d]. simpl in Hp.
  specialize (IH s1).
  destruct (collect_phc_risks now s1 rest w) as [s2 ds]. simpl in *.
  congruence.
Qed.

Lemma calculate_city_risk_score_patients (now : Z) (s : Store) (city : string)
    (w : Z) :
  patients (fst (calculate_city_risk_score now s city w)) = patients s.
Proof.
  unfold calculate_city_risk_score.
  destruct (map fst _) as [|p0 rest0]; [reflexivity|].
  pose proof (collect_phc_risks_patients now s (p0 :: rest0) w) as Hp.
  destruct (collect_phc_risks now s (p0 :: rest0) w) as [s1 risks]. simpl in Hp.
  destruct (_ || _); simpl; [exact Hp|].
  rewrite upsert_risk_score_patients. exact Hp.
Qed.

(** The city result, from the site results. *)
Lemma calculate_city_risk_score_snd (now : Z) (s : Store) (city : string) (w : Z) :
  let phc_ids := sites_of_city city in
  let phc_risks :=
    map (fun phc_id => snd (calculate_phc_risk_score now s phc_id w)) phc_ids in
  snd (calculate_city_risk_score now s city w) =
    match phc_ids with
    | [] => CityNotFound city
    | _ :: _ =>
        if (total_patient_count phc_risks =? 0)%nat
        then CityInsufficientData city (length phc_ids) phc_risks
        else CityScore
               {| ci_city := city;
                  ci_city_risk_score :=
                    py_round (min_1 (weighted_risk_sum phc_risks
                                       (total_patient_count phc_risks))) 4;
                  ci_num_phcs := length phc_ids;
                  ci_total_patients := total_patient_count phc_risks;
                  ci_phc_breakdown := phc_risks |}
    end.
Proof.
  intros phc_ids phc_risks. unfold calculate_city_risk_score.
  fold (sites_of_city city). fold phc_ids.
  destruct phc_ids as [|p0 rest0] eqn:Eids; [reflexivity|]. rewrite <- Eids.
  pose proof (collect_phc_risks_results now s phc_ids w) as Hres.
  destruct (collect_phc_risks now s phc_ids w) as [s1 risks]. simpl in Hres.
  assert (Hrisks : risks = phc_risks) by (rewrite Hres, Eids; reflexivity).
  rewrite Hrisks.
  assert (Hnil : match phc_risks with [] => true | _ :: _ => false end = false)
    by reflexivity.
  rewrite Hnil. cbn [orb].
  destruct (total_patient_count phc_risks =? 0)%nat; reflexivity.
Qed.

Lemma calculate_city_risk_score_result (now : Z) (s s' : Store) (city : string)
    (w : Z) :
  patients s = patients s' ->
  snd (calculate_city_risk_score now s city w)
  = snd (calculate_city_risk_score now s' city w).
Proof.
  intro H. rewrite !calculate_city_risk_score_snd. cbv zeta.
  rewrite (map_ext _ _ (fun phc_id => calculate_phc_risk_score_result now s s' phc_id w H)).
  reflexivity.
Qed.

Lemma pr_patient_count_window (now : Z) (s : Store) (phc_id : string) (w : Z) :
  pr_patient_count (snd (calculate_phc_risk_score now s phc_id w))
  = length (patients_in_window now s phc_id w).
Proof.
  unfold calculate_phc_risk_score.
  destruct (length (patients_in_window now s phc_id w) =? 0)%nat eqn:E; simpl;
    [apply Nat.eqb_eq in E; congruence | reflexivity].
Qed.

Lemma total_patient_count_zero (l : list PhcRisk) :
  Forall (fun d => pr_patient_count d = 0%nat) l -> total_patient_count l = 0%nat.
Proof.
  induction 1 as [|d l Hd _ IH]; [reflexivity|].
  unfold total_patient_count. simpl. rewrite total_patient_count_acc. lia.
Qed.

Lemma city_without_patients_result (now : Z) (s : Store) (city : string) (w : Z) :
  city_without_patients now s city w ->
  snd (calculate_city_risk_score now s city w) = CityNotFound city
  \/ snd (calculate_city_risk_score now s city w)
     = CityInsufficientData city (length (sites_of_city city))
         (map (fun phc_id => snd (calculate_phc_risk_score now s phc_id w))
              (sites_of_city city)).
Proof.
  intro Hnone. rewrite calculate_city_risk_score_snd. cbv zeta.
  destruct (sites_of_city city) as [|p0 rest0] eqn:Eids; [left; reflexivity|].
  right. rewrite total_patient_count_zero; [reflexivity|].
  apply Forall_forall. intros d Hd. apply in_map_iff in Hd.
  destruct Hd as (phc_id & <- & Hin).
  rewrite pr_patient_count_window. unfold city_without_patients in Hnone.
  rewrite Eids in Hnone. rewrite (Hnone phc_id Hin). reflexivity.
Qed.

Lemma city_score_has_patients (now : Z) (s : Store) (city : string) (w : Z)
    (r : CityRisk) :
  snd (calculate_city_risk_score now s city w) = CityScore r ->
  ci_total_patients r <> 0%nat.
Proof.
  rewrite calculate_city_risk_score_snd. cbv zeta.
  destruct (sites_of_city city); [discriminate|].
  destruct (total_patient_count _ =? 0)%nat eqn:E; [discriminate|].
  intro H. injection H as <-. simpl. apply Nat.eqb_neq. exact E.
Qed.

Lemma collect_city_risks_patients (now : Z) (s : Store) (cities : list string)
    (w : Z) :
  patients (fst (collect_city_risks now s cities w)) = patients s.
Proof.
  revert s. induction cities as [|city rest IH]; intro s; simpl; [reflexivity|].
  pose proof (calculate_city_risk_score_patients now s city w) as Hp.
  destruct (calculate_city_risk_score now s city w) as [s1 [c|c n l|r]];
    simpl in Hp; try exact Hp.
  specialize (IH s1).
  destruct (collect_city_risks now s1 rest w) as [s2 [l|msg]]; simpl in *; congruence.
Qed.

Lemma collect_city_risks_missing (now : Z) (s s' : Store) (cities : list string)
    (w : Z) (city : string) :
  patients s' = patients s ->
  In city cities ->
  city_without_patients now s city w ->
  snd (collect_city_risks now s' cities w) = Raise "'total_patients'".
Proof.
  intros Hp Hin Hnone. revert s' Hp.
  induction cities as [|c rest IH]; intros s' Hp; [destruct Hin|]. simpl.
  pose proof (calculate_city_risk_score_patients now s' c w) as Hp1.
  pose proof (calculate_city_risk_score_result now s' s c w Hp) as Hres.
  destruct (calculate_city_risk_score now s' c w) as [s1 [c0|c0 n l|r]];
    simpl in Hp1, Hres; try reflexivity.
  destruct Hin as [->|Hin].
  - exfalso. destruct (city_without_patients_result now s city w Hnone) as [H|H];
      rewrite H in Hres; discriminate.
  - specialize (IH Hin s1 (eq_trans Hp1 Hp)).
    destruct (collect_city_risks now s1 rest w) as [s2 [l|m]]; simpl in *;
      [discriminate | exact IH].
Qed.

Lemma total_city_patients_acc (l : list CityRisk) (a : nat) :
  fold_left (fun acc d => (acc + ci_total_patients d)%nat) l a
  = (a + total_city_patients l)%nat.
Proof.
  unfold total_city_patients. revert a.
  induction l as [|d l IH]; intro a; simpl; [lia|].
  rewrite (IH (a + ci_total_patients d)%nat), (IH (ci_total_patients d)). lia.
Qed.

Lemma collect_city_risks_ok (now : Z) (s : Store) (cities : list string) (w : Z)
    (city_risks : list CityRisk) :
  snd (collect_city_risks now s cities w) = Ok city_risks ->
  Forall2 (fun city r => snd (calculate_city_risk_score now s city w) = CityScore r)
          cities city_risks.
Proof.
  assert (H : forall s', patients s' = patients s ->
                forall city_risks,
                  snd (collect_city_risks now s' cities w) = Ok city_risks ->
                  Forall2 (fun city r =>
                             snd (calculate_city_risk_score now s city w) = CityScore r)
                          cities city_risks).
  { induction cities as [|c rest IH]; intros s' Hp l; simpl.
    - intro H. injection H as <-. constructor.
    - pose proof (calculate_city_risk_score_patients now s' c w) as Hp1.
      pose proof (calculate_city_risk_score_result now s' s c w Hp) as Hres.
      destruct (calculate_city_risk_score now s' c w) as [s1 [c0|c0 n l0|r]];
        simpl in Hp1, Hres; try discriminate.
      specialize (IH s1 (eq_trans Hp1 Hp)).
      destruct (collect_city_risks now s1 rest w) as [s2 [l1|m]]; simpl in *;
        [|discriminate].
      intro H. injection H as <-. constructor; [symmetry; exact Hres|].
      apply IH. reflexivity. }
  apply H. reflexivity.
Qed.

(** X22.  The district score needs patients in every city.  As soon as one
    city of the list has no patient in the window, its result carries no
    ['total_patients'] and the district computation answers with the error
    "'total_patients'" (the caught [KeyError]), not with a score; and for a
    non-empty list of cities the answer "Insufficient data" is never given. *)
Theorem district_risk_needs_every_city (cities : list string) (now : Z) (s : Store)
    (district_id : string) (time_window_days : Z) :
  (forall city, In city cities ->
     city_without_patients now s city time_window_days ->
     snd (calculate_district_risk_score cities now s district_id time_window_days)
       = DistrictError "'total_patients'" district_id)
  /\ (forall n,
        snd (calculate_district_risk_score cities now s district_id time_window_days)
          = DistrictInsufficientData district_id n ->
        cities = []).
Proof.
  split.
  - intros city Hin Hnone. unfold calculate_district_risk_score.
    pose proof (collect_city_risks_missing now s s cities time_window_days city
                  eq_refl Hin Hnone) as H.
    destruct (collect_city_risks now s cities time_window_days) as [s1 [l|msg]];
      simpl in H; [discriminate|]. injection H as ->. reflexivity.
  - intros n. unfold calculate_district_risk_score.
    pose proof (collect_city_risks_ok now s cities time_window_days) as Hok.
    destruct (collect_city_risks now s cities time_window_days) as [s1 [l|msg]];
      [|discriminate].
    specialize (Hok l eq_refl).
    destruct Hok as [|city r cities' l' Hr Hrest]; [reflexivity|].
    cbn [orb]. unfold total_city_patients. simpl fold_left.
    rewrite total_city_patients_acc.
    pose proof (city_score_has_patients _ _ _ _ _ Hr) as Hpos.
    replace (ci_total_patients r + total_city_patients l' =? 0)%nat with false
      by (symmetry; apply Nat.eqb_neq; lia).
    discriminate.
Qed.

Lemma district_risk_needs_every_city_witness :
  snd (calculate_district_risk_score district_cities 0 city_example_store
         DISTRICT_ID 7)
    = DistrictError "'total_patients'" DISTRICT_ID.
Proof.
  apply (proj1 (district_risk_needs_every_city district_cities 0 city_example_store
                  DISTRICT_ID 7) "Kinathukadavu").
  - right. right. left. reflexivity.
  - intros phc_id Hin. vm_compute in Hin. destruct Hin as [<-|[]].
    vm_compute. reflexivity.
Defined.

Lemma weighted_city_risk_sum_acc (l : list CityRisk) (t : nat) (a : Q) :
  fold_left
    (fun district_risk_score d =>
       district_risk_score
       + ci_city_risk_score d * (Qnat (ci_total_patients d) / Qnat t))
    l a
  == a + Qsum (map (fun d => ci_city_risk_score d * Qnat (ci_total_patients d)) l)
         / Qnat t.
Proof.
  revert a. induction l as [|d l IH]; intro a.
  - simpl. unfold Qsum. simpl. unfold Qdiv. ring.
  - simpl fold_left. rewrite IH. simpl map. rewrite Qsum_cons.
    unfold Qdiv. ring.
Qed.

Lemma total_city_patients_Qsum (l : list CityRisk) :
  Qnat (total_city_patients l) == Qsum (map (fun d => Qnat (ci_total_patients d)) l).
Proof.
  induction l as [|d l IH]; [reflexivity|].
  unfold total_city_patients. simpl fold_left. rewrite total_city_patients_acc.
  simpl map. rewrite Qsum_cons, <- IH. apply Qnat_plus.
Qed.

Lemma weighted_city_risk_sum_average (l : list CityRisk) :
  weighted_city_risk_sum l (total_city_patients l)
  == weighted_average (city_risk_weights l).
Proof.
  unfold weighted_city_risk_sum. rewrite weighted_city_risk_sum_acc.
  unfold weighted_average, city_risk_weights. rewrite !map_map. simpl.
  rewrite total_city_patients_Qsum. ring.
Qed.

(** X23.  When the district computation returns a score, every city of the
    list contributed its own result, and the district risk is the
    patient-count-weighted average of the cities' reported (four-decimal)
    risks, capped at 1 and rounded to four decimals; the district row of the
    store carries the unrounded value and the patient total. *)
Theorem district_risk_formula (cities : list string) (now : Z) (s s' : Store)
    (district_id : string) (time_window_days : Z) (r : DistrictRisk) :
  calculate_district_risk_score cities now s district_id time_window_days
    = (s', DistrictScore r) ->
  Forall2 (fun city c =>
             snd (calculate_city_risk_score now s city time_window_days) = CityScore c)
          cities (di_city_breakdown r)
  /\ di_num_cities r = length cities
  /\ di_total_patients r = total_city_patients (di_city_breakdown r)
  /\ di_total_patients r <> 0%nat
  /\ exists row,
       In row (risk_scores s')
       /\ rs_district_id row = district_id
       /\ rs_phc_id row = None /\ rs_city row = None
       /\ rs_patient_count row = Z.of_nat (di_total_patients r)
       /\ rs_district_risk_score row
          == Qmin (weighted_average (city_risk_weights (di_city_breakdown r))) 1
       /\ di_district_risk_score r = py_round (rs_district_risk_score row) 4.
Proof.
  unfold calculate_district_risk_score.
  pose proof (collect_city_risks_ok now s cities time_window_days) as Hok.
  destruct (collect_city_risks now s cities time_window_days) as [s1 [l|msg]];
    [|discriminate].
  specialize (Hok l eq_refl).
  destruct (match l with [] => true | _ :: _ => false end
            || (total_city_patients l =? 0)%nat) eqn:Eguard; [discriminate|].
  apply orb_false_iff in Eguard. destruct Eguard as [_ Etot].
  apply Nat.eqb_neq in Etot.
  set (score := min_1 _).
  match goal with
  | |- context [upsert_risk_score s1 ?t ?u ?f] =>
      destruct (upsert_risk_score_row s1 t u f) as (row & Hin & Hrow)
  end.
  intro H. injection H as <- <-. simpl.
  split; [exact Hok|]. split; [reflexivity|]. split; [reflexivity|].
  split; [exact Etot|].
  exists row. split; [exact Hin|].
  assert (Hscore : score == Qmin (weighted_average (city_risk_weights l)) 1).
  { unfold score. rewrite min_1_spec. apply Q.min_compat; [|reflexivity].
    apply weighted_city_risk_sum_average. }
  destruct Hrow as [->|(old & Ht & ->)]; simpl.
  - repeat (split; [first [reflexivity | exact Hscore]|]). reflexivity.
  - apply andb_true_iff in Ht. destruct Ht as [Ht _].
    apply andb_true_iff in Ht. destruct Ht as [Ht Hcity].
    apply andb_true_iff in Ht. destruct Ht as [Hd Hphc].
    apply option_string_eqb_eq in Hcity, Hphc. apply String.eqb_eq in Hd.
    split; [exact Hd|]. split; [exact Hphc|]. split; [exact Hcity|].
    repeat (split; [first [reflexivity | exact Hscore]|]). reflexivity.
Qed.

Lemma district_risk_formula_witness :
  exists s' r,
    calculate_district_risk_score district_cities 0 district_example_store
      DISTRICT_ID 7 = (s', DistrictScore r)
    /\ di_total_patients r = 200%nat
    /\ di_num_cities r = 3%nat.
Proof.
  destruct (calculate_district_risk_score district_cities 0 district_example_store
              DISTRICT_ID 7) as [s' [e d|d n|r]] eqn:E;
    [vm_compute in E; discriminate | vm_compute in E; discriminate |].
  exists s', r. split; [reflexivity|].
  destruct (district_risk_formula district_cities 0 district_example_store s'
              DISTRICT_ID 7 r E) as (_ & Hn & _).
  split; [|exact Hn].
  vm_compute in E. injection E as _ <-. reflexivity.
Defined.

(** ** Stored risk rows *)

Lemma update_first_idem {A : Type} (test : A -> bool) (upd : A -> A) (l l' : list A) :
  (forall x, test x = true -> test (upd x) = true) ->
  (forall x, upd (upd x) = upd x) ->
  update_first test upd l = Some l' ->
  update_first test upd l' = Some l'.
Proof.
  intros Ht Hu. revert l'. induction l as [|x l IH]; intros l' H; simpl in H;
    [discriminate|].
  destruct (test x) eqn:E.
  - injection H as <-. simpl. rewrite (Ht x E), Hu. reflexivity.
  - destruct (update_first test upd l) as [l0|]; [|discriminate].
    injection H as <-. simpl. rewrite E, (IH l0 eq_refl). reflexivity.
Qed.

Lemma update_first_app_fresh {A : Type} (test : A -> bool) (upd : A -> A)
    (l : list A) (y : A) :
  update_first test upd l = None -> test y = true ->
  update_first test upd (l ++ [y]) = Some (l ++ [upd y])%list.
Proof.
  intros Hn Hy. induction l as [|x l IH]; simpl in *.
  - rewrite Hy. reflexivity.
  - destruct (test x); [discriminate|].
    destruct (update_first test upd l); [discriminate|].
    rewrite (IH eq_refl). reflexivity.
Qed.

Lemma update_first_length {A : Type} (test : A -> bool) (upd : A -> A)
    (l l' : list A) :
  update_first test upd l = Some l' -> length l' = length l.
Proof.
  revert l'. induction l as [|x l IH]; intros l' H; simpl in H; [discriminate|].
  destruct (test x).
  - injection H as <-. reflexivity.
  - destruct (update_first test upd l) as [l0|]; [|discriminate].
    injection H as <-. simpl. rewrite (IH l0 eq_refl). reflexivity.
Qed.

Lemma update_first_found {A : Type} (test : A -> bool) (upd : A -> A)
    (l : list A) (x : A) :
  In x l -> test x = true -> update_first test upd l <> None.
Proof.
  induction l as [|y l IH]; simpl; [intros []|].
  intros Hin Hx. destruct (test y) eqn:E; [discriminate|].
  destruct Hin as [->|Hin]; [congruence|].
  specialize (IH Hin Hx). destruct (update_first test upd l); [discriminate|].
  contradiction.
Qed.

Lemma upsert_idempotent (s : Store) (test : RiskScore -> bool)
    (upd : RiskScore -> RiskScore) (fresh : RiskScore) :
  (forall x, test x = true -> test (upd x) = true) ->
  (forall x, upd (upd x) = upd x) ->
  test fresh = true -> upd fresh = fresh ->
  upsert_risk_score (upsert_risk_score s test upd fresh) test upd fresh
    = upsert_risk_score s test upd fresh.
Proof.
  intros Ht Hu Hf Huf. unfold upsert_risk_score at 2 3.
  destruct (update_first test upd (risk_scores s)) as [l|] eqn:E.
  - unfold upsert_risk_score. simpl.
    rewrite (update_first_idem test upd _ l Ht Hu E). reflexivity.
  - unfold upsert_risk_score. simpl.
    rewrite (update_first_app_fresh test upd _ fresh E Hf), Huf. reflexivity.
Qed.

Lemma upsert_no_growth (s : Store) (test : RiskScore -> bool)
    (upd upd' : RiskScore -> RiskScore) (fresh fresh' : RiskScore) :
  (forall x, test x = true -> test (upd x) = true) ->
  test fresh = true ->
  length (risk_scores
            (upsert_risk_score (upsert_risk_score s test upd fresh) test upd' fresh'))
  = length (risk_scores (upsert_risk_score s test upd fresh)).
Proof.
  intros Ht Hf.
  destruct (upsert_risk_score_row s test upd fresh) as (row & Hin & Hrow).
  assert (Hrt : test row = true).
  { destruct Hrow as [->|(old & Hold & ->)]; [exact Hf | exact (Ht old Hold)]. }
  pose proof (update_first_found test upd' _ row Hin Hrt) as Hfound.
  unfold upsert_risk_score at 1.
  destruct (update_first test upd' _) as [l|] eqn:E; [|contradiction].
  simpl. exact (update_first_length _ _ _ _ E).
Qed.

(** X21.  The site risk is stored by update-or-insert: once a site's risk has
    been computed, computing it again at the same time leaves the store as it
    is, and computing it at any later time or over another window never adds
    a row. *)
Theorem site_risk_stored_once (now now' : Z) (s : Store) (phc_id : string)
    (time_window_days time_window_days' : Z) :
  patients_in_window now s phc_id time_window_days <> [] ->
  let s1 := fst (calculate_phc_risk_score now s phc_id time_window_days) in
  fst (calculate_phc_risk_score now s1 phc_id time_window_days) = s1
  /\ snd (calculate_phc_risk_score now s1 phc_id time_window_days)
     = snd (calculate_phc_risk_score now s phc_id time_window_days)
  /\ length (risk_scores
               (fst (calculate_phc_risk_score now' s1 phc_id time_window_days')))
     = length (risk_scores s1).
Proof.
  intros Hne s1.
  assert (Hp : patients s1 = patients s)
    by apply calculate_phc_risk_score_patients.
  assert (Hw : forall n' w', patients_in_window n' s1 phc_id w'
                             = patients_in_window n' s phc_id w')
    by (intros; unfold patients_in_window; rewrite Hp; reflexivity).
  assert (E : (length (patients_in_window now s phc_id time_window_days) =? 0)%nat
              = false).
  { apply Nat.eqb_neq. destruct (patients_in_window now s phc_id time_window_days);
      [contradiction | discriminate]. }
  split; [|split].
  - unfold calculate_phc_risk_score at 1. rewrite Hw, E. cbv zeta. cbn [fst].
    unfold s1, calculate_phc_risk_score. rewrite E. cbv zeta. cbn [fst].
    apply upsert_idempotent.
    + intros x Hx. exact Hx.
    + intro x. reflexivity.
    + simpl. rewrite !String.eqb_refl. reflexivity.
    + reflexivity.
  - apply calculate_phc_risk_score_result. exact Hp.
  - unfold calculate_phc_risk_score at 1. rewrite Hw.
    destruct (length (patients_in_window now' s phc_id time_window_days') =? 0)%nat;
      [reflexivity|].
    cbv zeta. cbn [fst].
    unfold s1, calculate_phc_risk_score. rewrite E. cbv zeta. cbn [fst].
    apply upsert_no_growth.
    + intros x Hx. exact Hx.
    + simpl. rewrite !String.eqb_refl. reflexivity.
Qed.

Lemma site_risk_stored_once_witness :
  length (risk_scores
            (fst (calculate_phc_risk_score 86400
                    (fst (calculate_phc_risk_score 0 city_example_store "PHC_1" 7))
                    "PHC_1" 7)))
  = 1%nat.
Proof.
  destruct (site_risk_stored_once 0 86400 city_example_store "PHC_1" 7 7)
    as (_ & _ & H).
  - vm_compute. discriminate.
  - rewrite H. vm_compute. reflexivity.
Defined.

(** ** Severity levels *)

Lemma Qltb_mono (x y c : Q) : x <= y -> Qltb y c = true -> Qltb x c = true.
Proof.
  intros Hxy H. apply Qltb_true in H. apply Qltb_true.
  apply Qle_lt_trans with y; assumption.
Qed.

(** X24.  Both severity scales are monotone: a higher district or city risk
    never gets a lower level (LOW, MEDIUM, HIGH, CRITICAL at 0.25, 0.50, 0.75),
    and a higher composite score never gets a lower band (LOW, MEDIUM, HIGH at
    30 and 60). *)
Theorem severity_levels_monotone (x y : Q) :
  x <= y ->
  (severity_rank (get_risk_severity_level x)
     <= severity_rank (get_risk_severity_level y))%nat
  /\ (severity_rank (severity_band x) <= severity_rank (severity_band y))%nat.
Proof.
  intro Hxy. split.
  - unfold get_risk_severity_level.
    destruct (Qltb y (25 # 100)) eqn:Y1.
    { rewrite (Qltb_mono x y _ Hxy Y1). apply Nat.le_refl. }
    destruct (Qltb y (50 # 100)) eqn:Y2.
    { destruct (Qltb x (25 # 100)); [vm_compute; lia|].
      rewrite (Qltb_mono x y _ Hxy Y2). apply Nat.le_refl. }
    destruct (Qltb y (75 # 100)) eqn:Y3.
    { destruct (Qltb x (25 # 100)); [vm_compute; lia|].
      destruct (Qltb x (50 # 100)); [vm_compute; lia|].
      rewrite (Qltb_mono x y _ Hxy Y3). apply Nat.le_refl. }
    destruct (Qltb x (25 # 100)); [vm_compute; lia|].
    destruct (Qltb x (50 # 100)); [vm_compute; lia|].
    destruct (Qltb x (75 # 100)); vm_compute; lia.
  - unfold severity_band.
    destruct (Qltb y 30) eqn:Y1.
    { rewrite (Qltb_mono x y _ Hxy Y1). apply Nat.le_refl. }
    destruct (Qltb y 60) eqn:Y2.
    { destruct (Qltb x 30); [vm_compute; lia|].
      rewrite (Qltb_mono x y _ Hxy Y2). apply Nat.le_refl. }
    destruct (Qltb x 30); [vm_compute; lia|].
    destruct (Qltb x 60); vm_compute; lia.
Qed.

Lemma severity_levels_monotone_witness :
  get_risk_severity_level (48 # 100) = "MEDIUM"
  /\ get_risk_severity_level (75 # 100) = "CRITICAL"
  /\ (severity_rank (get_risk_severity_level (48 # 100))
        <= severity_rank (get_risk_severity_level (75 # 100)))%nat.
Proof.
  split; [reflexivity|]. split; [reflexivity|].
  apply (severity_levels_monotone (48 # 100) (75 # 100)).
  vm_compute. discriminate.
Defined.

(** ** The training cycle command *)

Lemma try_automatic_aggregation_nothing (now : Z) (s : Store) :
  listed_all_aggregated s -> try_automatic_aggregation now s = (s, None).
Proof.
  intro H. rewrite try_automatic_aggregation_unfold.
  destruct (fst (fst (should_trigger_global_aggregation s))); [|reflexivity].
  apply aggregate_models_none. apply collect_automatic_empty. exact H.
Qed.

Lemma record_training_completion_global_models (now : Z) (s : Store)
    (phc_id : string) (success : bool) :
  global_models (record_training_completion now s phc_id success) = global_models s.
Proof.
  unfold record_training_completion. destruct (find_metadata s phc_id); reflexivity.
Qed.

Lemma detect_model_drift_global_models (now : Z) (s : Store) (phc_id : string) :
  global_models (fst (detect_model_drift now s phc_id)) = global_models s.
Proof.
  unfold detect_model_drift.
  destruct (first _); [|reflexivity].
  destruct (first _); [|reflexivity].
  simpl. destruct (Qgtb _ 10); reflexivity.
Qed.

Lemma calculate_composite_risk_score_global_models (now : Z) (s : Store)
    (phc_id : string) :
  global_models (fst (calculate_composite_risk_score now s phc_id)) = global_models s.
Proof.
  unfold calculate_composite_risk_score.
  destruct (patients_of s phc_id); reflexivity.
Qed.

Lemma should_trigger_local_training_frame (now : Z) (s : Store) (phc_id : string) :
  local_models (fst (should_trigger_local_training now s phc_id)) = local_models s
  /\ global_models (fst (should_trigger_local_training now s phc_id))
     = global_models s.
Proof.
  unfold should_trigger_local_training.
  destruct (find_metadata s phc_id) as [m|]; [|split; reflexivity].
  destruct (PATIENT_THRESHOLD <=? _)%Z; [split; reflexivity|].
  destruct (tm_last_training_at m); [|split; reflexivity].
  destruct (TIME_THRESHOLD <=? _)%Z; split; reflexivity.
Qed.

Lemma train_federated_model_unlisted (ml : MLBackend) (now : Z) (s : Store)
    (phc_id trigger_reason : string) :
  listed_all_aggregated s ->
  ~ In phc_id aggregation_phc_ids ->
  listed_all_aggregated (fst (train_federated_model ml now s phc_id trigger_reason))
  /\ global_models (fst (train_federated_model ml now s phc_id trigger_reason))
     = global_models s.
Proof.
  intros Hinv Hout. unfold train_federated_model.
  destruct (patients_of s phc_id) as [|p0 pts0]; [split; [exact Hinv | reflexivity]|].
  destruct (preprocess_data (p0 :: pts0) training_feature_columns)
    as [[[X y] features]|msg]; [|split; [exact Hinv | reflexivity]].
  destruct (length X =? 0)%nat; [split; [exact Hinv | reflexivity]|].
  destruct (train_local_model ml X y features) as [error n|md];
    [split; [exact Hinv | reflexivity]|].
  destruct (evaluate_model ml (TrainOk md)) as [error n|error|metrics n];
    [split; [exact Hinv | reflexivity] | split; [exact Hinv | reflexivity] |].
  cbv zeta.
  set (local_model := new_local_model now s phc_id trigger_reason metrics n).
  set (s1 := set_local_models s (local_models s ++ [local_model])%list).
  set (s2 := record_training_completion now s1 phc_id true).
  pose proof (detect_model_drift_local_models now s2 phc_id) as Hl3.
  pose proof (detect_model_drift_global_models now s2 phc_id) as Hg3.
  destruct (detect_model_drift now s2 phc_id) as [s3 drift_result].
  pose proof (calculate_composite_risk_score_local_models now s3 phc_id) as Hl4.
  pose proof (calculate_composite_risk_score_global_models now s3 phc_id) as Hg4.
  destruct (calculate_composite_risk_score now s3 phc_id) as [s4 risk_result].
  simpl in Hl3, Hg3, Hl4, Hg4.
  assert (Hl : local_models s4 = (local_models s ++ [local_model])%list).
  { rewrite Hl4, Hl3. unfold s2.
    rewrite record_training_completion_local_models. reflexivity. }
  assert (Hg : global_models s4 = global_models s).
  { rewrite Hg4, Hg3. unfold s2.
    rewrite record_training_completion_global_models. reflexivity. }
  assert (H4 : listed_all_aggregated s4).
  { intros m Hin Hlisted. rewrite Hl in Hin. apply in_app_or in Hin.
    destruct Hin as [Hin|[<-|[]]]; [exact (Hinv m Hin Hlisted)|].
    exfalso. apply Hout. exact Hlisted. }
  rewrite (try_automatic_aggregation_nothing now s4 H4). simpl.
  split; [exact H4 | exact Hg].
Qed.

Lemma cycle_train_site_unlisted (ml : MLBackend) (now : Z) (s : Store)
    (phc_id : string) :
  listed_all_aggregated s ->
  ~ In phc_id aggregation_phc_ids ->
  listed_all_aggregated (fst (cycle_train_site ml now s phc_id))
  /\ global_models (fst (cycle_train_site ml now s phc_id)) = global_models s.
Proof.
  intros Hinv Hout. unfold cycle_train_site.
  pose proof (should_trigger_local_training_frame now s phc_id) as [Hl Hg].
  destruct (should_trigger_local_training now s phc_id)
    as [s1 [should_train reason]]. simpl in Hl, Hg.
  assert (H1 : listed_all_aggregated s1).
  { intros m Hin. rewrite Hl in Hin. exact (Hinv m Hin). }
  destruct should_train; [|simpl; split; [exact H1 | exact Hg]].
  pose proof (train_federated_model_unlisted ml now s1 phc_id reason H1 Hout)
    as [H2 Hg2].
  destruct (train_federated_model ml now s1 phc_id reason) as [s2 result].
  simpl in H2, Hg2.
  destruct (error_set result); simpl; (split; [exact H2 | congruence]).
Qed.

Lemma cycle_phase1_unlisted (ml : MLBackend) (now : Z) (phc_ids : list string)
    (s : Store) :
  Forall (fun phc_id => ~ In phc_id aggregation_phc_ids) phc_ids ->
  listed_all_aggregated s ->
  listed_all_aggregated (fst (cycle_phase1 ml now s phc_ids))
  /\ global_models (fst (cycle_phase1 ml now s phc_ids)) = global_models s.
Proof.
  intro Hall. revert s. induction Hall as [|phc_id rest Hout _ IH]; intros s Hinv.
  - split; [exact Hinv | reflexivity].
  - simpl.
    pose proof (cycle_train_site_unlisted ml now s phc_id Hinv Hout) as [H1 Hg1].
    destruct (cycle_train_site ml now s phc_id) as [s1 trained].
    simpl in H1, Hg1.
    specialize (IH s1 H1). destruct IH as [H2 Hg2].
    destruct (cycle_phase1 ml now s1 rest) as [s2 trained_rest].
    simpl in *. split; [exact H2 | congruence].
Qed.

Lemma cycle_phc_ids_unlisted :
  Forall (fun phc_id => ~ In phc_id aggregation_phc_ids) cycle_phc_ids.
Proof.
  repeat constructor; intro H; vm_compute in H;
    repeat (destruct H as [H|H]; [discriminate H|]); exact H.
Qed.

(** X18.  The training cycle command trains the sites PHC1..PHC4, which are not
    among the sites the aggregator collects (PHC_1..PHC_4).  Started on a
    store in which no listed site has a model waiting, the cycle therefore
    creates no global model, however many sites it trains: its aggregation
    result is empty and the latest global model is the one from before. *)
Theorem training_cycle_creates_no_global_model (ml : MLBackend) (now : Z)
    (s : Store) :
  listed_all_aggregated s ->
  global_models (fst (federated_training_cycle ml now s)) = global_models s
  /\ cy_aggregation_result (snd (federated_training_cycle ml now s)) = None
  /\ cy_latest_global (snd (federated_training_cycle ml now s))
     = get_latest_global_model s
  /\ listed_all_aggregated (fst (federated_training_cycle ml now s)).
Proof.
  intro Hinv. unfold federated_training_cycle.
  pose proof (cycle_phase1_unlisted ml now cycle_phc_ids s
                cycle_phc_ids_unlisted Hinv) as [H1 Hg1].
  destruct (cycle_phase1 ml now s cycle_phc_ids) as [s1 trained_phcs].
  simpl in H1, Hg1.
  destruct (should_trigger_global_aggregation s1)
    as [[should_aggregate reason] pending_phcs].
  rewrite (try_automatic_aggregation_nothing now s1 H1).
  assert (Hlatest : get_latest_global_model s1 = get_latest_global_model s)
    by (unfold get_latest_global_model; rewrite Hg1; reflexivity).
  destruct should_aggregate; simpl; repeat split; assumption.
Qed.

Lemma training_cycle_creates_no_global_model_witness :
  length (cy_trained_phcs
            (snd (federated_training_cycle toy_backend 0 cycle_example_store)))
    = 3%nat
  /\ global_models (fst (federated_training_cycle toy_backend 0 cycle_example_store))
     = [].
Proof.
  split; [vm_compute; reflexivity|].
  apply (training_cycle_creates_no_global_model toy_backend 0 cycle_example_store).
  intros m Hin. destruct Hin.
Defined.

(** ** The aggregation endpoint *)

Lemma train_federated_model_keeps (ml : MLBackend) (now : Z) (s : Store)
    (phc_id trigger_reason : string) (m : LocalModel) :
  In m (local_models s) ->
  exists m',
    In m' (local_models (fst (train_federated_model ml now s phc_id trigger_reason)))
    /\ same_model m m'.
Proof.
  intro Hin.
  destruct (tr_error (snd (train_federated_model ml now s phc_id trigger_reason)))
    as [error|] eqn:E.
  - rewrite train_federated_model_error_store by (rewrite E; discriminate).
    exists m. split; [exact Hin | apply same_model_refl].
  - destruct (train_federated_model_success ml now s phc_id trigger_reason E)
      as (metrics & n & _ & _ & _ & _ & Hl & _).
    cbv zeta in Hl. apply (Forall2_In_l _ _ _ m Hl).
    apply in_or_app. left. exact Hin.
Qed.

Lemma auto_train_sites_keep (ml : MLBackend) (now : Z) (phc_ids : list string)
    (s : Store) (m : LocalModel) :
  In m (local_models s) ->
  exists m',
    In m' (local_models (fold_left (auto_train_site ml now) phc_ids s))
    /\ same_model m m'.
Proof.
  revert s m. induction phc_ids as [|phc_id rest IH]; intros s m Hin; simpl.
  - exists m. split; [exact Hin | apply same_model_refl].
  - assert (H1 : exists m1, In m1 (local_models (auto_train_site ml now s phc_id))
                            /\ same_model m m1).
    { unfold auto_train_site. destruct (_ && _).
      - apply train_federated_model_keeps. exact Hin.
      - exists m. split; [exact Hin | apply same_model_refl]. }
    destruct H1 as (m1 & Hin1 & S1).
    destruct (IH _ m1 Hin1) as (m2 & Hin2 & S2).
    exists m2. split; [exact Hin2 | eapply same_model_trans; eassumption].
Qed.

Lemma auto_train_sites_idle (ml : MLBackend) (now : Z) (phc_ids : list string)
    (s : Store) :
  (forall phc_id, In phc_id phc_ids -> (length (patients_of s phc_id) < 20)%nat) ->
  fold_left (auto_train_site ml now) phc_ids s = s.
Proof.
  induction phc_ids as [|phc_id rest IH]; intro H; simpl; [reflexivity|].
  assert (E : auto_train_site ml now s phc_id = s).
  { unfold auto_train_site.
    replace (20 <=? length (patients_of s phc_id))%nat with false; [reflexivity|].
    symmetry. apply Nat.leb_gt. apply H. left. reflexivity. }
  rewrite E. apply IH. intros p Hp. apply H. right. exact Hp.
Qed.

(** X19.  The aggregation endpoint: a caller who is not a district admin gets
    403 and nothing changes; an admin gets 400 "no trained models" (and
    nothing changes) when no listed site has a model and none has the twenty
    patients the auto-training asks for; and an admin gets 200 whenever a
    listed site has a model, aggregated before or not, with that site among
    the contributors, all of them listed sites. *)
Theorem aggregate_view_outcomes (ml : MLBackend) (now : Z) (role : string)
    (s : Store) :
  (role <> "DISTRICT_ADMIN" ->
   aggregate_models_view ml now role s = (s, Forbidden403))
  /\ (role = "DISTRICT_ADMIN" ->
      (forall m, In m (local_models s) -> ~ In (lm_phc_id m) aggregation_phc_ids) ->
      (forall phc_id, In phc_id aggregation_phc_ids ->
                      (length (patients_of s phc_id) < 20)%nat) ->
      aggregate_models_view ml now role s = (s, NoModels400))
  /\ (role = "DISTRICT_ADMIN" ->
      forall m, In m (local_models s) -> In (lm_phc_id m) aggregation_phc_ids ->
      exists accuracy contributors version version_string,
        snd (aggregate_models_view ml now role s)
          = Aggregated200 accuracy (length contributors) contributors version
              version_string
        /\ In (lm_phc_id m) contributors
        /\ incl contributors aggregation_phc_ids).
Proof.
  unfold aggregate_models_view. split; [|split].
  - intro Hrole. apply String.eqb_neq in Hrole. rewrite Hrole. reflexivity.
  - intros -> Hnone Hfew. rewrite String.eqb_refl. cbn [negb].
    rewrite (auto_train_sites_idle ml now aggregation_phc_ids s Hfew).
    rewrite (manual_aggregation_none now s Hnone). reflexivity.
  - intros -> m Hin Hlisted. rewrite String.eqb_refl. cbn [negb].
    destruct (auto_train_sites_keep ml now aggregation_phc_ids s m Hin)
      as (m' & Hin' & Hsame).
    destruct Hsame as (_ & Hphc & _).
    destruct (manual_aggregation_some now _ m' Hin') as (s' & r & Hagg & Hc & Hi & Hn).
    { rewrite Hphc. exact Hlisted. }
    rewrite Hagg. cbn [snd].
    exists (py_round (ar_accuracy r) 4), (ar_contributors r), (ar_version r),
      (ar_version_string r).
    rewrite Hn, <- Hphc. repeat split; assumption.
Qed.

Lemma aggregate_view_outcomes_witness :
  aggregate_models_view toy_backend 0 "PHC_USER" aggregated_example_store
    = (aggregated_example_store, Forbidden403)
  /\ aggregate_models_view toy_backend 0 "DISTRICT_ADMIN" empty_store
     = (empty_store, NoModels400).
Proof.
  split.
  - apply (proj1 (aggregate_view_outcomes toy_backend 0 "PHC_USER"
                    aggregated_example_store)).
    discriminate.
  - apply (proj1 (proj2 (aggregate_view_outcomes toy_backend 0 "DISTRICT_ADMIN"
                           empty_store))).
    + reflexivity.
    + intros m [].
    + intros phc_id _. vm_compute. lia.
Defined.

(** ** Sites do not interfere *)

Lemma find_replace_metadata_other (m : TrainingMetadata) (l : list TrainingMetadata)
    (phc_id : string) :
  tm_phc_id m <> phc_id ->
  find (fun x => String.eqb (tm_phc_id x) phc_id) (replace_metadata m l)
  = find (fun x => String.eqb (tm_phc_id x) phc_id) l.
Proof.
  intro Hne. induction l as [|x l IH]; simpl; [reflexivity|].
  destruct (String.eqb (tm_phc_id x) (tm_phc_id m)) eqn:E; simpl.
  - apply String.eqb_eq in E.
    replace (String.eqb (tm_phc_id m) phc_id) with false
      by (symmetry; apply String.eqb_neq; exact Hne).
    replace (String.eqb (tm_phc_id x) phc_id) with false
      by (symmetry; apply String.eqb_neq; rewrite E; exact Hne).
    reflexivity.
  - destruct (String.eqb (tm_phc_id x) phc_id); [reflexivity | exact IH].
Qed.

Lemma find_metadata_save_other (s : Store) (m : TrainingMetadata) (phc_id : string) :
  tm_phc_id m <> phc_id ->
  find_metadata (save_metadata s m) phc_id = find_metadata s phc_id.
Proof.
  intro Hne. unfold find_metadata, save_metadata. simpl.
  apply find_replace_metadata_other. exact Hne.
Qed.

Lemma find_metadata_create_other (s : Store) (m : TrainingMetadata)
    (phc_id : string) :
  tm_phc_id m <> phc_id ->
  find_metadata (create_metadata s m) phc_id = find_metadata s phc_id.
Proof.
  intro Hne. unfold find_metadata, create_metadata. simpl.
  induction (training_metadata s) as [|x l IH]; simpl.
  - replace (String.eqb (tm_phc_id m) phc_id) with false
      by (symmetry; apply String.eqb_neq; exact Hne).
    reflexivity.
  - destruct (String.eqb (tm_phc_id x) phc_id); [reflexivity | exact IH].
Qed.

Lemma increment_patient_count_other (now : Z) (s : Store) (phc_id other : string) :
  other <> phc_id ->
  find_metadata (increment_patient_count now s phc_id) other = find_metadata s other.
Proof.
  intro Hne. unfold increment_patient_count.
  destruct (find_metadata s phc_id) as [m|] eqn:E.
  - apply find_metadata_save_other. simpl.
    rewrite (find_metadata_phc s phc_id m E). congruence.
  - apply find_metadata_create_other. simpl. congruence.
Qed.

Lemma record_training_completion_other (now : Z) (s : Store) (phc_id other : string)
    (success : bool) :
  other <> phc_id ->
  find_metadata (record_training_completion now s phc_id success) other
  = find_metadata s other.
Proof.
  intro Hne. unfold record_training_completion.
  destruct (find_metadata s phc_id) as [m|] eqn:E; [|reflexivity].
  apply find_metadata_save_other. simpl.
  rewrite (find_metadata_phc s phc_id m E). congruence.
Qed.

Lemma train_federated_model_other (ml : MLBackend) (now : Z) (s : Store)
    (phc_id trigger_reason other : string) :
  other <> phc_id ->
  find_metadata (fst (train_federated_model ml now s phc_id trigger_reason)) other
  = find_metadata s other.
Proof.
  intro Hne.
  destruct (tr_error (snd (train_federated_model ml now s phc_id trigger_reason)))
    as [error|] eqn:E.
  - rewrite train_federated_model_error_store by (rewrite E; discriminate).
    reflexivity.
  - destruct (train_federated_model_success ml now s phc_id trigger_reason E)
      as (metrics & n & _ & _ & _ & _ & _ & Hm & _).
    cbv zeta in Hm. rewrite (find_metadata_ext _ _ other Hm).
    apply record_training_completion_other. exact Hne.
Qed.

(** X17.  A patient event of one site, whatever it triggers (counting,
    locking, training, aggregation), leaves the training metadata of every
    other site as it was: its counter, its lock and the date of its last
    training. *)
Theorem patient_event_leaves_other_sites (ml : MLBackend) (now : Z) (s : Store)
    (phc_id other : string) :
  other <> phc_id ->
  find_metadata (fst (handle_patient_creation ml now s phc_id)) other
  = find_metadata s other.
Proof.
  intro Hne. rewrite handle_patient_creation_steps. cbv zeta.
  pose proof (increment_patient_count_other now s phc_id other Hne) as H1.
  pose proof (counted_phc now s phc_id) as Hphc.
  set (s1 := increment_patient_count now s phc_id) in *.
  set (m1 := counted now s phc_id) in *.
  destruct (negb (fst (trigger_decision now m1))); [exact H1|].
  destruct (tm_training_in_progress m1); [exact H1|].
  assert (H3 : find_metadata (set_training_lock s1 m1) other = find_metadata s other).
  { unfold set_training_lock. rewrite find_metadata_save_other; [exact H1|].
    simpl. congruence. }
  destruct (tr_error _) as [error|]; cbn [fst].
  - rewrite record_training_completion_other by exact Hne. exact H3.
  - rewrite record_training_completion_other by exact Hne.
    rewrite train_federated_model_other by exact Hne. exact H3.
Qed.

Lemma patient_event_leaves_other_sites_witness :
  model_trained (snd (handle_patient_creation toy_backend 0 ready_example_store
                        "PHC_1")) = true
  /\ find_metadata (fst (handle_patient_creation toy_backend 0 ready_example_store
                           "PHC_1")) "PHC_2"
     = find_metadata ready_example_store "PHC_2".
Proof.
  split; [vm_compute; reflexivity|].
  apply (patient_event_leaves_other_sites toy_backend 0 ready_example_store
           "PHC_1" "PHC_2").
  discriminate.
Defined.

(** ** Runs of the examples *)

Lemma post_training_risk_counts_keywords_witness :
  exists r,
    tr_composite_risk_score
      (snd (train_federated_model toy_backend 0 training_example_store
              "PHC_1" "manual"))
      = Some (CompositeScore r).
Proof.
  destruct (post_training_risk_counts_keywords toy_backend 0 training_example_store
              "PHC_1" "manual") as (r & Hr & _).
  - reflexivity.
  - exists r. exact Hr.
Defined.

Lemma single_window_no_outbreak_witness :
  exists latest_count mean_report,
    detect_fever_outbreak approx_sqrt 0 quiet_example_store "PHC_1" 7
      = (quiet_example_store,
         OutbreakReport "PHC_1" false (py_round 0 4) latest_count mean_report 7).
Proof.
  apply (single_window_no_outbreak approx_sqrt 0 quiet_example_store "PHC_1" 7).
  - vm_compute. discriminate.
  - vm_compute. reflexivity.
Defined.

(** ** What a trained model guarantees *)

(** X2.  When the local trainer returns a model, its input had passed every
    check: at least ten rows, as many labels as rows, no NaN or infinity, no
    feature named "diagnosis", at least two classes and a non-empty test
    split.  The classes kept with the model are the distinct labels, each
    once; every label has a code below the number of classes, and decoding
    the encoded labels gives the labels back, so the evaluator compares
    predictions with the diagnoses the patients were recorded with. *)
Theorem trained_model_guarantees (ml : MLBackend) (X : matrix) (y : list string)
    (feature_columns : list string) (md : ModelData ml) :
  train_local_model ml X y feature_columns = TrainOk md ->
  (10 <= length X)%nat
  /\ length X = length y
  /\ existsb (existsb is_nan) X || existsb (existsb is_inf) X = false
  /\ ~ In "diagnosis" feature_columns
  /\ (2 <= length (md_label_classes md))%nat
  /\ NoDup (md_label_classes md)
  /\ (forall label, In label (md_label_classes md) <-> In label y)
  /\ md_X_test md <> []
  /\ Forall (fun code => (code < length (md_label_classes md))%nat)
            (label_encode (md_label_classes md) y)
  /\ inverse_transform (md_label_classes md) (label_encode (md_label_classes md) y)
     = Ok y.
Proof.
  intro Htrain.
  destruct (train_local_model_split ml X y feature_columns md Htrain)
    as (X_scaled & stratify & split & _ & _ & Hxt & _ & _ & _ & Hcls & Hne).
  rewrite Hcls, Hxt.
  destruct (np_unique_spec y) as (_ & Hnd & Hin).
  destruct (label_encoding_round_trip y) as [Hcodes Hround].
  unfold train_local_model in Htrain.
  destruct (length X <? 10)%nat eqn:E1; [discriminate|].
  destruct (negb (length X =? length y)%nat) eqn:E2; [discriminate|].
  destruct (existsb (existsb is_nan) X || existsb (existsb is_inf) X) eqn:E3;
    [discriminate|].
  destruct (existsb (String.eqb "diagnosis") feature_columns) eqn:E4;
    [discriminate|].
  destruct (length (np_unique y) <? 2)%nat eqn:E5; [discriminate|].
  apply Nat.ltb_ge in E1, E5. apply negb_false_iff, Nat.eqb_eq in E2.
  split; [exact E1|]. split; [exact E2|]. split; [reflexivity|].
  split.
  { intro Hd. apply existsb_eqb_In in Hd. congruence. }
  repeat (split; [assumption|]). exact Hround.
Qed.

Lemma trained_model_guarantees_witness :
  exists md : ModelData toy_backend,
    train_local_model toy_backend leakage_example_X leakage_example_y
      ["fever"; "cough"] = TrainOk md
    /\ md_label_classes md = ["Dengue"; "Healthy"]
    /\ NoDup (md_label_classes md).
Proof.
  destruct (train_local_model toy_backend leakage_example_X leakage_example_y
              ["fever"; "cough"]) as [error n|md] eqn:E;
    [vm_compute in E; discriminate|].
  exists md. split; [reflexivity|].
  destruct (trained_model_guarantees toy_backend leakage_example_X leakage_example_y
              ["fever"; "cough"] md E) as (_ & _ & _ & _ & _ & Hnd & _).
  split; [|exact Hnd].
  vm_compute in E. injection E as <-. reflexivity.
Defined.

(** ** The two risk scores in closed form *)

Lemma count_if_le {A : Type} (f : A -> bool) (l : list A) :
  (count_if f l <= length l)%nat.
Proof.
  unfold count_if. induction l as [|x l IH]; simpl; [lia|].
  destruct (f x); simpl; lia.
Qed.

Lemma fraction_unit (k n : nat) :
  (k <= n)%nat -> (0 < n)%nat -> 0 <= Qnat k / Qnat n /\ Qnat k / Qnat n <= 1.
Proof.
  intros Hk Hn. unfold Qnat.
  assert (Hpos : 0 < inject_Z (Z.of_nat n)).
  { change 0 with (inject_Z 0). rewrite <- Zlt_Qlt. lia. }
  split.
  - apply Qle_shift_div_l; [exact Hpos|]. rewrite Qmult_0_l.
    change 0 with (inject_Z 0). rewrite <- Zle_Qle. lia.
  - apply Qle_shift_div_r; [exact Hpos|]. rewrite Qmult_1_l.
    rewrite <- Zle_Qle. lia.
Qed.

(** X20.  The two risk scores in closed form.  In exact arithmetic neither
    score reaches its clamp: the site risk stored for a site with patients in
    the window is 0.4 times the high-severity fraction plus 0.6 times the
    diagnosed fraction, between 0 and 1; the composite score of a site with
    patients is the weighted sum of its three percentages, between 0 and 100
    (the keyword percentage counting as 0 while the site has no model). *)
Theorem risk_scores_closed_form (now : Z) (s : Store) (phc_id : string) :
  (forall time_window_days,
     let pts := patients_in_window now s phc_id time_window_days in
     let n := length pts in
     let high := count_if (fun p => String.eqb (pt_severity_level p) "High") pts in
     let diseased :=
       count_if (fun p => negb (String.eqb (pt_disease_label p) "Healthy")) pts in
     pts <> [] ->
     exists s' r row,
       calculate_phc_risk_score now s phc_id time_window_days = (s', r)
       /\ In row (risk_scores s')
       /\ rs_phc_id row = Some phc_id
       /\ rs_phc_risk_score row
          == (4 # 10) * (Qnat high / Qnat n) + (6 # 10) * (Qnat diseased / Qnat n)
       /\ 0 <= rs_phc_risk_score row /\ rs_phc_risk_score row <= 1)
  /\ (let pts := patients_of s phc_id in
      let n := length pts in
      let fever_pct := percentage (count_if (fun p => (pt_fever p =? 1)%Z) pts) n in
      let keyword_pct :=
        match get_latest_local_model s phc_id with
        | Some _ => percentage (count_if matches_disease_keyword pts) n
        | None => 0
        end in
      let wbc_pct := percentage (count_if abnormal_wbc pts) n in
      pts <> [] ->
      exists s' r a,
        calculate_composite_risk_score now s phc_id = (s', CompositeScore r)
        /\ alerts s' = (alerts s ++ [a])%list
        /\ al_risk_score a
           == (4 # 10) * fever_pct + (3 # 10) * keyword_pct + (3 # 10) * wbc_pct
        /\ 0 <= al_risk_score a /\ al_risk_score a <= 100).
Proof.
  split.
  - intros w pts n high diseased Hne.
    destruct (site_risk_formula now s phc_id w Hne)
      as (s' & r & row & Hcalc & Hin & Hphc & Hscore & _).
    fold pts in Hscore. fold n in Hscore. fold high in Hscore.
    fold diseased in Hscore.
    assert (Hn : (0 < n)%nat).
    { unfold n. destruct pts; [contradiction | simpl; lia]. }
    destruct (fraction_unit high n (count_if_le _ pts) Hn) as [Ha0 Ha1].
    destruct (fraction_unit diseased n (count_if_le _ pts) Hn) as [Hb0 Hb1].
    assert (Hval : rs_phc_risk_score row
                   == (4 # 10) * (Qnat high / Qnat n)
                      + (6 # 10) * (Qnat diseased / Qnat n)).
    { rewrite Hscore. unfold site_risk_spec.
      revert Ha0 Ha1 Hb0 Hb1.
      generalize (Qnat high / Qnat n), (Qnat diseased / Qnat n).
      intros a b Ha0 Ha1 Hb0 Hb1.
      rewrite Q.min_l by lra. ring. }
    exists s', r, row. repeat (split; [assumption|]).
    rewrite Hval. revert Ha0 Ha1 Hb0 Hb1.
    generalize (Qnat high / Qnat n), (Qnat diseased / Qnat n).
    intros a b Ha0 Ha1 Hb0 Hb1. split; lra.
  - intros pts n fever_pct keyword_pct wbc_pct Hne.
    destruct (composite_risk_score_value now s phc_id Hne)
      as (s' & r & a & Hcalc & Halerts & _ & Hscore & _).
    cbv zeta in Hscore. fold pts in Hscore. fold n in Hscore.
    fold fever_pct in Hscore. fold keyword_pct in Hscore. fold wbc_pct in Hscore.
    assert (Hn : (0 < n)%nat).
    { unfold n. destruct pts; [contradiction | simpl; lia]. }
    assert (Hpct : forall k, (k <= n)%nat ->
                             0 <= percentage k n /\ percentage k n <= 100).
    { intros k Hk. unfold percentage.
      destruct (fraction_unit k n Hk Hn) as [H0 H1].
      revert H0 H1. generalize (Qnat k / Qnat n). intros q H0 H1. split; lra. }
    destruct (Hpct _ (count_if_le (fun p => (pt_fever p =? 1)%Z) pts)) as [Hf0 Hf1].
    destruct (Hpct _ (count_if_le abnormal_wbc pts)) as [Hw0 Hw1].
    assert (Hk : 0 <= keyword_pct /\ keyword_pct <= 100).
    { unfold keyword_pct. destruct (get_latest_local_model s phc_id).
      - apply Hpct. apply count_if_le.
      - split; [apply Qle_refl | discriminate]. }
    destruct Hk as [Hk0 Hk1].
    fold fever_pct in Hf0, Hf1. fold wbc_pct in Hw0, Hw1.
    assert (Hval : al_risk_score a
                   == (4 # 10) * fever_pct + (3 # 10) * keyword_pct
                      + (3 # 10) * wbc_pct).
    { rewrite Hscore. unfold composite_score_spec.
      revert Hf0 Hf1 Hk0 Hk1 Hw0 Hw1.
      generalize fever_pct, keyword_pct, wbc_pct. intros f k w0 Hf0 Hf1 Hk0 Hk1 Hw0 Hw1.
      rewrite Q.min_r by lra. rewrite Q.max_r by lra. reflexivity. }
    exists s', r, a. split; [exact Hcalc|]. split; [exact Halerts|].
    split; [exact Hval|].
    rewrite Hval. revert Hf0 Hf1 Hk0 Hk1 Hw0 Hw1.
    generalize fever_pct, keyword_pct, wbc_pct. intros f k w0 Hf0 Hf1 Hk0 Hk1 Hw0 Hw1.
    split; lra.
Qed.

Lemma risk_scores_closed_form_witness :
  exists s' r row,
    calculate_phc_risk_score 0 city_example_store "PHC_1" 7 = (s', r)
    /\ In row (risk_scores s')
    /\ rs_phc_risk_score row <= 1.
Proof.
  destruct (proj1 (risk_scores_closed_form 0 city_example_store "PHC_1") 7%Z)
    as (s' & r & row & Hcalc & Hin & _ & _ & _ & Hle).
  - vm_compute. discriminate.
  - exists s', r, row. repeat split; assumption.
Defined.
